(** * saasbot: the data synchronisation core, embedded and verified

    A shallow embedding of the parts of the repository that the
    specification's properties talk about:

    - [Unicode]: Python strings as UTF-8 bytes, with the white space and
                 the decimal digits of Unicode
    - [Param]  : src/param_generator.py  (request signature, generated
                 parameters)
    - [Sched]  : src/scheduler.py        (daily and interval task loops,
                 the task registry)
    - [Auth]   : src/auth_manager.py     (token cache, TOTP window search)
    - [Reader] : src/api_data_reader.py  (the reader's own login session
                 and the token file of src/config_loader.py)
    - [Sheets] : src/google_sheets_writer.py (rate limit, retry executor,
                 daily and hourly upserts, against a model of the remote
                 tabular service)
    - [Queue]  : src/google_sheets_writer.py (the operation queue and its
                 worker, as a transition system)
    - [Setup]  : src/google_sheets_writer.py (sheet creation and header
                 row, against the same service extended with addSheet)
    - [Manager]: src/api_data_sender_manager.py (report time conversion,
                 grouping of the reports, the write sequence per group)

    The definitions come first, module by module; the properties follow in
    the modules [ParamFacts], [SchedFacts], [AuthFacts], [ReaderFacts],
    [SheetsFacts], [QueueFacts], [ManagerFacts] and [SetupFacts].

    Times are integers (seconds, milliseconds or microseconds, as said at
    each use); Python dictionaries with one fixed key set are records,
    caches are [gmap]s, JSON objects are association lists in insertion
    order. *)

From Stdlib Require Import ZArith List String Ascii Bool Lia.
From Stdlib Require Import DecimalString Sorted.
From Stdlib Require DecimalZ DecimalPos.
From stdpp Require Import base option list gmap strings.
Import ListNotations.

Local Open Scope string_scope.
Local Open Scope list_scope.
Local Open Scope Z_scope.

Set Warnings "-register-all".

(* ===================================================================== *)
(** ** Python strings *)
(* ===================================================================== *)

Module Unicode.

(** A Python [str] is held as the bytes of its UTF-8 form, so that two
    strings are equal when their bytes are. Where the code looks at the
    characters of a string ([str.strip], the pattern [\d], [int]),
    [code_points] reads them back. A byte that starts no well-formed
    sequence stands for no character of a Python string; it is read as the
    code DC00 + byte, which is neither white space nor a digit. *)

Definition bytes (s : string) : list Z :=
  List.map (fun c => Z.of_N (N_of_ascii c)) (list_ascii_of_string s).

Definition is_continuation (b : Z) : bool := (128 <=? b) && (b <=? 191).

Definition escape (b : Z) : Z := 0xDC00 + b.

Fixpoint decode (bs : list Z) : list Z :=
  match bs with
  | [] => []
  | b :: rest =>
      if b <? 128 then b :: decode rest
      else
        match rest with
        | c1 :: rest1 =>
            if (194 <=? b) && (b <=? 223) && is_continuation c1 then
              ((b - 192) * 64 + (c1 - 128)) :: decode rest1
            else
              match rest1 with
              | c2 :: rest2 =>
                  let cp3 := (b - 224) * 4096 + (c1 - 128) * 64 + (c2 - 128) in
                  if (224 <=? b) && (b <=? 239) && is_continuation c1 && is_continuation c2
                     && (0x800 <=? cp3) && negb ((0xD800 <=? cp3) && (cp3 <=? 0xDFFF))
                  then cp3 :: decode rest2
                  else
                    match rest2 with
                    | c3 :: rest3 =>
                        let cp4 := (b - 240) * 262144 + (c1 - 128) * 4096
                                   + (c2 - 128) * 64 + (c3 - 128) in
                        if (240 <=? b) && (b <=? 244) && is_continuation c1
                           && is_continuation c2 && is_continuation c3
                           && (0x10000 <=? cp4) && (cp4 <=? 0x10FFFF)
                        then cp4 :: decode rest3
                        else escape b :: decode rest
                    | [] => escape b :: decode rest
                    end
              | [] => escape b :: decode rest
              end
        | [] => [escape b]
        end
  end.

Definition code_points (s : string) : list Z := decode (bytes s).

(** [str.isspace] of one character, which is what [str.strip()] strips: the
    characters of bidirectional type WS, B or S and of category Zs. *)
Definition is_space (c : Z) : bool :=
  ((0x09 <=? c) && (c <=? 0x0D)) || ((0x1C <=? c) && (c <=? 0x20)) ||
  (c =? 0x85) || (c =? 0xA0) || (c =? 0x1680) ||
  ((0x2000 <=? c) && (c <=? 0x200A)) ||
  (c =? 0x2028) || (c =? 0x2029) || (c =? 0x202F) || (c =? 0x205F) || (c =? 0x3000).

(** The digit zero of every script with decimal digits (category Nd), as of
    Unicode 14.0, the table of CPython 3.11; the digits one to nine follow
    each of them. Later versions of the table add scripts. *)
Definition zero_digits : list Z :=
  [ 0x30; 0x660; 0x6f0; 0x7c0; 0x966; 0x9e6; 0xa66; 0xae6; 0xb66; 0xbe6; 0xc66;
    0xce6; 0xd66; 0xde6; 0xe50; 0xed0; 0xf20; 0x1040; 0x1090; 0x17e0; 0x1810;
    0x1946; 0x19d0; 0x1a80; 0x1a90; 0x1b50; 0x1bb0; 0x1c40; 0x1c50; 0xa620;
    0xa8d0; 0xa900; 0xa9d0; 0xa9f0; 0xaa50; 0xabf0; 0xff10; 0x104a0; 0x10d30;
    0x11066; 0x110f0; 0x11136; 0x111d0; 0x112f0; 0x11450; 0x114d0; 0x11650;
    0x116c0; 0x11730; 0x118e0; 0x11950; 0x11c50; 0x11d50; 0x11da0; 0x16a60;
    0x16ac0; 0x16b50; 0x1d7ce; 0x1d7d8; 0x1d7e2; 0x1d7ec; 0x1d7f6; 0x1e140;
    0x1e2f0; 0x1e950; 0x1fbf0 ].

(** The value of a decimal digit: what [\d] matches in a pattern on [str],
    and what [int] reads. *)
Definition decimal (c : Z) : option Z :=
  match List.find (fun z => (z <=? c) && (c <=? z + 9)) zero_digits with
  | Some z => Some (c - z)
  | None => None
  end.

End Unicode.

(* ===================================================================== *)
(** ** src/param_generator.py *)
(* ===================================================================== *)

Module Param.

(** *** hashlib.md5 (RFC 1321), on 32-bit words held in [Z] *)

Definition mask32 : Z := 0xffffffff.

Definition add32 (a b : Z) : Z := Z.land (a + b) mask32.

Definition not32 (a : Z) : Z := Z.lxor a mask32.

Definition rotl32 (x c : Z) : Z :=
  Z.land (Z.lor (Z.shiftl x c) (Z.shiftr x (32 - c))) mask32.

Definition md5_K : list Z :=
  [ 0xd76aa478; 0xe8c7b756; 0x242070db; 0xc1bdceee;
    0xf57c0faf; 0x4787c62a; 0xa8304613; 0xfd469501;
    0x698098d8; 0x8b44f7af; 0xffff5bb1; 0x895cd7be;
    0x6b901122; 0xfd987193; 0xa679438e; 0x49b40821;
    0xf61e2562; 0xc040b340; 0x265e5a51; 0xe9b6c7aa;
    0xd62f105d; 0x02441453; 0xd8a1e681; 0xe7d3fbc8;
    0x21e1cde6; 0xc33707d6; 0xf4d50d87; 0x455a14ed;
    0xa9e3e905; 0xfcefa3f8; 0x676f02d9; 0x8d2a4c8a;
    0xfffa3942; 0x8771f681; 0x6d9d6122; 0xfde5380c;
    0xa4beea44; 0x4bdecfa9; 0xf6bb4b60; 0xbebfbc70;
    0x289b7ec6; 0xeaa127fa; 0xd4ef3085; 0x04881d05;
    0xd9d4d039; 0xe6db99e5; 0x1fa27cf8; 0xc4ac5665;
    0xf4292244; 0x432aff97; 0xab9423a7; 0xfc93a039;
    0x655b59c3; 0x8f0ccc92; 0xffeff47d; 0x85845dd1;
    0x6fa87e4f; 0xfe2ce6e0; 0xa3014314; 0x4e0811a1;
    0xf7537e82; 0xbd3af235; 0x2ad7d2bb; 0xeb86d391 ].

Definition md5_S : list Z :=
  [ 7; 12; 17; 22; 7; 12; 17; 22; 7; 12; 17; 22; 7; 12; 17; 22;
    5;  9; 14; 20; 5;  9; 14; 20; 5;  9; 14; 20; 5;  9; 14; 20;
    4; 11; 16; 23; 4; 11; 16; 23; 4; 11; 16; 23; 4; 11; 16; 23;
    6; 10; 15; 21; 6; 10; 15; 21; 6; 10; 15; 21; 6; 10; 15; 21 ].

(** The message as bytes, then padded: 0x80, zeros up to 56 mod 64, and the
    bit length as 8 little-endian bytes. *)
Definition bytes_of_string (s : string) : list Z :=
  List.map (fun c => Z.of_N (N_of_ascii c)) (list_ascii_of_string s).

Definition le_bytes (n : nat) (x : Z) : list Z :=
  List.map (fun i => Z.land (Z.shiftr x (8 * Z.of_nat i)) 0xff) (seq 0 n).

Definition md5_pad (msg : list Z) : list Z :=
  let len := Z.of_nat (List.length msg) in
  let zeros := Z.to_nat ((55 - len) mod 64) in
  msg ++ [0x80] ++ repeat 0 zeros ++ le_bytes 8 (8 * len).

Fixpoint le_word (bs : list Z) : Z :=
  match bs with
  | [] => 0
  | b :: r => b + 256 * le_word r
  end.

Fixpoint chunks (fuel n : nat) (l : list Z) : list (list Z) :=
  match fuel with
  | O => []
  | S f =>
      match l with
      | [] => []
      | _ => firstn n l :: chunks f n (skipn n l)
      end
  end.

Definition words_of_block (blk : list Z) : list Z :=
  List.map le_word (chunks 16 4 blk).

Record md5_state := MkMd5 { md5_a : Z; md5_b : Z; md5_c : Z; md5_d : Z }.

Definition md5_init : md5_state :=
  MkMd5 0x67452301 0xefcdab89 0x98badcfe 0x10325476.

Definition md5_round (M : list Z) (st : md5_state) (i : nat) : md5_state :=
  let '(MkMd5 A B C D) := st in
  let iz := Z.of_nat i in
  let '(F, g) :=
    if iz <? 16 then (Z.lor (Z.land B C) (Z.land (not32 B) D), iz)
    else if iz <? 32 then (Z.lor (Z.land D B) (Z.land (not32 D) C), (5 * iz + 1) mod 16)
    else if iz <? 48 then (Z.lxor (Z.lxor B C) D, (3 * iz + 5) mod 16)
    else (Z.lxor C (Z.lor B (not32 D)), (7 * iz) mod 16) in
  let F' := add32 (add32 (add32 F A) (nth i md5_K 0)) (nth (Z.to_nat g) M 0) in
  MkMd5 D (add32 B (rotl32 F' (nth i md5_S 0))) B C.

Definition md5_block (st : md5_state) (blk : list Z) : md5_state :=
  let M := words_of_block blk in
  let st' := fold_left (md5_round M) (seq 0 64) st in
  MkMd5 (add32 (md5_a st) (md5_a st')) (add32 (md5_b st) (md5_b st'))
        (add32 (md5_c st) (md5_c st')) (add32 (md5_d st) (md5_d st')).

Definition md5_digest (msg : list Z) : list Z :=
  let padded := md5_pad msg in
  let st := fold_left md5_block (chunks (List.length padded) 64 padded) md5_init in
  le_bytes 4 (md5_a st) ++ le_bytes 4 (md5_b st) ++
  le_bytes 4 (md5_c st) ++ le_bytes 4 (md5_d st).

Definition hex_digit_upper (d : Z) : string :=
  String.substring (Z.to_nat d) 1 "0123456789ABCDEF".

Definition hex_byte_upper (b : Z) : string :=
  hex_digit_upper (Z.shiftr b 4) ++ hex_digit_upper (Z.land b 0xf).

(** [hashlib.md5(s.encode('utf-8')).hexdigest().upper()]; a [string] here is
    the UTF-8 byte sequence. *)
Definition md5_hex_upper (s : string) : string :=
  String.concat "" (List.map hex_byte_upper (md5_digest (bytes_of_string s))).

(** *** JSON values and json.dumps *)

(** A Python value as [json.loads] produces it and [json.dumps] accepts it;
    numbers are integers, an object keeps its insertion order. *)
Inductive json : Type :=
| JNull
| JBool (b : bool)
| JInt (n : Z)
| JStr (s : string)
| JList (l : list json)
| JDict (d : list (string * json)).

Definition string_of_Z (n : Z) : string :=
  NilZero.string_of_int (Z.to_int n).

Definition hex_digit_lower (d : Z) : string :=
  String.substring (Z.to_nat d) 1 "0123456789abcdef".

Definition dquote : string := String "034"%char EmptyString.

(** The escapes of [json.dumps(..., ensure_ascii=False)]: the quote, the
    backslash and the control characters below 0x20. *)
Definition json_escape_char (c : ascii) : string :=
  let n := Z.of_N (N_of_ascii c) in
  if n =? 34 then "\" ++ dquote
  else if n =? 92 then "\\"
  else if n =? 10 then "\n"
  else if n =? 13 then "\r"
  else if n =? 9 then "\t"
  else if n =? 8 then "\b"
  else if n =? 12 then "\f"
  else if n <? 32 then "\u00" ++ hex_digit_lower (Z.shiftr n 4) ++ hex_digit_lower (Z.land n 0xf)
  else String c EmptyString.

Definition json_quote (s : string) : string :=
  dquote ++ String.concat "" (List.map json_escape_char (list_ascii_of_string s)) ++ dquote.

(** [json.dumps(v, separators=(',', ':'), ensure_ascii=False)]. *)
Fixpoint dumps (v : json) : string :=
  match v with
  | JNull => "null"
  | JBool true => "true"
  | JBool false => "false"
  | JInt n => string_of_Z n
  | JStr s => json_quote s
  | JList l => "[" ++ String.concat "," (List.map dumps l) ++ "]"
  | JDict d =>
      "{" ++ String.concat ","
               (List.map (fun kv => (json_quote (fst kv) ++ ":" ++ dumps (snd kv))%string) d)
          ++ "}"
  end.

(** [sorted(obj.items())]: the items of a dict have distinct keys, so the
    tuples are ordered by key alone, strings comparing by code point (which is
    the byte order of their UTF-8 form). *)
Fixpoint insert_item {A : Type} (kv : string * A) (l : list (string * A)) : list (string * A) :=
  match l with
  | [] => [kv]
  | kv' :: r =>
      if String.leb (fst kv) (fst kv') then kv :: l else kv' :: insert_item kv r
  end.

Definition sorted_items {A : Type} (d : list (string * A)) : list (string * A) :=
  fold_right insert_item [] d.

Definition exclude_keys : list string := ["timestamp"; "signature"; "track"].

Definition excluded (k : string) : bool :=
  existsb (String.eqb k) exclude_keys.

Definition is_list (v : json) : bool :=
  match v with JList _ => true | _ => false end.

Definition is_dict (v : json) : bool :=
  match v with JDict _ => true | _ => false end.

(** The inner function of [generate_signature]. The comprehension
    [{k: sort_and_stringify(v) for k, v in sorted(obj.items()) if k not in
    exclude_keys and not isinstance(v, list)}] selects on the key and on the
    original value [v]; the recursive call is made here on every value before
    the selection (each item carries its original value along), which gives the
    same dictionary. *)
Fixpoint sort_and_stringify (obj : json) : json :=
  match obj with
  | JDict d =>
      let items := List.map (fun kv => (fst kv, (snd kv, sort_and_stringify (snd kv)))) d in
      let kept :=
        List.filter (fun kvv => negb (excluded (fst kvv)) && negb (is_list (fst (snd kvv))))
                    (sorted_items items) in
      JStr (dumps (JDict (List.map (fun kvv => (fst kvv, snd (snd kvv))) kept)))
  | _ => obj
  end.

(** [ParamGenerator.generate_signature(data)]: [None] stands for the
    AttributeError of [.encode] on a value that is not a string (when [data]
    is neither a dict nor a str). *)
Definition generate_signature (data : json) : option string :=
  match sort_and_stringify data with
  | JStr sorted_json_str => Some (md5_hex_upper sorted_json_str)
  | _ => None
  end.

(** *** The reference definition, from the specification's words *)

(** Canonical JSON: keys sorted at every level, no whitespace. *)
Fixpoint sort_keys (v : json) : json :=
  match v with
  | JList l => JList (List.map sort_keys l)
  | JDict d => JDict (sorted_items (List.map (fun kv => (fst kv, sort_keys (snd kv))) d))
  | _ => v
  end.

Definition canonical_json (v : json) : string := dumps (sort_keys v).

(** Uppercase hexadecimal MD5 of the canonical JSON of all fields except
    timestamp, signature and track. *)
Definition reference_signature (fields : list (string * json)) : string :=
  md5_hex_upper
    (canonical_json (JDict (List.filter (fun kv => negb (excluded (fst kv))) fields))).

(** *** Dictionaries, the clock and the random source *)

(** [d.get(k)], [d[k] = v] (an existing key keeps its place, a new one goes
    to the end) and [if k in d: del d[k]], on a dict held in insertion
    order. *)
Fixpoint dict_get {A : Type} (k : string) (d : list (string * A)) : option A :=
  match d with
  | [] => None
  | kv :: r => if String.eqb (fst kv) k then Some (snd kv) else dict_get k r
  end.

Fixpoint dict_set {A : Type} (k : string) (v : A) (d : list (string * A))
  : list (string * A) :=
  match d with
  | [] => [(k, v)]
  | kv :: r => if String.eqb (fst kv) k then (fst kv, v) :: r else kv :: dict_set k v r
  end.

Definition dict_del {A : Type} (k : string) (d : list (string * A)) : list (string * A) :=
  List.filter (fun kv => negb (String.eqb (fst kv) k)) d.

(** What the generator reads from outside: [int(time.time())] and the
    numbers the random generator hands out next (each [random.choice(seq)]
    uses one, taken modulo [len(seq)]; an exhausted source gives 0). *)
Record world := MkWorld {
  now : Z;
  choices : list nat
}.

(** [int(s)] on the strings the module builds: decimal digits with an
    optional minus sign; [None] on the empty string, a lone sign or another
    character. *)
Definition int_of_decimal (s : string) : option Z :=
  option_map Z.of_int (NilZero.int_of_string s).

(** [random.choice(seq)] for a non-empty string [seq]. *)
Definition choice (seq : string) (w : world) : ascii * world :=
  let n := hd 0%nat (choices w) in
  (nth (n mod String.length seq) (list_ascii_of_string seq) "0"%char,
   MkWorld (now w) (tl (choices w))).

(** [''.join(random.choice('0123456789') for _ in range(count))]. *)
Fixpoint random_digits (count : nat) (w : world) : list ascii * world :=
  match count with
  | O => ([], w)
  | S k =>
      let '(c, w1) := choice "0123456789" w in
      let '(cs, w2) := random_digits k w1 in
      (c :: cs, w2)
  end.

(** [ParamGenerator.generate_timestamp()]. *)
Definition generate_timestamp (w : world) : string := string_of_Z (now w).

(** [ParamGenerator.generate_random(length)]. *)
Definition generate_random (length : Z) (w : world) : string * world :=
  let '(first_digit, w1) := choice "123456789" w in
  let '(rest_digits, w2) := random_digits (Z.to_nat (length - 1)) w1 in
  (String first_digit (string_of_list_ascii rest_digits), w2).

(** One entry of [auto_generate_config]: the keys [name] and [type], and
    [length] when given. *)
Record param := MkParam {
  p_name : string;
  p_type : string;
  p_length : option Z
}.

Definition is_signature (p : param) : bool := String.eqb (p_type p) "signature".

(** The [for param in auto_generate_config] loop of [add_common_params];
    [None] is the ValueError of [int]. *)
Fixpoint add_params (auto_generate_config : list param) (data : list (string * json))
         (w : world) : option (list (string * json) * world) :=
  match auto_generate_config with
  | [] => Some (data, w)
  | param :: rest =>
      let param_name := p_name param in
      let param_type := p_type param in
      if String.eqb param_type "timestamp" then
        match int_of_decimal (generate_timestamp w) with
        | Some value => add_params rest (dict_set param_name (JInt value) data) w
        | None => None
        end
      else if String.eqb param_type "random" then
        let length := default 12 (p_length param) in
        let '(digits, w1) := generate_random length w in
        match int_of_decimal digits with
        | Some value => add_params rest (dict_set param_name (JInt value) data) w1
        | None => None
        end
      else add_params rest data w      (* signature: continue; other types: nothing *)
  end.

(** [ParamGenerator.add_common_params(request_data, auto_generate_config)].
    The result is a new dict; [request_data] is not touched. *)
Definition add_common_params (request_data : list (string * json))
           (auto_generate_config : list param) (w : world)
  : option (list (string * json) * world) :=
  let data := dict_del "auto_generate" request_data in
  match add_params auto_generate_config data w with
  | None => None
  | Some (data, w') =>
      match List.find is_signature auto_generate_config with
      | Some p =>
          match generate_signature (JDict data) with
          | Some signature => Some (dict_set (p_name p) (JStr signature) data, w')
          | None => None
          end
      | None => Some (data, w')
      end
  end.

(** The [auto_generate_config] that [auth_manager.py] and
    [api_data_reader.py] pass for the login request and for every
    authenticated request. *)
Definition login_auto_generate_config : list param :=
  [ MkParam "timestamp" "timestamp" None;
    MkParam "random" "random" (Some 12);
    MkParam "signature" "signature" None ].

End Param.
(* ===================================================================== *)
(** ** src/scheduler.py *)
(* ===================================================================== *)

Module Sched.

(** An aware UTC [datetime] is the number of microseconds since the epoch
    (the resolution of [datetime]); a [timedelta] is a number of
    microseconds. *)
Definition SECOND : Z := 1000000.
Definition DAY : Z := 86400 * SECOND.

(** [utc_now.replace(hour=hour, minute=minute, second=0, microsecond=0)]:
    the date of [utc_now] at [hour:minute:00.000000]; [None] is the
    ValueError of an hour outside 0..23 or a minute outside 0..59. *)
Definition replace_hm (utc_now hour minute : Z) : option Z :=
  if (0 <=? hour) && (hour <? 24) && (0 <=? minute) && (minute <? 60)
  then Some (utc_now - utc_now mod DAY + (hour * 3600 + minute * 60) * SECOND)
  else None.

(** What the world does during one turn of the loop: by how much
    [asyncio.sleep] oversleeps, how long the callback runs, and whether it
    raises. *)
Record turn := MkTurn {
  oversleep : Z;
  job_duration : Z;
  job_raises : bool
}.

(** What one turn of the loop did. *)
Record firing := MkFiring {
  computed_at : Z;      (* utc_now *)
  target_time : Z;      (* target_time after the adjustment *)
  wait_seconds : Z;     (* (target_time - utc_now), in microseconds *)
  fired_at : Z;         (* the instant the callback is awaited *)
  finished_at : Z;      (* the instant the loop body ends *)
  error_logged : bool   (* the except branch ran *)
}.

(** One turn of the [while self.running] loop of [_run_daily_task], started
    at the instant [utc_now]. *)
Definition daily_turn (hour minute utc_now : Z) (w : turn) : option firing :=
  match replace_hm utc_now hour minute with
  | None => None
  | Some target =>
      let target := if target <=? utc_now then target + DAY else target in
      let wait := target - utc_now in
      let fired := utc_now + wait + oversleep w in
      (* try: await callback(...)  except Exception as e: logger.error(...) *)
      let finished := fired + job_duration w in
      Some (MkFiring utc_now target wait fired finished (job_raises w))
  end.

(** [_run_daily_task], while [self.running] holds: one loop turn for each
    element of [world]. The second component says whether the coroutine ended
    with the ValueError of [replace]. *)
Fixpoint run_daily_task (hour minute utc_now : Z) (world : list turn)
  : list firing * bool :=
  match world with
  | [] => ([], false)
  | w :: rest =>
      match daily_turn hour minute utc_now w with
      | None => ([], true)
      | Some f =>
          let '(fs, err) := run_daily_task hour minute (finished_at f) rest in
          (f :: fs, err)
      end
  end.

(** *** The interval task *)

(** What one turn of the loop of [_run_interval_task] did. *)
Record run := MkRun {
  started_at : Z;       (* the instant the callback is awaited *)
  ended_at : Z;         (* the instant it returned or raised *)
  run_failed : bool;    (* the except branch ran *)
  woke_at : Z           (* the instant asyncio.sleep returned *)
}.

(** [_run_interval_task], while [self.running] holds: one loop turn for each
    element of [world], the first at the instant [now]. The callback comes
    first, then [asyncio.sleep(interval_minutes * 60)], which for a delay
    that is not positive returns at once. *)
Fixpoint run_interval_task (interval_minutes now : Z) (world : list turn) : list run :=
  match world with
  | [] => []
  | w :: rest =>
      (* try: await callback(...)  except Exception as e: logger.error(...) *)
      let ended := now + job_duration w in
      let woke := ended + Z.max 0 (interval_minutes * 60 * SECOND) + oversleep w in
      MkRun now ended (job_raises w) woke :: run_interval_task interval_minutes woke rest
  end.

(** *** The table of tasks *)

(** An asyncio task made by [loop.create_task]: still to run or running,
    asked to cancel ([task.cancel()], which takes effect at the task's next
    suspension), or done (returned, raised or cancelled). *)
Inductive task_status : Type :=
| Live
| CancelRequested
| Finished.

Inductive task_kind : Type :=
| IntervalTask (interval_minutes : Z)
| DailyTask (hour minute : Z).

(** A value of [self.tasks]; the task is its number in the order of
    creation. *)
Record entry := MkEntry {
  kind : task_kind;
  task : nat
}.

(** A [Scheduler], with every task it created. *)
Record scheduler := MkScheduler {
  tasks : gmap string entry;
  running : bool;
  loop : bool;                   (* self.loop is not None *)
  created : list task_status
}.

Definition new_scheduler : scheduler := MkScheduler empty false false [].

(** [if not task.done(): task.cancel()]. *)
Definition cancel_if_not_done (h : nat) (l : list task_status) : list task_status :=
  match l !! h with
  | Some Live => <[h := CancelRequested]> l
  | _ => l
  end.

(** [start()]. *)
Definition start (s : scheduler) : scheduler :=
  MkScheduler (tasks s) true true (created s).

(** [stop()]. *)
Definition stop (s : scheduler) : scheduler :=
  MkScheduler (tasks s) false (loop s)
              (map_fold (fun _ e l => cancel_if_not_done (task e) l) (created s) (tasks s)).

(** [add_interval_task] and [add_daily_task], which differ in the coroutine
    and in the entry stored. The second component is false when the call
    raises: before [start()], [self.loop] is None and [self.loop.create_task]
    is an AttributeError, raised after the old task was cancelled. *)
Definition add_task (task_id : string) (k : task_kind) (s : scheduler) : scheduler * bool :=
  let created1 :=
    match tasks s !! task_id with
    | Some e => cancel_if_not_done (task e) (created s)
    | None => created s
    end in
  if loop s then
    (MkScheduler (<[task_id := MkEntry k (List.length created1)]> (tasks s))
                 (running s) (loop s) (created1 ++ [Live]), true)
  else
    (MkScheduler (tasks s) (running s) (loop s) created1, false).

(** [remove_task(task_id)]. *)
Definition remove_task (task_id : string) (s : scheduler) : scheduler :=
  match tasks s !! task_id with
  | Some e =>
      MkScheduler (delete task_id (tasks s)) (running s) (loop s)
                  (cancel_if_not_done (task e) (created s))
  | None => s
  end.

(** What happens to a scheduler: a call of one of its methods, or one of its
    tasks coming to its end. *)
Inductive op : Type :=
| Start
| Stop
| AddInterval (task_id : string) (interval_minutes : Z)
| AddDaily (task_id : string) (hour minute : Z)
| Remove (task_id : string)
| Ends (h : nat).

Definition apply_op (o : op) (s : scheduler) : scheduler :=
  match o with
  | Start => start s
  | Stop => stop s
  | AddInterval task_id interval_minutes =>
      fst (add_task task_id (IntervalTask interval_minutes) s)
  | AddDaily task_id hour minute => fst (add_task task_id (DailyTask hour minute) s)
  | Remove task_id => remove_task task_id s
  | Ends h =>
      MkScheduler (tasks s) (running s) (loop s)
                  (match created s !! h with
                   | Some _ => <[h := Finished]> (created s)
                   | None => created s
                   end)
  end.

Definition apply_ops (ops : list op) (s : scheduler) : scheduler :=
  fold_left (fun s o => apply_op o s) ops s.

End Sched.

(* ===================================================================== *)
(** ** src/auth_manager.py *)
(* ===================================================================== *)

Module Auth.

(** The login section of the configuration, [config['api']['login']]. *)
Record login_config := MkLoginConfig {
  url : string;
  username : string;
  password : string;
  totp_secret : string
}.

(** The dictionary [ApiClient.send_request] returns, as far as [get_token]
    looks into it: the key [error] (absent when the request went through and
    its body was JSON) and the key [response], the body as [json] parsed it.
    An absent key is [None]. *)
Record response := MkResponse {
  error : option string;
  body : option Param.json
}.

(** [token_cache.json], as [ConfigLoader.save_token_to_file] writes it: the
    expiry is whatever value it was handed. *)
Record token_record := MkTokenRecord {
  tr_token : string;
  tr_expiry_time : Param.json;
  tr_created_at : Z
}.

(** The state [get_token] reads and writes: the class attribute
    [AuthManager._token_cache], the token file, the clock ([time.time()], in
    seconds) and, as the trace of the login endpoint, the codes sent so far
    (oldest first). *)
Record state := MkState {
  _token_cache : gmap string string;
  token_file : option token_record;
  clock : Z;
  sent_codes : list string
}.

(** The exceptions [get_token] lets out. Their messages are shortened; the
    two raised with [Exception] are told apart by what they carry: the
    [error] of the response, or the [msg] of the body. *)
Inductive exn : Type :=
| ValueError (m : string)
| KeyError (m : string)
| TypeError (m : string)
| AttributeError (m : string)
| Exception (m : string)
| LoginFailed (error_msg : Param.json).

Inductive outcome : Type :=
| Return (tok : string)
| Raise (e : exn).

Definition cache_key : string := "main_login_token".

(** *** Python's operators on the values of a JSON body *)

Definition and_then {A B : Type} (x : exn + A) (k : A -> exn + B) : exn + B :=
  match x with
  | inl e => inl e
  | inr a => k a
  end.

Local Notation "'let?' x ':=' m 'in' k" := (and_then m (fun x => k))
  (at level 10, x name, m at level 100, k at level 200).

Fixpoint is_substring (part s : string) : bool :=
  String.prefix part s ||
  match s with
  | EmptyString => false
  | String _ s' => is_substring part s'
  end.

(** ['key' in v]: a key of an object, an element of an array, a part of a
    string; the other values are not iterable. *)
Definition contains (key : string) (v : Param.json) : exn + bool :=
  match v with
  | Param.JDict d => inr (bool_decide (is_Some (Param.dict_get key d)))
  | Param.JList l =>
      inr (existsb (fun x => match x with
                             | Param.JStr s => String.eqb s key
                             | _ => false
                             end) l)
  | Param.JStr s => inr (is_substring key s)
  | Param.JNull | Param.JBool _ | Param.JInt _ => inl (TypeError "not iterable")
  end.

(** [v['key']]. *)
Definition item (key : string) (v : Param.json) : exn + Param.json :=
  match v with
  | Param.JDict d =>
      match Param.dict_get key d with
      | Some x => inr x
      | None => inl (KeyError key)
      end
  | Param.JList _ | Param.JStr _ => inl (TypeError "indices must be integers")
  | Param.JNull | Param.JBool _ | Param.JInt _ => inl (TypeError "not subscriptable")
  end.

(** [v.get('key', default)]. *)
Definition get_or (key : string) (dflt : Param.json) (v : Param.json) : exn + Param.json :=
  match v with
  | Param.JDict d => inr (default dflt (Param.dict_get key d))
  | _ => inl (AttributeError "get")
  end.

(** Truth value. *)
Definition truthy (v : Param.json) : bool :=
  match v with
  | Param.JNull => false
  | Param.JBool b => b
  | Param.JInt n => negb (n =? 0)
  | Param.JStr s => negb (String.eqb s "")
  | Param.JList l => match l with [] => false | _ => true end
  | Param.JDict d => match d with [] => false | _ => true end
  end.

(** Truth value of [token.strip()] for a string: some character is not
    white space. *)
Definition strip_nonempty (s : string) : bool :=
  existsb (fun c => negb (Unicode.is_space c)) (Unicode.code_points s).

(** ['response' in response and 'data' in response['response'] and
    'token' in response['response']['data']], with the body at hand. *)
Definition has_token (r : response) : exn + bool :=
  match body r with
  | None => inr false
  | Some b =>
      let? has_data := contains "data" b in
      if has_data then
        let? d := item "data" b in
        contains "token" d
      else inr false
  end.

(** [response['response']['data']['token']]. *)
Definition token_value (r : response) : exn + Param.json :=
  match body r with
  | None => inl (KeyError "response")
  | Some b =>
      let? d := item "data" b in
      item "token" d
  end.

(** The test made after each attempt:
    ['error' not in response and 'response' in response and 'data' in
    response['response'] and 'token' in response['response']['data'] and
    response['response']['data']['token']]. Nothing catches what it
    raises. *)
Definition login_succeeded (r : response) : exn + bool :=
  match error r with
  | Some _ => inr false
  | None =>
      let? found := has_token r in
      if found then
        let? t := token_value r in
        inr (truthy t)
      else inr false
  end.

Definition window_offsets : list Z := [-5; -4; -3; -2; -1; 0; 1; 2].

Record time_window := MkWindow {
  offset : Z;
  timestamp : Z;
  code : string
}.

Section GetToken.

(** [pyotp.TOTP(secret).at(timestamp)]: the six-digit code of the 30-second
    window that holds [timestamp]. *)
Variable totp_at : string -> Z -> string.

(** The login endpoint: the response to the [n]-th login request made so far
    (counted from 0) when it carries the code [vCode]. *)
Variable server : nat -> string -> response.

(** [try_login_with_code(vcode)]: one signed POST to /api/Login/Login. *)
Definition try_login_with_code (vcode : string) (st : state) : response * state :=
  (server (List.length (sent_codes st)) vcode,
   MkState (_token_cache st) (token_file st) (clock st) (sent_codes st ++ [vcode])).

(** The [for window in time_windows] loop, entered with the response of the
    attempt made before it; it ends with the last response, or with what the
    test of a response raised. *)
Fixpoint try_windows (totp_code : string) (time_windows : list time_window)
         (resp : response) (st : state) : (exn + response) * state :=
  match time_windows with
  | [] => (inr resp, st)
  | window :: rest =>
      if String.eqb (code window) totp_code then
        try_windows totp_code rest resp st          (* continue *)
      else
        let '(resp', st') := try_login_with_code (code window) st in
        match login_succeeded resp' with
        | inl e => (inl e, st')
        | inr true => (inr resp', st')              (* break *)
        | inr false => try_windows totp_code rest resp' st'
        end
  end.

(** [ConfigLoader.save_token_to_file(token, expiry_time)], on a disk that
    takes the write. (On a failed write the method logs and returns False,
    and neither [get_token] nor the reader does anything else then; that
    path is left out.) *)
Definition save_token_to_file (tok : string) (expiry_time : Param.json) (st : state) : state :=
  MkState (_token_cache st) (Some (MkTokenRecord tok expiry_time (clock st)))
          (clock st) (sent_codes st).

(** The token found at [response['response']['data']['token']], when the
    path exists and holds a string. *)
Definition response_token (r : response) : option string :=
  match token_value r with
  | inr (Param.JStr tok) => Some tok
  | _ => None
  end.

(** [response.get('response', {}).get('msg', 'Token无效')]. *)
Definition error_msg (r : response) : exn + Param.json :=
  get_or "msg" (Param.JStr "Token无效") (default (Param.JDict []) (body r)).

(** [response['response']['data'].get('expiresIn', time.time() + 24 * 3600)]. *)
Definition expires_in (r : response) (now : Z) : exn + Param.json :=
  match body r with
  | None => inl (KeyError "response")
  | Some b =>
      let? d := item "data" b in
      get_or "expiresIn" (Param.JInt (now + 24 * 3600)) d
  end.

(** The end of [get_token], after the search: read the token out of the last
    response, cache and save it, or raise. A token that is true and no
    string has no [strip]. *)
Definition finish_login (resp : response) (st : state) : outcome * state :=
  match error resp with
  | Some e => (Raise (Exception e), st)
  | None =>
      match has_token resp with
      | inl e => (Raise e, st)
      | inr false => (Raise (KeyError "token not found in response"), st)
      | inr true =>
          match token_value resp with
          | inl e => (Raise e, st)
          | inr (Param.JStr tok) =>
              if negb (String.eqb tok "") && strip_nonempty tok then
                match expires_in resp (clock st) with
                | inl e => (Raise e, st)
                | inr expiry =>
                    let st' :=
                      MkState (<[cache_key := tok]> (_token_cache st))
                              (token_file st) (clock st) (sent_codes st) in
                    (Return tok, save_token_to_file tok expiry st')
                end
              else
                match error_msg resp with
                | inl e => (Raise e, st)
                | inr m => (Raise (LoginFailed m), st)
                end
          | inr t =>
              if truthy t then (Raise (AttributeError "strip"), st)
              else
                match error_msg resp with
                | inl e => (Raise e, st)
                | inr m => (Raise (LoginFailed m), st)
                end
          end
      end
  end.

(** [time_windows]: one entry per offset, in the order of the list. *)
Definition make_time_windows (secret : string) (current_time : Z) : list time_window :=
  List.map (fun off =>
              let ts := current_time + off * 30 in
              MkWindow off ts (totp_at secret ts))
           window_offsets.

(** [AuthManager.get_token(config_loader)]. The clock is read once: the
    instants of [time.time()] and of [totp.now()] fall in the same second. *)
Definition get_token (cfg : option login_config) (st : state) : outcome * state :=
  match _token_cache st !! cache_key with
  | Some tok => (Return tok, st)
  | None =>
      match cfg with
      | None => (Raise (ValueError "login configuration not found"), st)
      | Some login_config =>
          let secret := totp_secret login_config in
          let current_time := clock st in
          let time_windows := make_time_windows secret current_time in
          let totp_code := totp_at secret (clock st) in
          let '(resp, st1) := try_login_with_code totp_code st in
          match login_succeeded resp with
          | inl e => (Raise e, st1)
          | inr true => finish_login resp st1
          | inr false =>
              match try_windows totp_code time_windows resp st1 with
              | (inl e, st2) => (Raise e, st2)
              | (inr resp', st2) => finish_login resp' st2
              end
          end
      end
  end.

(** [AuthManager.is_token_valid]. *)
Definition is_token_valid (st : state) : bool :=
  bool_decide (is_Some (_token_cache st !! cache_key)).

(** [AuthManager.clear_token_cache]. *)
Definition clear_token_cache (st : state) : state :=
  MkState (delete cache_key (_token_cache st)) (token_file st) (clock st) (sent_codes st).

End GetToken.

(** The dict [login_data] that [try_login_with_code(vcode)] hands to
    [send_request]: the four fields of the login form and the generated
    parameters. *)
Definition login_data (login_config : login_config) (vcode : string) (w : Param.world)
  : option (list (string * Param.json) * Param.world) :=
  Param.add_common_params
    [ ("userName", Param.JStr (username login_config));
      ("pwd", Param.JStr (password login_config));
      ("vCode", Param.JStr vcode);
      ("language", Param.JStr "zh") ]
    Param.login_auto_generate_config w.

(** A number as a comparison reads it; a boolean is a number, and the
    other values do not compare with one. *)
Definition json_number (v : Param.json) : option Z :=
  match v with
  | Param.JInt n => Some n
  | Param.JBool b => Some (if b then 1 else 0)
  | _ => None
  end.

(** [ConfigLoader.load_token_from_file()], on a token file that is absent
    or holds what [save_token_to_file] wrote. With an expiry that is no
    number the comparison raises TypeError, which is caught: None. *)
Definition load_token_from_file (st : state) : option token_record :=
  match token_file st with
  | None => None
  | Some token_data =>
      match json_number (tr_expiry_time token_data) with
      | Some expiry_time => if expiry_time <=? clock st then None else Some token_data
      | None => None
      end
  end.

(** [ConfigLoader.clear_token_file()]. *)
Definition clear_token_file (st : state) : state :=
  MkState (_token_cache st) None (clock st) (sent_codes st).

(** Time passes. *)
Definition set_clock (t : Z) (st : state) : state :=
  MkState (_token_cache st) (token_file st) t (sent_codes st).

(** What the process does to this state without writing the entry of
    the cache: calls of [get_token] (they write it only when it is empty),
    the clock moving on, the token file being removed. The entry is written
    by [clear_token_cache] and by a login of the reader
    (src/api_data_reader.py), which are no events here. *)
Inductive event : Type :=
| Call (cfg : option login_config)
| Elapse (t : Z)
| RemoveTokenFile.

Section Later.

Variable totp_at : string -> Z -> string.
Variable server : nat -> string -> response.

Definition happen (st : state) (ev : event) : state :=
  match ev with
  | Call cfg => snd (get_token totp_at server cfg st)
  | Elapse t => set_clock t st
  | RemoveTokenFile => clear_token_file st
  end.

Definition after (evs : list event) (st : state) : state := fold_left happen evs st.

End Later.

End Auth.

(* ===================================================================== *)
(** ** src/api_data_reader.py, the session of the reader *)
(* ===================================================================== *)

Module Reader.
Import Param.

(** What the POST of [try_login_with_code] comes to: an exception (of the
    connection, or of [response.json()] on a body that is not JSON), or a
    status with the body as parsed. *)
Inductive reply : Type :=
| Failed
| Replied (status : Z) (result : json).

(** Truth value of [d.get(k)]. *)
Definition json_truthy (v : option json) : bool :=
  match v with
  | None | Some JNull => false
  | Some (JBool b) => b
  | Some (JInt n) => negb (n =? 0)
  | Some (JStr s) => negb (String.eqb s "")
  | Some (JList l) => match l with [] => false | _ => true end
  | Some (JDict d) => match d with [] => false | _ => true end
  end.

(** [d.get(k) == n] and [d.get(k) == s]; a JSON boolean is a Python bool,
    which equals 0 or 1. *)
Definition json_eq_int (v : option json) (n : Z) : bool :=
  match v with
  | Some (JInt m) => m =? n
  | Some (JBool b) => (if b then 1 else 0) =? n
  | _ => false
  end.

Definition json_eq_str (v : option json) (s : string) : bool :=
  match v with
  | Some (JStr t) => String.eqb t s
  | _ => false
  end.

(** [if token and token.strip(): return token], else None; a value that is
    true and has no [strip] raises, which the enclosing try turns into
    None. *)
Definition keep_token (token : option json) : option string :=
  match token with
  | Some (JStr t) =>
      if negb (String.eqb t "") && Auth.strip_nonempty t then Some t else None
  | _ => None
  end.

(** The token [try_login_with_code] reads out of the body of a reply with
    status 200, in one of the three formats it knows. Every path that raises
    (a body that is not an object, a [data] or [response] that is not an
    object) ends in the [except] of the method, which returns None as the
    paths without a token do. *)
Definition token_of_result (result : json) : option string :=
  match result with
  | JDict d =>
      let code := dict_get "code" d in
      if (json_truthy (dict_get "success" d) && json_eq_int code 200) ||
         (json_eq_int code 0 && json_eq_str (dict_get "msg" d) "Succeed")
      then
        (* token = result.get('data', {}).get('token') *)
        match dict_get "data" d with
        | Some (JDict data) => keep_token (dict_get "token" data)
        | Some _ => None
        | None => None
        end
      else
        (* 'response' in result and 'data' in result['response'] and
           'token' in result['response']['data'] *)
        match dict_get "response" d with
        | Some (JDict response) =>
            match dict_get "data" response with
            | Some (JDict data) => keep_token (dict_get "token" data)
            | _ => None
            end
        | _ => None
        end
  | _ => None
  end.

(** The attributes [login_token] and [token_expiry] of an [ApiDataReader]. *)
Record reader := MkReader {
  login_token : option string;
  token_expiry : option Z
}.

(** A reader and what it shares with the rest of the process: the cache of
    [AuthManager], the token file, the clock and the login endpoint. *)
Definition state : Type := reader * Auth.state.

Section Session.

Variable totp_at : string -> Z -> string.

(** The login endpoint: the reply to the [n]-th login request made so far
    when it carries the code [vCode]. *)
Variable login_reply : nat -> string -> reply.

(** [try_login_with_code(login_config, totp_code)]. *)
Definition try_login_with_code (totp_code : string) (st : Auth.state)
  : option string * Auth.state :=
  let st' := Auth.MkState (Auth._token_cache st) (Auth.token_file st) (Auth.clock st)
                          (Auth.sent_codes st ++ [totp_code]) in
  match login_reply (List.length (Auth.sent_codes st)) totp_code with
  | Replied status result =>
      if status =? 200 then (token_of_result result, st') else (None, st')
  | Failed => (None, st')
  end.

(** What [login_and_get_token] does once a code has got a token: keep it
    with an expiry 24 hours ahead, put it into the cache of [AuthManager],
    save it to the token file. *)
Definition logged_in (token : string) (st : Auth.state) : state :=
  let token_expiry := Auth.clock st + 24 * 3600 in
  (MkReader (Some token) (Some token_expiry),
   Auth.save_token_to_file token (JInt token_expiry)
     (Auth.MkState (<[Auth.cache_key := token]> (Auth._token_cache st)) (Auth.token_file st)
                   (Auth.clock st) (Auth.sent_codes st))).

(** The [for code_info in codes_info] loop of [login_and_get_token]. *)
Fixpoint try_codes (current_code : string) (codes_info : list Auth.time_window)
         (r : reader) (st : Auth.state) : option string * state :=
  match codes_info with
  | [] => (None, (r, st))
  | code_info :: rest =>
      if String.eqb (Auth.code code_info) current_code then
        try_codes current_code rest r st          (* continue *)
      else
        match try_login_with_code (Auth.code code_info) st with
        | (Some token, st') => (Some token, logged_in token st')
        | (None, st') => try_codes current_code rest r st'
        end
  end.

(** [login_and_get_token()]; [cfg] is None for a reader without
    [config_loader]. *)
Definition login_and_get_token (cfg : option Auth.login_config) (s : state)
  : option string * state :=
  let '(r, st) := s in
  match cfg with
  | None => (None, s)
  | Some login_config =>
      let totp_secret := Auth.totp_secret login_config in
      if String.eqb totp_secret "" then (None, s)
      else
        let codes_info := Auth.make_time_windows totp_at totp_secret (Auth.clock st) in
        let current_code := totp_at totp_secret (Auth.clock st) in
        match try_login_with_code current_code st with
        | (Some token, st') => (Some token, logged_in token st')
        | (None, st') => try_codes current_code codes_info r st'
        end
  end.

(** [is_token_expired()]. *)
Definition is_token_expired (s : state) : bool :=
  let '(r, st) := s in
  match login_token r with
  | None => true
  | Some token =>
      if String.eqb token "" then true
      else
        match token_expiry r with
        | None => true
        | Some expiry => if expiry =? 0 then true else expiry <? Auth.clock st
        end
  end.

(** [_reset_token_state()]. *)
Definition _reset_token_state (s : state) : state := (MkReader None None, snd s).

(** [ensure_valid_token()]. *)
Definition ensure_valid_token (cfg : option Auth.login_config) (s : state) : bool * state :=
  if is_token_expired s then
    match login_and_get_token cfg (_reset_token_state s) with
    | (Some _, s') => (true, s')
    | (None, s') => (false, _reset_token_state s')
    end
  else (true, s).

(** [_load_token_on_startup()], for a reader just made. The expiry of a
    record that [load_token_from_file] returns is a number. *)
Definition _load_token_on_startup (st : Auth.state) : state :=
  match Auth.load_token_from_file st with
  | Some token_data =>
      (MkReader (Some (Auth.tr_token token_data))
                (Auth.json_number (Auth.tr_expiry_time token_data)), st)
  | None => (MkReader None None, st)
  end.

End Session.

End Reader.

(* ===================================================================== *)
(** ** src/google_sheets_writer.py *)
(* ===================================================================== *)

Module Sheets.

(** *** Dates *)

(** A [date] is its number of days since 1970-01-01 (proleptic Gregorian
    calendar); the difference of two dates is the difference of the
    numbers. *)
Definition days_from_civil (y m d : Z) : Z :=
  let y' := if m <=? 2 then y - 1 else y in
  let era := y' / 400 in
  let yoe := y' - era * 400 in
  let doy := (153 * (if 2 <? m then m - 3 else m + 9) + 2) / 5 + d - 1 in
  let doe := yoe * 365 + yoe / 4 - yoe / 100 + doy in
  era * 146097 + doe - 719468.

Definition civil_from_days (days : Z) : Z * Z * Z :=
  let z := days + 719468 in
  let era := z / 146097 in
  let doe := z - era * 146097 in
  let yoe := (doe - doe / 1460 + doe / 36524 - doe / 146096) / 365 in
  let doy := doe - (365 * yoe + yoe / 4 - yoe / 100) in
  let mp := (5 * doy + 2) / 153 in
  let d := doy - (153 * mp + 2) / 5 + 1 in
  let m := if mp <? 10 then mp + 3 else mp - 9 in
  let y := yoe + era * 400 in
  ((if m <=? 2 then y + 1 else y), m, d).

Definition is_leap (y : Z) : bool :=
  ((y mod 4 =? 0) && negb (y mod 100 =? 0)) || (y mod 400 =? 0).

Definition days_in_month (y m : Z) : Z :=
  if m =? 2 then (if is_leap y then 29 else 28)
  else if (m =? 4) || (m =? 6) || (m =? 9) || (m =? 11) then 30
  else 31.

(** What [\d] matches and [int] reads: a decimal digit of any script. *)
Definition digit (c : Z) : option Z := Unicode.decimal c.

(** A digit of a class such as [[0-9]]: the ASCII digits only. *)
Definition ascii_digit (c : Z) : option Z :=
  if (48 <=? c) && (c <=? 57) then Some (c - 48) else None.

(** The month field of [%m]: [1[0-2]], [0[1-9]] or [[1-9]]. *)
Definition parse_month (cs : list Z) : option Z :=
  match cs with
  | [c] => match ascii_digit c with
           | Some n => if 1 <=? n then Some n else None
           | None => None
           end
  | [c1; c2] =>
      match ascii_digit c1, ascii_digit c2 with
      | Some 1, Some n => if n <=? 2 then Some (10 + n) else None
      | Some 0, Some n => if 1 <=? n then Some n else None
      | _, _ => None
      end
  | _ => None
  end.

(** The day field of [%d]: [3[01]], [[12]\d], [0[1-9]], [[1-9]] or a blank
    and [[1-9]]. *)
Definition parse_day (cs : list Z) : option Z :=
  match cs with
  | [c] => match ascii_digit c with
           | Some n => if 1 <=? n then Some n else None
           | None => None
           end
  | [c1; c2] =>
      match ascii_digit c1 with
      | Some 3 => match ascii_digit c2 with
                  | Some n => if n <=? 1 then Some (30 + n) else None
                  | None => None
                  end
      | Some 1 => option_map (fun n => 10 + n) (digit c2)
      | Some 2 => option_map (fun n => 20 + n) (digit c2)
      | Some 0 => match ascii_digit c2 with
                  | Some n => if 1 <=? n then Some n else None
                  | None => None
                  end
      | Some _ => None
      | None =>
          match ascii_digit c2 with
          | Some n => if (c1 =? 32) && (1 <=? n) then Some n else None
          | None => None
          end
      end
  | _ => None
  end.

Definition is_dash (c : Z) : bool := c =? 45.

(** [datetime.strptime(s, '%Y-%m-%d').date()]; [None] is the ValueError.
    The pattern of the format is
    [(\d\d\d\d)-(1[0-2]|0[1-9]|[1-9])-(3[01]|[12]\d|0[1-9]|[1-9]| [1-9])],
    it must take the whole string, and the three fields go through [int]. *)
Definition strptime_date (s : string) : option Z :=
  match Unicode.code_points s with
  | y1 :: y2 :: y3 :: y4 :: dash :: rest =>
      match digit y1, digit y2, digit y3, digit y4 with
      | Some a, Some b, Some c, Some d =>
          let y := 1000 * a + 100 * b + 10 * c + d in
          let md :=
            match rest with
            | m1 :: dash2 :: ds =>
                if is_dash dash2 then Some ([m1], ds)
                else match ds with
                     | dash3 :: ds' => if is_dash dash3 then Some ([m1; dash2], ds') else None
                     | [] => None
                     end
            | _ => None
            end in
          match md with
          | Some (ms, ds) =>
              match parse_month ms, parse_day ds with
              | Some m, Some dd =>
                  if is_dash dash && (1 <=? y) && (dd <=? days_in_month y m)
                  then Some (days_from_civil y m dd) else None
              | _, _ => None
              end
          | None => None
          end
      | _, _, _, _ => None
      end
  | _ => None
  end.

Definition pad (width : nat) (n : Z) : string :=
  let s := Param.string_of_Z n in
  String.concat "" (repeat "0" (width - String.length s)) ++ s.

(** Times are integer milliseconds since the epoch. [get_india_datetime]:
    Asia/Kolkata is UTC+05:30 all year. *)
Definition MS_PER_DAY : Z := 86400000.

Definition get_india_datetime (clock : Z) : Z := clock + 19800000.

(** [india_now.date()]. *)
Definition date_of (india_now : Z) : Z := india_now / MS_PER_DAY.

(** [format_datetime_for_sheet]: [dt.strftime('%Y-%m-%d %H:%M:%S')]. *)
Definition format_datetime_for_sheet (dt : Z) : string :=
  let '(y, m, d) := civil_from_days (dt / MS_PER_DAY) in
  let secs := (dt mod MS_PER_DAY) / 1000 in
  pad 4 y ++ "-" ++ pad 2 m ++ "-" ++ pad 2 d ++ " " ++
  pad 2 (secs / 3600) ++ ":" ++ pad 2 ((secs / 60) mod 60) ++ ":" ++ pad 2 (secs mod 60).

(** *** The remote tabular service *)

(** The cells A, B, ... of one row of a sheet; cell values are the strings
    the service hands back (a number written RAW reads back as its decimal
    string). *)
Abbreviation row := (list string).

(** One sheet (tab) of a spreadsheet: its grid has a fixed number of rows,
    empty ones included. *)
Record sheet_tab := MkTab {
  title : string;
  sheetId : Z;
  grid : list row
}.

(** The spreadsheets of the service, by spreadsheet id. *)
Abbreviation remote_state := (gmap string (list sheet_tab)).

(** The A1 ranges the writer builds: [f"{sheet_name}!A:J"] and
    [f"{sheet_name}!A{first}:J{last}"]. *)
Inductive a1_range : Type :=
| ColumnsAJ (sheet_name : string)
| RowsAJ (sheet_name : string) (first last : Z).

(** The requests of a [batchUpdate] body, both on the dimension ROWS; the
    sheet id is what [_get_sheet_id] returned, possibly None. *)
Inductive update_request : Type :=
| insertDimension (sheet_id : option Z) (startIndex endIndex : Z)
| deleteDimension (sheet_id : option Z) (startIndex endIndex : Z).

(** The remote calls the lambdas handed to [_queue_operation] make. *)
Inductive request : Type :=
| values_get (spreadsheet_id : string) (range : a1_range)
| values_update (spreadsheet_id : string) (range : a1_range) (values : list row)
| spreadsheets_get (spreadsheet_id : string)
| batchUpdate (spreadsheet_id : string) (requests : list update_request).

(** The reply bodies, as far as the writer reads them: the key [values] of a
    read (absent when the range holds no data), the titles and ids under the
    key [sheets], or a body the writer does not look at. *)
Inductive response : Type :=
| values_response (values : option (list row))
| sheets_response (sheets : list (string * Z))
| done_response.

Inductive exn : Type :=
| HttpError (status : Z)
| Exception (message : string).

(** Drop the elements at the end of a list that are empty. *)
Definition strip_end {A : Type} (is_empty : A -> bool) (l : list A) : list A :=
  fold_right (fun x acc =>
                match acc with
                | [] => if is_empty x then [] else [x]
                | _ => x :: acc
                end) [] l.

Definition is_nil {A : Type} (l : list A) : bool :=
  match l with [] => true | _ => false end.

(** A row as a read of the columns A to J returns it. *)
Definition trim_row (r : row) : row :=
  strip_end (fun c => String.eqb c "") (firstn 10 r).

Definition read_rows (g : list row) : option (list row) :=
  match strip_end is_nil (List.map trim_row g) with
  | [] => None
  | vs => Some vs
  end.

Definition find_tab (name : string) (tabs : list sheet_tab) : option sheet_tab :=
  List.find (fun t => String.eqb (title t) name) tabs.

Definition set_grid (id : Z) (g : list row) (tabs : list sheet_tab) : list sheet_tab :=
  List.map (fun t => if sheetId t =? id then MkTab (title t) (sheetId t) g else t) tabs.

Definition sheet_name_of (r : a1_range) : string :=
  match r with ColumnsAJ n => n | RowsAJ n _ _ => n end.

(** One request of a batch, on the spreadsheet as the requests before it
    left it; [None] when the service refuses it. Row indices are zero-based,
    the end index is exclusive; a sheet cannot lose all its rows. *)
Definition apply_update (tabs : list sheet_tab) (u : update_request) : option (list sheet_tab) :=
  match u with
  | deleteDimension (Some id) s e =>
      match List.find (fun t => sheetId t =? id) tabs with
      | Some t =>
          let n := Z.of_nat (List.length (grid t)) in
          if (0 <=? s) && (s <? e) && (e <=? n) && (e - s <? n)
          then Some (set_grid id (firstn (Z.to_nat s) (grid t) ++ skipn (Z.to_nat e) (grid t)) tabs)
          else None
      | None => None
      end
  | insertDimension (Some id) s e =>
      match List.find (fun t => sheetId t =? id) tabs with
      | Some t =>
          let n := Z.of_nat (List.length (grid t)) in
          if (0 <=? s) && (s <? e) && (s <=? n)
          then Some (set_grid id (firstn (Z.to_nat s) (grid t) ++
                                  repeat [] (Z.to_nat (e - s)) ++
                                  skipn (Z.to_nat s) (grid t)) tabs)
          else None
      | None => None
      end
  | deleteDimension None _ _ | insertDimension None _ _ => None
  end.

(** The requests of a batch are applied in the order they are given, each
    on the result of the one before; if one is refused none is applied. *)
Fixpoint apply_updates (tabs : list sheet_tab) (us : list update_request)
  : option (list sheet_tab) :=
  match us with
  | [] => Some tabs
  | u :: rest =>
      match apply_update tabs u with
      | Some tabs' => apply_updates tabs' rest
      | None => None
      end
  end.

(** Write the cells of [new] over the first cells of [old]. *)
Definition overwrite_cells (new old : row) : row :=
  new ++ skipn (List.length new) old.

(** Write [values] over the rows of [g] from index [at_row] on. *)
Fixpoint overwrite_rows (at_row : nat) (values : list row) (g : list row) : list row :=
  match at_row, g with
  | O, r :: g' =>
      match values with
      | [] => g
      | v :: values' => overwrite_cells v r :: overwrite_rows O values' g'
      end
  | S k, r :: g' => r :: overwrite_rows k values g'
  | _, [] => []
  end.

(** What the service does with a request that reaches it. *)
Definition serve (req : request) (rem : remote_state) : exn + (response * remote_state) :=
  match req with
  | spreadsheets_get sid =>
      match rem !! sid with
      | Some tabs => inr (sheets_response (List.map (fun t => (title t, sheetId t)) tabs), rem)
      | None => inl (HttpError 404)
      end
  | values_get sid range =>
      match rem !! sid with
      | Some tabs =>
          match find_tab (sheet_name_of range) tabs with
          | Some t =>
              match range with
              | ColumnsAJ _ => inr (values_response (read_rows (grid t)), rem)
              | RowsAJ _ first last =>
                  if (1 <=? first) && (first <=? last)
                  then inr (values_response
                              (read_rows (firstn (Z.to_nat (last - first + 1))
                                                 (skipn (Z.to_nat (first - 1)) (grid t)))), rem)
                  else inl (HttpError 400)
              end
          | None => inl (HttpError 400)
          end
      | None => inl (HttpError 404)
      end
  | values_update sid range values =>
      match rem !! sid with
      | Some tabs =>
          match find_tab (sheet_name_of range) tabs with
          | Some t =>
              let n := Z.of_nat (List.length (grid t)) in
              let k := Z.of_nat (List.length values) in
              let '(first, last) :=
                match range with
                | ColumnsAJ _ => (1, n)
                | RowsAJ _ first last => (first, last)
                end in
              if (1 <=? first) && (first - 1 + k <=? last) && (last <=? n) &&
                 forallb (fun v => Nat.leb (List.length v) 10) values
              then inr (done_response,
                        <[sid := set_grid (sheetId t)
                                          (overwrite_rows (Z.to_nat (first - 1)) values (grid t))
                                          tabs]> rem)
              else inl (HttpError 400)
          | None => inl (HttpError 400)
          end
      | None => inl (HttpError 404)
      end
  | batchUpdate sid us =>
      match rem !! sid with
      | Some tabs =>
          match apply_updates tabs us with
          | Some tabs' => inr (done_response, <[sid := tabs']> rem)
          | None => inl (HttpError 400)
          end
      | None => inl (HttpError 404)
      end
  end.

(** *** The writer and its world *)

Inductive sleep_reason : Type := RateLimit | Backoff.

(** What the writer did to the outside, oldest first: an invocation of an
    operation (with the instant it started at and the exception it raised,
    if any) or an [asyncio.sleep]. *)
Inductive event : Type :=
| Invoked (at_time : Z) (req : request) (raised : option exn)
| Slept (why : sleep_reason) (delay : Z).

(** The attributes of a [GoogleSheetsWriter] that the modelled methods use,
    and the world around it: the remote service, the clock, what the network
    will do to the coming invocations ([faults]: an exception instead of the
    call, or nothing), how long the coming invocations and sleeps take beyond
    their nominal duration ([lags]), and the trace. *)
Record state := MkState {
  service : bool;                          (* self.service is not None *)
  last_request_time : Z;
  _sheet_id_cache : gmap string Z;
  remote : remote_state;
  clock : Z;
  faults : list (option exn);
  lags : list Z;
  log : list event
}.

Definition min_request_interval : Z := 1200.
Definition max_retries : nat := 5.
Definition base_delay : Z := 3000.

(** A method body: it runs on a state and returns a value or raises. *)
Definition M (A : Type) : Type := state -> (exn + A) * state.

Definition ret {A : Type} (a : A) : M A := fun s => (inr a, s).

Definition raise {A : Type} (e : exn) : M A := fun s => (inl e, s).

Definition bind {A B : Type} (m : M A) (k : A -> M B) : M B :=
  fun s =>
    match m s with
    | (inr a, s') => k a s'
    | (inl e, s') => (inl e, s')
    end.

(** [try: m  except Exception as e: handler(e)]. *)
Definition try_except {A : Type} (m : M A) (handler : exn -> M A) : M A :=
  fun s =>
    match m s with
    | (inr a, s') => (inr a, s')
    | (inl e, s') => handler e s'
    end.

Notation "'let*' x ':=' m 'in' k" := (bind m (fun x => k))
  (at level 10, x name, m at level 100, k at level 200).

Notation "'let*' ' pat ':=' m 'in' k" :=
  (bind m (fun x => match x with pat => k end))
  (at level 10, pat strict pattern, m at level 100, k at level 200).

Definition get_state : M state := fun s => (inr s, s).

Definition time_time : M Z := fun s => (inr (clock s), s).

Definition next_lag (s : state) : Z := Z.max 0 (hd 0 (lags s)).

(** [await asyncio.sleep(delay)]. *)
Definition sleep (why : sleep_reason) (delay : Z) : M unit :=
  fun s =>
    (inr tt,
     MkState (service s) (last_request_time s) (_sheet_id_cache s) (remote s)
             (clock s + delay + next_lag s) (faults s) (tl (lags s))
             (log s ++ [Slept why delay])).

(** [operation()]: the remote call of a queued lambda. *)
Definition invoke (req : request) : M response :=
  fun s =>
    let finish (out : exn + response) (rem : remote_state) :=
      (out,
       MkState (service s) (last_request_time s) (_sheet_id_cache s) rem
               (clock s + next_lag s) (tl (faults s)) (tl (lags s))
               (log s ++ [Invoked (clock s) req
                                  (match out with inl e => Some e | inr _ => None end)])) in
    match faults s with
    | Some e :: _ => finish (inl e) (remote s)
    | _ =>
        match serve req (remote s) with
        | inl e => finish (inl e) (remote s)
        | inr (resp, rem) => finish (inr resp) rem
        end
    end.

Definition set_last_request_time (t : Z) : M unit :=
  fun s =>
    (inr tt,
     MkState (service s) t (_sheet_id_cache s) (remote s) (clock s) (faults s) (lags s) (log s)).

(** [_rate_limit_delay]. *)
Definition _rate_limit_delay : M unit :=
  let* current_time := time_time in
  let* s := get_state in
  let time_since_last_request := current_time - last_request_time s in
  let* _ :=
    if time_since_last_request <? min_request_interval
    then sleep RateLimit (min_request_interval - time_since_last_request)
    else ret tt in
  let* now := time_time in
  set_last_request_time now.

(** The [for attempt in range(max_retries + 1)] loop of
    [_execute_with_retry], from the turn [attempt] on, [turns] turns being
    left in the range. Falling out of the loop returns None. *)
Fixpoint retry_loop (operation : request) (max_retries attempt turns : nat)
  : M (option response) :=
  match turns with
  | O => ret None
  | S turns' =>
      try_except
        (let* _ := _rate_limit_delay in
         let* result := invoke operation in
         ret (Some result))
        (fun e =>
           match e with
           | HttpError status =>
               if status =? 429 then
                 if Nat.ltb attempt max_retries then
                   let delay := base_delay * 2 ^ Z.of_nat attempt in
                   let* _ := sleep Backoff delay in
                   retry_loop operation max_retries (S attempt) turns'
                 else raise e
               else raise e
           | Exception _ =>
               if Nat.ltb attempt max_retries then
                 let delay := base_delay * 2 ^ Z.of_nat attempt in
                 let* _ := sleep Backoff delay in
                 retry_loop operation max_retries (S attempt) turns'
               else raise e
           end)
  end.

(** [_execute_with_retry(operation, operation_name, max_retries=None)]. *)
Definition _execute_with_retry (operation : request) (retries : option nat)
  : M (option response) :=
  let max_retries := default max_retries retries in
  retry_loop operation max_retries 0 (max_retries + 1).

(** [_queue_operation(operation, operation_name)] as its caller sees it:
    the worker runs the operation through [_execute_with_retry] and resolves
    the future with the result or the exception, which [await future] hands
    back. (The queue itself is modelled in [Queue] below.) *)
Definition _queue_operation (operation : request) : M (option response) :=
  _execute_with_retry operation None.

(** [result.get('values', [])] and [result.get('sheets', [])]; on None the
    attribute lookup raises. *)
Definition get_values (result : option response) : M (list row) :=
  match result with
  | Some (values_response (Some vs)) => ret vs
  | Some _ => ret []
  | None => raise (Exception "AttributeError")
  end.

Definition get_sheets (result : option response) : M (list (string * Z)) :=
  match result with
  | Some (sheets_response sheets) => ret sheets
  | Some _ => ret []
  | None => raise (Exception "AttributeError")
  end.

Definition cache_sheet_id (cache_key : string) (sheet_id : Z) : M unit :=
  fun s =>
    (inr tt,
     MkState (service s) (last_request_time s) (<[cache_key := sheet_id]> (_sheet_id_cache s))
             (remote s) (clock s) (faults s) (lags s) (log s)).

(** [_get_sheet_id(spreadsheet_id, sheet_name)]. *)
Definition _get_sheet_id (spreadsheet_id sheet_name : string) : M (option Z) :=
  let cache_key := (spreadsheet_id ++ "_" ++ sheet_name)%string in
  let* s := get_state in
  match _sheet_id_cache s !! cache_key with
  | Some sheet_id => ret (Some sheet_id)
  | None =>
      try_except
        (let* result := _queue_operation (spreadsheets_get spreadsheet_id) in
         let* sheets := get_sheets result in
         match List.find (fun sh => String.eqb (fst sh) sheet_name) sheets with
         | Some sh =>
             let* _ := cache_sheet_id cache_key (snd sh) in
             ret (Some (snd sh))
         | None => ret None
         end)
        (fun _ => ret None)
  end.

(** One element of [data_list]: the keys the writer reads, [None] for an
    absent key. *)
Record report := MkReport {
  create_time : option string;
  channel : option string;
  register : option string;
  new_charge_user : option string;
  new_charge : option string;
  charge_total : option string;
  withdraw_total : option string;
  charge_withdraw_diff : option string
}.

(** The row built for one element of [data_list]. *)
Definition build_row (timestamp group_name : string) (data : report) : row :=
  [ timestamp;
    group_name;
    default "" (create_time data);
    default "" (channel data);
    default "0" (register data);
    default "0" (new_charge_user data);
    default "0" (new_charge data);
    default "0" (charge_total data);
    default "0" (withdraw_total data);
    default "0" (charge_withdraw_diff data) ].

(** [rows_to_delete.sort()]. *)
Fixpoint insert_sorted (x : Z) (l : list Z) : list Z :=
  match l with
  | [] => [x]
  | y :: r => if x <=? y then x :: l else y :: insert_sorted x r
  end.

Definition sort_rows (l : list Z) : list Z := fold_right insert_sorted [] l.

(** The [for i, row in enumerate(values)] loop of [_delete_rows_by_date]:
    the one-based numbers of the rows with at least three cells whose third
    cell is [date] and whose second is [group_name]. *)
Fixpoint rows_matching_date (date group_name : string) (i : Z) (values : list row) : list Z :=
  match values with
  | [] => []
  | row :: rest =>
      let tail := rows_matching_date date group_name (i + 1) rest in
      if Nat.leb 3 (List.length row) then
        let row_date := nth 2 row "" in
        let row_group := nth 1 row "" in
        if String.eqb row_date date && String.eqb row_group group_name
        then (i + 1) :: tail else tail
      else tail
  end.

(** The same loop of [_delete_old_hourly_data]: rows of the group whose date
    cell is not empty, parses, and lies [date_diff > 0] days before
    [current_date]. *)
Fixpoint rows_older_than (current_date : Z) (group_name : string) (i : Z) (values : list row)
  : list Z :=
  match values with
  | [] => []
  | row :: rest =>
      let tail := rows_older_than current_date group_name (i + 1) rest in
      if Nat.leb 3 (List.length row) then
        let row_date_str := nth 2 row "" in
        let row_group := nth 1 row "" in
        if String.eqb row_group group_name && negb (String.eqb row_date_str "") then
          match strptime_date row_date_str with
          | Some row_date =>
              let date_diff := current_date - row_date in
              if 0 <? date_diff then (i + 1) :: tail else tail
          | None => tail                            (* except ValueError: continue *)
          end
        else tail
      else tail
  end.

(** The grouping loop [for i in range(1, len(rows_to_delete))], over the
    row numbers after the first. *)
Fixpoint group_rows (spreadsheet_id sheet_name : string) (rows : list Z)
         (start_row end_row : Z) (delete_requests : list update_request)
  : M (Z * Z * list update_request) :=
  match rows with
  | [] => ret (start_row, end_row, delete_requests)
  | r :: rest =>
      if r =? end_row + 1 then
        group_rows spreadsheet_id sheet_name rest start_row r delete_requests
      else
        let* sheet_id := _get_sheet_id spreadsheet_id sheet_name in
        group_rows spreadsheet_id sheet_name rest r r
                   (delete_requests ++ [deleteDimension sheet_id (start_row - 1) end_row])
  end.

(** The part the two delete methods share word for word: sort the row
    numbers, group them into contiguous ranges, send one batch. *)
Definition delete_rows (spreadsheet_id sheet_name : string) (rows_to_delete : list Z) : M bool :=
  match sort_rows rows_to_delete with
  | [] => ret true
  | first :: rest =>
      let* '(start_row, end_row, delete_requests) :=
        group_rows spreadsheet_id sheet_name rest first first [] in
      let* sheet_id := _get_sheet_id spreadsheet_id sheet_name in
      let delete_requests :=
        delete_requests ++ [deleteDimension sheet_id (start_row - 1) end_row] in
      let* _ := _queue_operation (batchUpdate spreadsheet_id delete_requests) in
      ret true
  end.

(** [_delete_rows_by_date(spreadsheet_id, sheet_name, date, group_name)]. *)
Definition _delete_rows_by_date (spreadsheet_id sheet_name date group_name : string) : M bool :=
  try_except
    (let* result := _queue_operation (values_get spreadsheet_id (ColumnsAJ sheet_name)) in
     let* values := get_values result in
     match values with
     | [] => ret true
     | _ =>
         let rows_to_delete := rows_matching_date date group_name 0 values in
         match rows_to_delete with
         | [] => ret true
         | _ => delete_rows spreadsheet_id sheet_name rows_to_delete
         end
     end)
    (fun _ => ret false).

(** [_delete_old_hourly_data(spreadsheet_id, sheet_name, group_name)]. *)
Definition _delete_old_hourly_data (spreadsheet_id sheet_name group_name : string) : M bool :=
  try_except
    (let* result := _queue_operation (values_get spreadsheet_id (ColumnsAJ sheet_name)) in
     let* values := get_values result in
     match values with
     | [] => ret true
     | _ =>
         let* now := time_time in
         let current_date := date_of (get_india_datetime now) in
         let rows_to_delete := rows_older_than current_date group_name 0 values in
         match rows_to_delete with
         | [] => ret true
         | _ => delete_rows spreadsheet_id sheet_name rows_to_delete
         end
     end)
    (fun _ => ret false).

(** The second half of both write methods, word for word the same: build
    the rows, insert empty rows below the header, write the values. *)
Definition insert_rows (spreadsheet_id sheet_name : string) (timestamp : string)
           (data_list : list report) (group_name : string) : M bool :=
  let rows_to_insert := List.map (build_row timestamp group_name) data_list in
  let* sheet_id := _get_sheet_id spreadsheet_id sheet_name in
  match sheet_id with
  | None => ret false
  | Some _ =>
      let n := Z.of_nat (List.length rows_to_insert) in
      let insert_request := insertDimension sheet_id 1 (1 + n) in
      let* _ := _queue_operation (batchUpdate spreadsheet_id [insert_request]) in
      let range_name := RowsAJ sheet_name 2 (1 + n) in
      let* _ := _queue_operation (values_update spreadsheet_id range_name rows_to_insert) in
      ret true
  end.

(** [write_daily_data(spreadsheet_id, sheet_name, data_list, group_name)]. *)
Definition write_daily_data (spreadsheet_id sheet_name : string)
           (data_list : list report) (group_name : string) : M bool :=
  try_except
    (let* s := get_state in
     if negb (service s) then ret false
     else
       match data_list with
       | [] => ret false
       | first :: _ =>
           let* now := time_time in
           let india_now := get_india_datetime now in
           let timestamp := format_datetime_for_sheet india_now in
           let data_date := default "" (create_time first) in
           let* _ := _delete_rows_by_date spreadsheet_id sheet_name data_date group_name in
           insert_rows spreadsheet_id sheet_name timestamp data_list group_name
       end)
    (fun _ => ret false).

(** [write_hourly_data(spreadsheet_id, sheet_name, data_list, group_name)]. *)
Definition write_hourly_data (spreadsheet_id sheet_name : string)
           (data_list : list report) (group_name : string) : M bool :=
  try_except
    (let* s := get_state in
     if negb (service s) then ret false
     else
       match data_list with
       | [] => ret false
       | first :: _ =>
           let* now := time_time in
           let india_now := get_india_datetime now in
           let timestamp := format_datetime_for_sheet india_now in
           let* _ := _delete_old_hourly_data spreadsheet_id sheet_name group_name in
           insert_rows spreadsheet_id sheet_name timestamp data_list group_name
       end)
    (fun _ => ret false).

End Sheets.

(* ===================================================================== *)
(** ** The operation queue of src/google_sheets_writer.py *)
(* ===================================================================== *)

Module Queue.
Import Sheets.

(** The dictionary put on [_operation_queue]: the operation and the future
    of its submitter (futures are numbered in the order they are created; the
    name, used for logging only, is left out). *)
Record operation_data := MkOp {
  operation : request;
  future : nat
}.

(** Where a task created for [_start_queue_worker] stands: not yet run;
    suspended in [wait_for(self._operation_queue.get(), ...)]; inside
    [_execute_with_retry] for an operation it took; or returned at the guard
    [if self._queue_worker_running: return]. *)
Inductive task_state : Type :=
| Created
| Waiting
| Executing (op : operation_data)
| Returned.

(** A writer with its queue, on one event loop. [futures] holds, for each
    future created, its result or exception once set; [submitted] and
    [completed] record the operations in the order they were submitted and the
    futures in the order they were resolved. *)
Record writer := MkWriter {
  _operation_queue : list operation_data;
  _queue_worker_running : bool;
  tasks : list task_state;
  futures : list (option (exn + option response));
  submitted : list request;
  completed : list nat;
  core : state
}.

Definition new_writer (s : state) : writer := MkWriter [] false [] [] [] [] s.

(** What the event loop runs next, between two suspension points. *)
Inductive label : Type :=
| Submit (req : request)   (* _queue_operation, up to [await future] *)
| Start (i : nat)          (* task i runs from its start to the first wait *)
| Take (i : nat)           (* the wait of task i gets an operation *)
| Finish (i : nat)         (* task i ends _execute_with_retry, resolves the future,
                              and waits again *)
| Timeout (i : nat).       (* the wait of task i times out: continue *)

(** [_queue_operation(operation, operation_name)] up to [await future]: a
    worker task is created when the flag is not set; the put on the unbounded
    queue does not suspend. *)
Definition submit (req : request) (w : writer) : writer :=
  let fut := List.length (futures w) in
  MkWriter (_operation_queue w ++ [MkOp req fut])
           (_queue_worker_running w)
           (if _queue_worker_running w then tasks w else tasks w ++ [Created])
           (futures w ++ [None])
           (submitted w ++ [req])
           (completed w)
           (core w).

Definition set_task (i : nat) (t : task_state) (w : writer) : writer :=
  MkWriter (_operation_queue w) (_queue_worker_running w) (<[i := t]> (tasks w))
           (futures w) (submitted w) (completed w) (core w).

(** One step of the event loop; [None] when the label is not enabled. *)
Definition step (l : label) (w : writer) : option writer :=
  match l with
  | Submit req => Some (submit req w)
  | Start i =>
      match tasks w !! i with
      | Some Created =>
          if _queue_worker_running w then Some (set_task i Returned w)
          else
            Some (MkWriter (_operation_queue w) true (<[i := Waiting]> (tasks w))
                           (futures w) (submitted w) (completed w) (core w))
      | _ => None
      end
  | Take i =>
      match tasks w !! i, _operation_queue w with
      | Some Waiting, op :: rest =>
          Some (MkWriter rest (_queue_worker_running w) (<[i := Executing op]> (tasks w))
                         (futures w) (submitted w) (completed w) (core w))
      | _, _ => None
      end
  | Finish i =>
      match tasks w !! i with
      | Some (Executing op) =>
          let '(out, s') := _execute_with_retry (operation op) None (core w) in
          (* future.set_result(result) / future.set_exception(e) *)
          Some (MkWriter (_operation_queue w) (_queue_worker_running w)
                         (<[i := Waiting]> (tasks w))
                         (<[future op := Some out]> (futures w))
                         (submitted w) (completed w ++ [future op]) s')
      | _ => None
      end
  | Timeout i =>
      match tasks w !! i, _operation_queue w with
      | Some Waiting, [] => Some w
      | _, _ => None
      end
  end.

(** A schedule: the steps the event loop takes, in order. *)
Fixpoint run (schedule : list label) (w : writer) : option writer :=
  match schedule with
  | [] => Some w
  | l :: rest =>
      match step l w with
      | Some w' => run rest w'
      | None => None
      end
  end.

End Queue.

(* ===================================================================== *)
(** ** src/google_sheets_writer.py, the sheet and its header *)
(* ===================================================================== *)

Module Setup.
Import Sheets.

(** The remote calls of [create_sheet_if_not_exists] and
    [ensure_sheet_headers]: those the two writes make as well
    ([spreadsheets().get], a read of the range A1:J1), a [batchUpdate] with
    one [addSheet] request, and a [values().update] on the range
    [f"{sheet_name}!A1"], which names the cell the values start at. *)
Inductive request : Type :=
| writer_request (r : Sheets.request)
| add_sheet (spreadsheet_id title : string)
| update_from_A1 (spreadsheet_id sheet_name : string) (values : list row).

(** A sheet added without further properties has 1000 rows; the service
    picks an id that no sheet of the spreadsheet has (here the greatest id
    plus one). *)
Definition new_sheet_rows : nat := 1000.

Definition new_sheet_id (tabs : list sheet_tab) : Z :=
  1 + fold_right Z.max 0 (List.map sheetId tabs).

(** What the service does with a request that reaches it. A sheet cannot
    be added under a title in use; values written from A1 on must lie within
    the rows of the sheet. *)
Definition serve (req : request) (rem : remote_state) : exn + (response * remote_state) :=
  match req with
  | writer_request r => Sheets.serve r rem
  | add_sheet sid title =>
      match rem !! sid with
      | Some tabs =>
          match find_tab title tabs with
          | Some _ => inl (HttpError 400)
          | None =>
              inr (done_response,
                   <[sid := tabs ++ [MkTab title (new_sheet_id tabs) (repeat [] new_sheet_rows)]]>
                     rem)
          end
      | None => inl (HttpError 404)
      end
  | update_from_A1 sid name values =>
      match rem !! sid with
      | Some tabs =>
          match find_tab name tabs with
          | Some t =>
              if Nat.leb (List.length values) (List.length (grid t))
              then inr (done_response,
                        <[sid := set_grid (sheetId t) (overwrite_rows 0 values (grid t)) tabs]> rem)
              else inl (HttpError 400)
          | None => inl (HttpError 400)
          end
      | None => inl (HttpError 404)
      end
  end.

(** The writer with its cache of header states, and the operations it
    invoked through the methods of this part (with the exception they
    raised, if any). *)
Record state := MkState {
  writer : Sheets.state;
  _header_cache : gmap string bool;
  calls : list (request * option exn)
}.

Definition M (A : Type) : Type := state -> (exn + A) * state.

Definition ret {A : Type} (a : A) : M A := fun s => (inr a, s).

Definition raise {A : Type} (e : exn) : M A := fun s => (inl e, s).

Definition bind {A B : Type} (m : M A) (k : A -> M B) : M B :=
  fun s =>
    match m s with
    | (inr a, s') => k a s'
    | (inl e, s') => (inl e, s')
    end.

Definition try_except {A : Type} (m : M A) (handler : exn -> M A) : M A :=
  fun s =>
    match m s with
    | (inr a, s') => (inr a, s')
    | (inl e, s') => handler e s'
    end.

Notation "'let+' x ':=' m 'in' k" := (bind m (fun x => k))
  (at level 10, x name, m at level 100, k at level 200).

(** A method of the writer modelled in [Sheets], run on the writer of this
    state. *)
Definition lift {A : Type} (m : Sheets.M A) : M A :=
  fun s =>
    let '(out, w) := m (writer s) in
    (out, MkState w (_header_cache s) (calls s)).

Definition get_state : M state := fun s => (inr s, s).

Definition raised_by {A : Type} (out : exn + A) : option exn :=
  match out with inl e => Some e | inr _ => None end.

(** [operation()]: the call of a queued lambda. Every lambda starts with
    [self.service.spreadsheets()], an AttributeError when the service was
    not initialised; no remote call is made then. *)
Definition invoke (req : request) : M response :=
  fun s =>
    let w := writer s in
    let record (out : exn + response) (w' : Sheets.state) :=
      (out, MkState w' (_header_cache s) (calls s ++ [(req, raised_by out)])) in
    if negb (service w) then record (inl (Exception "AttributeError")) w
    else
      match req with
      | writer_request r => let '(out, w') := Sheets.invoke r w in record out w'
      | _ =>
          let finish (out : exn + response) (rem : remote_state) :=
            record out
                   (Sheets.MkState (service w) (last_request_time w) (_sheet_id_cache w) rem
                                   (clock w + next_lag w) (tl (faults w)) (tl (lags w))
                                   (log w)) in
          match faults w with
          | Some e :: _ => finish (inl e) (remote w)
          | _ =>
              match serve req (remote w) with
              | inl e => finish (inl e) (remote w)
              | inr (resp, rem) => finish (inr resp) rem
              end
          end
      end.

(** The loop of [_execute_with_retry], as [Sheets.retry_loop], on the
    operations of this part. *)
Fixpoint retry_loop (operation : request) (max_retries attempt turns : nat)
  : M (option response) :=
  match turns with
  | O => ret None
  | S turns' =>
      try_except
        (let+ _ := lift _rate_limit_delay in
         let+ result := invoke operation in
         ret (Some result))
        (fun e =>
           match e with
           | HttpError status =>
               if status =? 429 then
                 if Nat.ltb attempt max_retries then
                   let delay := base_delay * 2 ^ Z.of_nat attempt in
                   let+ _ := lift (sleep Backoff delay) in
                   retry_loop operation max_retries (S attempt) turns'
                 else raise e
               else raise e
           | Exception _ =>
               if Nat.ltb attempt max_retries then
                 let delay := base_delay * 2 ^ Z.of_nat attempt in
                 let+ _ := lift (sleep Backoff delay) in
                 retry_loop operation max_retries (S attempt) turns'
               else raise e
           end)
  end.

(** [_queue_operation(operation, operation_name)], as its caller sees it. *)
Definition _queue_operation (operation : request) : M (option response) :=
  retry_loop operation max_retries 0 (max_retries + 1).

Definition get_values (result : option response) : M (list row) :=
  match result with
  | Some (values_response (Some vs)) => ret vs
  | Some _ => ret []
  | None => raise (Exception "AttributeError")
  end.

Definition get_sheets (result : option response) : M (list (string * Z)) :=
  match result with
  | Some (sheets_response sheets) => ret sheets
  | Some _ => ret []
  | None => raise (Exception "AttributeError")
  end.

(** [create_sheet_if_not_exists(spreadsheet_id, sheet_name)]. *)
Definition create_sheet_if_not_exists (spreadsheet_id sheet_name : string) : M bool :=
  try_except
    (let+ result := _queue_operation (writer_request (spreadsheets_get spreadsheet_id)) in
     let+ sheets := get_sheets result in
     let sheet_exists := existsb (fun sh => String.eqb (fst sh) sheet_name) sheets in
     if sheet_exists then ret true
     else
       let+ _ := _queue_operation (add_sheet spreadsheet_id sheet_name) in
       ret true)
    (fun _ => ret false).

(** The header row. *)
Definition headers : row :=
  [ "写入时间"; "群组"; "数据日期"; "渠道"; "新增注册用户"; "新增付费人数";
    "新增付费金额"; "总充值金额"; "总提现金额"; "充提差" ].

Definition cache_header (cache_key : string) : M unit :=
  fun s => (inr tt, MkState (writer s) (<[cache_key := true]> (_header_cache s)) (calls s)).

(** [ensure_sheet_headers(spreadsheet_id, sheet_name)]. *)
Definition ensure_sheet_headers (spreadsheet_id sheet_name : string) : M bool :=
  try_except
    (let cache_key := (spreadsheet_id ++ "_" ++ sheet_name ++ "_headers")%string in
     let+ s := get_state in
     match _header_cache s !! cache_key with
     | Some cached => ret cached
     | None =>
         let+ result :=
           _queue_operation (writer_request (values_get spreadsheet_id (RowsAJ sheet_name 1 1))) in
         let+ values := get_values result in
         if match values with
            | first_row :: _ => Nat.leb 10 (List.length first_row)
            | [] => false
            end
         then
           let+ _ := cache_header cache_key in
           ret true
         else
           let+ _ := _queue_operation (update_from_A1 spreadsheet_id sheet_name [headers]) in
           let+ _ := cache_header cache_key in
           ret true
     end)
    (fun _ => ret false).

End Setup.

(* ===================================================================== *)
(** ** src/api_data_sender_manager.py *)
(* ===================================================================== *)

Module Manager.
Import Sched.

(** *** The send time of the daily report *)

Definition IST_OFFSET : Z := 19800 * SECOND.

(** The fields [hour] and [minute] of a datetime. *)
Definition hour_of (t : Z) : Z := (t mod DAY) / (3600 * SECOND).

Definition minute_of (t : Z) : Z := (t mod (3600 * SECOND)) / (60 * SECOND).

(** The conversion made by [_setup_tasks] once the configured send time has
    been split into [hour] and [minute]:
    [india_tz.localize(datetime.now().replace(hour=hour, minute=minute,
    second=0, microsecond=0)).astimezone(utc_tz)], of which the hour and the
    minute are handed to [add_daily_task]. [local_now] is the wall clock of
    [datetime.now()]; Asia/Kolkata is UTC+05:30. [None] is the ValueError of
    [replace], on which no daily task is set. *)
Definition daily_report_utc_time (local_now hour minute : Z) : option (Z * Z) :=
  match replace_hm local_now hour minute with
  | Some india_time =>
      let utc_time := india_time - IST_OFFSET in
      Some (hour_of utc_time, minute_of utc_time)
  | None => None
  end.

(** *** The reports of each group *)

(** A value of the [groups] section of the configuration: the keys [name]
    and [channel_ids], the latter a list of dicts of which the key [id] is
    read ([None] when absent). *)
Record group_config := MkGroup {
  group_label : option string;               (* group_config.get('name') *)
  channel_ids : list (option string)
}.

(** A value of [group_data_map]. *)
Record group_info := MkGroupInfo {
  config : group_config;
  data_list : list Sheets.report
}.

(** The [for channel_config in channel_ids] loop for one report and one
    group: at the first channel id equal to the channel of the report, the
    report is appended to the list of the group if the group has a
    spreadsheet, and the loop ends ([break]). *)
Fixpoint scan_channels (channel_ids : list (option string)) (channel_source : string)
         (group_name : string) (group_config : group_config)
         (spreadsheet_id : option string) (data : Sheets.report)
         (group_data_map : list (string * group_info)) : list (string * group_info) :=
  match channel_ids with
  | [] => group_data_map
  | channel_config :: rest =>
      let channel_id := default "" channel_config in
      if String.eqb channel_id channel_source then
        match spreadsheet_id with
        | Some sid =>
            if negb (String.eqb sid "") then
              let info :=
                match Param.dict_get group_name group_data_map with
                | Some info => info
                | None => MkGroupInfo group_config []
                end in
              Param.dict_set group_name
                             (MkGroupInfo (config info) (data_list info ++ [data]))
                             group_data_map
            else group_data_map
        | None => group_data_map
        end
      else scan_channels rest channel_source group_name group_config spreadsheet_id data
                         group_data_map
  end.

(** The [for group_name, group_config in groups_config.items()] loop for one
    report. *)
Fixpoint scan_groups (groups_config : list (string * group_config))
         (group_spreadsheets : gmap string string) (channel_source : string)
         (data : Sheets.report) (group_data_map : list (string * group_info))
  : list (string * group_info) :=
  match groups_config with
  | [] => group_data_map
  | (group_name, group_config) :: rest =>
      scan_groups rest group_spreadsheets channel_source data
                  (scan_channels (channel_ids group_config) channel_source group_name
                                 group_config (group_spreadsheets !! group_name) data
                                 group_data_map)
  end.

(** The grouping made by [_write_daily_data_to_sheets] and
    [_write_hourly_data_to_sheets] (the same lines in both): the
    [for data in data_list] loop, started on [group_data_map]. *)
Fixpoint group_reports (groups_config : list (string * group_config))
         (group_spreadsheets : gmap string string) (data_list : list Sheets.report)
         (group_data_map : list (string * group_info)) : list (string * group_info) :=
  match data_list with
  | [] => group_data_map
  | data :: rest =>
      let channel_source := default "" (Sheets.channel data) in
      if String.eqb channel_source "" then
        group_reports groups_config group_spreadsheets rest group_data_map   (* continue *)
      else
        group_reports groups_config group_spreadsheets rest
                      (scan_groups groups_config group_spreadsheets channel_source data
                                   group_data_map)
  end.

(** *** The writes of one group *)

(** The body of the [for group_name, group_info in group_data_map.items()]
    loop of [_write_daily_data_to_sheets]: make sure of the sheet, make sure
    of the header (what the two return is not looked at), write the rows
    under the label [group_config.get('name', group_name)]. *)
Definition write_group_daily (spreadsheet_id daily_sheet_name : string)
           (group_name : string) (info : group_info) : Setup.M bool :=
  Setup.bind (Setup.create_sheet_if_not_exists spreadsheet_id daily_sheet_name) (fun _ =>
  Setup.bind (Setup.ensure_sheet_headers spreadsheet_id daily_sheet_name) (fun _ =>
  Setup.lift (Sheets.write_daily_data spreadsheet_id daily_sheet_name (data_list info)
                                      (default group_name (group_label (config info)))))).

End Manager.

(* ===================================================================== *)
(** * Properties *)
(* ===================================================================== *)

(** ** The request signature (src/param_generator.py) *)

Module ParamFacts.
Import Param.

(** The three MD5 test vectors of RFC 1321 used as a sanity check of the
    embedding of [hashlib.md5]. *)
Example md5_empty : md5_hex_upper "" = "D41D8CD98F00B204E9800998ECF8427E".
Proof. vm_compute. reflexivity. Qed.

Example md5_abc : md5_hex_upper "abc" = "900150983CD24FB0D6963F7D28E17F72".
Proof. vm_compute. reflexivity. Qed.

Example md5_message_digest :
  md5_hex_upper "message digest" = "F96B697D7CB7938D525A2F31AAF161D0".
Proof. vm_compute. reflexivity. Qed.

(** *** The order on keys *)

Lemma ascii_compare_N (a b : ascii) :
  Ascii.compare a b = N.compare (N_of_ascii a) (N_of_ascii b).
Proof. reflexivity. Qed.

Lemma string_compare_trans_le (s1 : string) :
  forall s2 s3,
    String.compare s1 s2 <> Gt -> String.compare s2 s3 <> Gt ->
    String.compare s1 s3 <> Gt.
Proof.
  induction s1 as [|a s1 IH]; intros s2 s3 H12 H23.
  - destruct s3; simpl; discriminate.
  - destruct s2 as [|b s2]; [simpl in H12; congruence|].
    destruct s3 as [|c s3]; [simpl in H23; congruence|].
    simpl in *. rewrite ascii_compare_N in *.
    destruct (N.compare_spec (N_of_ascii a) (N_of_ascii b)) as [Eab|Lab|Gab];
      try congruence;
      destruct (N.compare_spec (N_of_ascii b) (N_of_ascii c)) as [Ebc|Lbc|Gbc];
      try congruence;
      destruct (N.compare_spec (N_of_ascii a) (N_of_ascii c)) as [Eac|Lac|Gac];
      try congruence; try lia.
    eapply IH; eauto.
Qed.

Lemma leb_trans (s1 s2 s3 : string) :
  String.leb s1 s2 = true -> String.leb s2 s3 = true -> String.leb s1 s3 = true.
Proof.
  unfold String.leb. intros H12 H23.
  assert (H : String.compare s1 s3 <> Gt).
  { apply (string_compare_trans_le s1 s2 s3).
    - destruct (String.compare s1 s2); congruence.
    - destruct (String.compare s2 s3); congruence. }
  destruct (String.compare s1 s3); congruence.
Qed.

Definition key_le {A : Type} (x y : string * A) : Prop :=
  String.leb (fst x) (fst y) = true.

Lemma insert_item_Forall {A : Type} (P : string * A -> Prop) kv l :
  P kv -> Forall P l -> Forall P (insert_item kv l).
Proof.
  intros Hkv Hl. induction Hl as [|x l Hx Hl IH]; simpl.
  - constructor; [assumption | constructor].
  - destruct (String.leb (fst kv) (fst x)); repeat constructor; assumption.
Qed.

Lemma insert_item_sorted {A : Type} (kv : string * A) l :
  StronglySorted key_le l -> StronglySorted key_le (insert_item kv l).
Proof.
  induction 1 as [|x l Hs IH Hx]; simpl.
  - repeat constructor.
  - destruct (String.leb (fst kv) (fst x)) eqn:E.
    + constructor; [constructor; assumption|].
      constructor; [exact E|].
      eapply List.Forall_impl; [|exact Hx].
      intros y Hy. unfold key_le in *. eapply leb_trans; eassumption.
    + constructor; [exact IH|].
      apply insert_item_Forall; [|exact Hx].
      unfold key_le. destruct (String.leb_total (fst kv) (fst x)); congruence.
Qed.

Lemma sorted_items_sorted {A : Type} (d : list (string * A)) :
  StronglySorted key_le (sorted_items d).
Proof.
  induction d as [|kv d IH]; simpl; [constructor|].
  apply insert_item_sorted, IH.
Qed.

Lemma insert_item_head {A : Type} (kv : string * A) l :
  Forall (key_le kv) l -> insert_item kv l = kv :: l.
Proof.
  destruct 1 as [|x l Hx _]; simpl; [reflexivity|].
  unfold key_le in Hx. rewrite Hx. reflexivity.
Qed.

Lemma Forall_filter_keep {A : Type} (P : A -> Prop) (f : A -> bool) l :
  Forall P l -> Forall P (List.filter f l).
Proof.
  induction 1 as [|x l Hx Hl IH]; simpl; [constructor|].
  destruct (f x); [constructor|]; assumption.
Qed.

(** Selecting items commutes with inserting into a sorted list. *)
Lemma filter_insert_item {A : Type} (f : string * A -> bool) kv l :
  StronglySorted key_le l ->
  List.filter f (insert_item kv l) =
  if f kv then insert_item kv (List.filter f l) else List.filter f l.
Proof.
  induction 1 as [|x l Hs IH Hx]; simpl.
  - destruct (f kv); reflexivity.
  - destruct (String.leb (fst kv) (fst x)) eqn:E; simpl.
    + destruct (f kv) eqn:Fkv; [|reflexivity].
      rewrite insert_item_head; [reflexivity|].
      assert (Hall : Forall (key_le kv) (x :: l)).
      { constructor; [exact E|].
        eapply List.Forall_impl; [|exact Hx].
        intros y Hy. unfold key_le in *. eapply leb_trans; eassumption. }
      change (Forall (key_le kv) (List.filter f (x :: l))).
      apply Forall_filter_keep, Hall.
    + rewrite IH. destruct (f x) eqn:Fx, (f kv) eqn:Fkv; simpl; rewrite ?E; reflexivity.
Qed.

Lemma filter_sorted_items {A : Type} (f : string * A -> bool) d :
  List.filter f (sorted_items d) = sorted_items (List.filter f d).
Proof.
  induction d as [|kv d IH]; simpl; [reflexivity|].
  rewrite filter_insert_item by apply sorted_items_sorted.
  rewrite IH. destruct (f kv); reflexivity.
Qed.

Lemma insert_item_map {A B : Type} (g : string * A -> string * B) kv l :
  (forall x, fst (g x) = fst x) ->
  insert_item (g kv) (List.map g l) = List.map g (insert_item kv l).
Proof.
  intros Hg. induction l as [|x l IH]; simpl; [reflexivity|].
  rewrite !Hg. destruct (String.leb (fst kv) (fst x)); simpl; [reflexivity|].
  rewrite IH. reflexivity.
Qed.

Lemma sorted_items_map {A B : Type} (g : string * A -> string * B) d :
  (forall x, fst (g x) = fst x) ->
  sorted_items (List.map g d) = List.map g (sorted_items d).
Proof.
  intros Hg. induction d as [|kv d IH]; simpl; [reflexivity|].
  rewrite IH. apply insert_item_map, Hg.
Qed.

Lemma filter_map_comm {A B : Type} (f : B -> bool) (g : A -> B) l :
  List.filter f (List.map g l) = List.map g (List.filter (fun a => f (g a)) l).
Proof.
  induction l as [|x l IH]; simpl; [reflexivity|].
  rewrite IH. destruct (f (g x)); reflexivity.
Qed.

Lemma filter_and {A : Type} (f g : A -> bool) l :
  List.filter (fun a => f a && g a) l = List.filter f (List.filter g l).
Proof.
  induction l as [|x l IH]; simpl; [reflexivity|].
  rewrite IH. destruct (g x) eqn:G, (f x) eqn:F; simpl; rewrite ?F; reflexivity.
Qed.

Lemma map_id_on {A : Type} (P : A -> Prop) (g : A -> A) l :
  (forall x, P x -> g x = x) -> Forall P l -> List.map g l = l.
Proof.
  intros Hg. induction 1 as [|x l Hx Hl IH]; simpl; [reflexivity|].
  rewrite Hg, IH by assumption. reflexivity.
Qed.

(** A value that is neither a list nor a dict is left alone by both
    serializers. *)
Definition flat_field (kv : string * json) : Prop :=
  is_dict (snd kv) = false.

Lemma sort_and_stringify_scalar v :
  is_dict v = false -> sort_and_stringify v = v.
Proof. destruct v; simpl; congruence. Qed.

Lemma sort_keys_scalar v :
  is_dict v = false -> is_list v = false -> sort_keys v = v.
Proof. destruct v; simpl; congruence. Qed.

Definition not_list_field (kv : string * json) : bool := negb (is_list (snd kv)).

(** The string that is hashed, for a dictionary without nested objects. *)
Lemma sort_and_stringify_flat (d : list (string * json)) :
  Forall flat_field d ->
  sort_and_stringify (JDict d) =
  JStr (canonical_json
          (JDict (List.filter (fun kv => negb (excluded (fst kv)))
                              (List.filter not_list_field d)))).
Proof.
  intros Hflat. unfold canonical_json.
  cbn [sort_and_stringify sort_keys].
  do 3 f_equal.
  set (ann := fun kv : string * json => (fst kv, (snd kv, sort_and_stringify (snd kv)))).
  set (keep := fun kv : string * json => negb (excluded (fst kv)) && negb (is_list (snd kv))).
  rewrite (sorted_items_map ann) by reflexivity.
  rewrite filter_map_comm, map_map. cbn [ann fst snd].
  change (fun a : string * json => negb (excluded (fst a)) && negb (is_list (snd a))) with keep.
  rewrite filter_sorted_items.
  rewrite <- (sorted_items_map (fun x : string * json => (fst x, sort_and_stringify (snd x))))
    by reflexivity.
  f_equal.
  assert (Hkeep : List.filter keep d =
                  List.filter (fun kv => negb (excluded (fst kv))) (List.filter not_list_field d)).
  { unfold keep. rewrite filter_and. reflexivity. }
  rewrite <- Hkeep.
  assert (Hall : Forall (fun kv => is_dict (snd kv) = false /\ is_list (snd kv) = false)
                        (List.filter keep d)).
  { clear Hkeep. induction Hflat as [|x l Hx Hl IH]; simpl; [constructor|].
    destruct (keep x) eqn:K; [|exact IH].
    constructor; [|exact IH]. split; [exact Hx|].
    unfold keep in K. apply andb_true_iff in K. destruct K as [_ K].
    apply negb_true_iff in K. exact K. }
  assert (Hsas : forall x : string * json,
             is_dict (snd x) = false /\ is_list (snd x) = false ->
             (fst x, sort_and_stringify (snd x)) = x).
  { intros [k v] [Hd _]. simpl in *. rewrite sort_and_stringify_scalar by exact Hd. reflexivity. }
  assert (Hsk : forall x : string * json,
             is_dict (snd x) = false /\ is_list (snd x) = false ->
             (fst x, sort_keys (snd x)) = x).
  { intros [k v] [Hd Hl]. simpl in *. rewrite sort_keys_scalar by assumption. reflexivity. }
  rewrite (map_id_on _ _ _ Hsas Hall).
  rewrite (map_id_on _ _ _ Hsk Hall).
  reflexivity.
Qed.

(** C9, as the code has it: a field dictionary none of whose values is a
    nested object is signed as the uppercase hexadecimal MD5 of the canonical
    JSON (keys sorted, no whitespace) of its fields other than timestamp,
    signature and track, with the list-valued fields left out as well. *)
Theorem generate_signature_flat (d : list (string * json)) :
  Forall flat_field d ->
  generate_signature (JDict d) =
  Some (reference_signature (List.filter not_list_field d)).
Proof.
  intros Hflat. unfold generate_signature.
  rewrite (sort_and_stringify_flat d Hflat). reflexivity.
Qed.

(** The fields of a login request as [try_login_with_code] builds them,
    before the signature is added. *)
Definition login_fields : list (string * json) :=
  [ ("userName", JStr "u"); ("pwd", JStr "p"); ("vCode", JStr "123456");
    ("language", JStr "zh"); ("timestamp", JInt 1700000000);
    ("random", JInt 123456789012) ].

Lemma generate_signature_flat_witness :
  Forall flat_field login_fields /\
  generate_signature (JDict login_fields) =
  Some (reference_signature (List.filter not_list_field login_fields)).
Proof.
  assert (H : Forall flat_field login_fields) by (repeat constructor).
  split; [exact H | exact (generate_signature_flat login_fields H)].
Defined.

Example login_signature_value :
  generate_signature (JDict login_fields) = Some "62B036A9ACC3BDBC7AD2B3FA0553A68D".
Proof. vm_compute. reflexivity. Qed.

(** C9 as stated fails on a dictionary with a list-valued field: the code
    leaves the field out of the signed string ([not isinstance(v, list)]),
    the reference definition keeps it. *)
Lemma generate_signature_list_field :
  generate_signature (JDict [("userName", JStr "u"); ("ids", JList [JInt 1; JInt 2])]) <>
  Some (reference_signature [("userName", JStr "u"); ("ids", JList [JInt 1; JInt 2])]).
Proof. vm_compute. intros H. discriminate H. Qed.

(** A nested object is signed as the JSON string of its own serialization,
    not as an object. *)
Example sort_and_stringify_nested :
  sort_and_stringify (JDict [("a", JDict [("b", JInt 1)])]) =
    JStr (dumps (JDict [("a", JStr (dumps (JDict [("b", JInt 1)])))])) /\
  generate_signature (JDict [("a", JDict [("b", JInt 1)])]) <>
    Some (reference_signature [("a", JDict [("b", JInt 1)])]).
Proof. split; [reflexivity|]. vm_compute. intros H. discriminate H. Qed.

(** *** The order of the fields *)

Lemma leb_false_flip (a b : string) : String.leb a b = false -> String.leb b a = true.
Proof. intros H. destruct (String.leb_total a b) as [E|E]; congruence. Qed.

(** Two insertions of items with different keys commute. *)
Lemma insert_item_comm {A : Type} (a b : string * A) l :
  fst a <> fst b ->
  insert_item a (insert_item b l) = insert_item b (insert_item a l).
Proof.
  intros Hab.
  assert (Hone : String.leb (fst a) (fst b) = negb (String.leb (fst b) (fst a))).
  { destruct (String.leb (fst a) (fst b)) eqn:E1, (String.leb (fst b) (fst a)) eqn:E2;
      try reflexivity.
    - exfalso. apply Hab. apply String.leb_antisym; assumption.
    - apply leb_false_flip in E1. congruence. }
  induction l as [|x l IH]; simpl.
  - rewrite Hone. destruct (String.leb (fst b) (fst a)); reflexivity.
  - destruct (String.leb (fst b) (fst x)) eqn:Ebx, (String.leb (fst a) (fst x)) eqn:Eax;
      simpl; rewrite ?Ebx, ?Eax.
    + rewrite Hone. destruct (String.leb (fst b) (fst a)); simpl; rewrite ?Ebx, ?Eax;
        reflexivity.
    + destruct (String.leb (fst a) (fst b)) eqn:Eab.
      * rewrite (leb_trans _ _ _ Eab Ebx) in Eax. discriminate.
      * reflexivity.
    + destruct (String.leb (fst b) (fst a)) eqn:Eba.
      * rewrite (leb_trans _ _ _ Eba Eax) in Ebx. discriminate.
      * reflexivity.
    + rewrite IH. reflexivity.
Qed.

Lemma sorted_items_perm {A : Type} (l1 l2 : list (string * A)) :
  Permutation l1 l2 -> NoDup (List.map fst l1) -> sorted_items l1 = sorted_items l2.
Proof.
  induction 1 as [|x l1 l2 Hp IH|x y l|l1 l2 l3 Hp1 IH1 Hp2 IH2]; intros Hnd.
  - reflexivity.
  - simpl. rewrite IH; [reflexivity|]. simpl in Hnd. apply NoDup_cons in Hnd. tauto.
  - simpl. apply insert_item_comm. simpl in Hnd.
    apply NoDup_cons in Hnd. destruct Hnd as [Hin _].
    intros E. apply Hin. rewrite E. left.
  - rewrite IH1 by exact Hnd. apply IH2.
    assert (Hp : Permutation (List.map fst l1) (List.map fst l2))
      by apply Permutation_map, Hp1.
    rewrite <- Hp. exact Hnd.
Qed.

(** The signature does not depend on the order in which the fields were
    put into the dictionary. *)
Theorem generate_signature_field_order (d1 d2 : list (string * json)) :
  NoDup (List.map fst d1) ->
  Permutation d1 d2 ->
  generate_signature (JDict d1) = generate_signature (JDict d2).
Proof.
  intros Hnd Hp. unfold generate_signature. cbn [sort_and_stringify].
  set (ann := fun kv : string * json => (fst kv, (snd kv, sort_and_stringify (snd kv)))).
  rewrite (sorted_items_perm (List.map ann d1) (List.map ann d2)).
  - reflexivity.
  - apply Permutation_map, Hp.
  - rewrite map_map. exact Hnd.
Qed.

Lemma generate_signature_field_order_witness :
  generate_signature (JDict [("pwd", JStr "p"); ("userName", JStr "u"); ("random", JInt 7)]) =
  generate_signature (JDict [("random", JInt 7); ("pwd", JStr "p"); ("userName", JStr "u")]).
Proof.
  apply generate_signature_field_order.
  - repeat constructor; simpl; intros H; apply list_elem_of_In in H; simpl in H;
      intuition discriminate.
  - apply Permutation_sym.
    change [("random", JInt 7); ("pwd", JStr "p"); ("userName", JStr "u")]
      with ([("random", JInt 7)] ++ [("pwd", JStr "p"); ("userName", JStr "u")]).
    apply Permutation_app_comm.
Defined.

(** *** Dictionaries *)

Lemma dict_get_set_same {A : Type} (k : string) (v : A) d :
  dict_get k (dict_set k v d) = Some v.
Proof.
  induction d as [|kv d IH]; simpl.
  - rewrite String.eqb_refl. reflexivity.
  - destruct (String.eqb (fst kv) k) eqn:E; simpl; rewrite E; [reflexivity | exact IH].
Qed.

Lemma dict_get_set_other {A : Type} (k k' : string) (v : A) d :
  k' <> k -> dict_get k (dict_set k' v d) = dict_get k d.
Proof.
  intros Hk. induction d as [|kv d IH]; simpl.
  - apply String.eqb_neq in Hk. rewrite Hk. reflexivity.
  - destruct (String.eqb (fst kv) k') eqn:E; simpl.
    + apply String.eqb_eq in E. rewrite E.
      apply String.eqb_neq in Hk. rewrite Hk. reflexivity.
    + rewrite IH. reflexivity.
Qed.

Lemma dict_get_del {A : Type} (k k' : string) (d : list (string * A)) :
  dict_get k (dict_del k' d) = if String.eqb k k' then None else dict_get k d.
Proof.
  unfold dict_del. induction d as [|kv d IH]; simpl.
  - destruct (String.eqb k k'); reflexivity.
  - destruct (String.eqb (fst kv) k') eqn:E; simpl.
    + rewrite IH. apply String.eqb_eq in E. rewrite E.
      rewrite (String.eqb_sym k' k). destruct (String.eqb k k'); reflexivity.
    + rewrite IH. destruct (String.eqb (fst kv) k) eqn:E2; [|reflexivity].
      apply String.eqb_eq in E2. rewrite <- E2, E. reflexivity.
Qed.

Lemma filter_dict_set {A : Type} (f : string * A -> bool) (k : string) (v : A) d :
  (forall x, f (k, x) = false) -> List.filter f (dict_set k v d) = List.filter f d.
Proof.
  intros Hf. induction d as [|[k0 v0] d IH]; simpl.
  - rewrite Hf. reflexivity.
  - destruct (String.eqb k0 k) eqn:E; simpl.
    + apply String.eqb_eq in E. subst k0. rewrite !Hf. reflexivity.
    + rewrite IH. reflexivity.
Qed.

Lemma map_dict_set {A B : Type} (g : A -> B) (k : string) (v : A) d :
  List.map (fun kv => (fst kv, g (snd kv))) (dict_set k v d) =
  dict_set k (g v) (List.map (fun kv => (fst kv, g (snd kv))) d).
Proof.
  induction d as [|kv d IH]; simpl; [reflexivity|].
  destruct (String.eqb (fst kv) k); simpl; [reflexivity|]. rewrite IH. reflexivity.
Qed.

(** A field under an excluded key does not count in the signature. *)
Lemma generate_signature_dict_set (k : string) (v : json) d :
  excluded k = true ->
  generate_signature (JDict (dict_set k v d)) = generate_signature (JDict d).
Proof.
  intros Hk. unfold generate_signature. cbn [sort_and_stringify].
  rewrite (map_dict_set (fun v => (v, sort_and_stringify v))).
  rewrite !filter_sorted_items.
  rewrite filter_dict_set; [reflexivity|].
  intros x. simpl. rewrite Hk. reflexivity.
Qed.

Lemma generate_signature_dict (d : list (string * json)) :
  exists signature, generate_signature (JDict d) = Some signature.
Proof. unfold generate_signature. cbn [sort_and_stringify]. eexists. reflexivity. Qed.

(** *** Numbers and their digits *)

Lemma int_of_decimal_string_of_Z (n : Z) : int_of_decimal (string_of_Z n) = Some n.
Proof.
  unfold int_of_decimal, string_of_Z.
  rewrite NilZero.isi.
  - simpl. rewrite DecimalZ.of_to. reflexivity.
  - destruct n as [|p|p]; simpl; try discriminate.
    intros H. injection H as H. revert H. apply DecimalPos.Unsigned.to_uint_nonnil.
  - destruct n as [|p|p]; simpl; try discriminate.
    intros H. injection H as H. revert H. apply DecimalPos.Unsigned.to_uint_nonnil.
Qed.

Definition digit_char (c : ascii) : Prop := In c (list_ascii_of_string "0123456789").

Definition nonzero_digit_char (c : ascii) : Prop := In c (list_ascii_of_string "123456789").

Lemma nth_In_default {A : Type} (n : nat) (l : list A) (d : A) :
  (n < List.length l)%nat -> In (nth n l d) l.
Proof. apply nth_In. Qed.

Lemma choice_digit (w : world) : digit_char (fst (choice "0123456789" w)).
Proof.
  unfold choice, digit_char. cbn [fst]. apply nth_In.
  apply Nat.mod_upper_bound. discriminate.
Qed.

Lemma choice_nonzero_digit (w : world) : nonzero_digit_char (fst (choice "123456789" w)).
Proof.
  unfold choice, nonzero_digit_char. cbn [fst]. apply nth_In.
  apply Nat.mod_upper_bound. discriminate.
Qed.

Lemma random_digits_spec (count : nat) :
  forall w, Forall digit_char (fst (random_digits count w)) /\
            List.length (fst (random_digits count w)) = count.
Proof.
  induction count as [|k IH]; intros w; [split; [constructor | reflexivity]|].
  cbn [random_digits].
  pose proof (choice_digit w) as Hc.
  destruct (choice "0123456789" w) as [c w1]. cbn [fst] in Hc.
  specialize (IH w1). destruct (random_digits k w1) as [cs w2]. cbn [fst] in *.
  destruct IH as [Hall Hlen]. split; [constructor; assumption | simpl; congruence].
Qed.

(** The value read off a digit sequence that follows an accumulated
    prefix. *)
Lemma of_uint_acc_bounds (d : Decimal.uint) :
  forall acc,
    Z.pos acc * 10 ^ Z.of_nat (Decimal.nb_digits d)
      <= Z.pos (Pos.of_uint_acc d acc)
      < (Z.pos acc + 1) * 10 ^ Z.of_nat (Decimal.nb_digits d).
Proof.
  induction d as [|d IH|d IH|d IH|d IH|d IH|d IH|d IH|d IH|d IH|d IH]; intros acc;
    cbn [Pos.of_uint_acc Decimal.nb_digits];
    try (simpl; lia);
    rewrite Nat2Z.inj_succ, Z.pow_succ_r by lia;
    match goal with
    | |- context [Pos.of_uint_acc d ?a] => specialize (IH a)
    end;
    assert (Hp : 0 < 10 ^ Z.of_nat (Decimal.nb_digits d)) by (apply Z.pow_pos_nonneg; lia);
    nia.
Qed.

Lemma uint_of_digits (cs : list ascii) :
  Forall digit_char cs ->
  exists u, NilEmpty.uint_of_string (string_of_list_ascii cs) = Some u /\
            Decimal.nb_digits u = List.length cs.
Proof.
  induction 1 as [|c cs Hc Hcs IH]; simpl; [exists Decimal.Nil; split; reflexivity|].
  destruct IH as (u & Hu & Hn). rewrite Hu.
  unfold digit_char in Hc. simpl in Hc.
  repeat (destruct Hc as [<-|Hc]; [eexists; split; [reflexivity | simpl; congruence]|]).
  destruct Hc.
Qed.

Lemma string_of_list_ascii_length (cs : list ascii) :
  String.length (string_of_list_ascii cs) = List.length cs.
Proof. induction cs as [|c cs IH]; simpl; congruence. Qed.

Lemma generate_random_value (length : Z) (w : world) :
  exists value,
    int_of_decimal (fst (generate_random length w)) = Some value /\
    10 ^ (Z.max 1 length - 1) <= value < 10 ^ Z.max 1 length /\
    Z.of_nat (String.length (fst (generate_random length w))) = Z.max 1 length.
Proof.
  unfold generate_random.
  pose proof (choice_nonzero_digit w) as Hc.
  destruct (choice "123456789" w) as [c w1]. cbn [fst] in Hc.
  pose proof (random_digits_spec (Z.to_nat (length - 1)) w1) as [Hall Hlen].
  destruct (random_digits (Z.to_nat (length - 1)) w1) as [cs w2]. cbn [fst] in *.
  destruct (uint_of_digits cs Hall) as (u & Hu & Hn).
  assert (Hsize : Z.of_nat (Decimal.nb_digits u) = Z.max 1 length - 1) by lia.
  assert (Hstr : Z.of_nat (String.length (String c (string_of_list_ascii cs))) =
                 Z.max 1 length).
  { cbn [String.length]. rewrite string_of_list_ascii_length. lia. }
  assert (Hpow : 10 ^ Z.max 1 length = 10 * 10 ^ (Z.max 1 length - 1)).
  { replace (Z.max 1 length) with (Z.succ (Z.max 1 length - 1)) at 1 by lia.
    apply Z.pow_succ_r. lia. }
  unfold nonzero_digit_char in Hc. simpl in Hc.
  unfold int_of_decimal.
  repeat (destruct Hc as [<-|Hc];
          [ cbn [NilZero.int_of_string Ascii.eqb Bool.eqb NilZero.uint_of_string
                 NilEmpty.uint_of_string]; rewrite Hu;
            cbn [uint_of_char option_map Z.of_int Z.of_uint Pos.of_uint Z.of_N];
            eexists; split; [reflexivity|]; split; [|exact Hstr];
            match goal with
            | |- context [Pos.of_uint_acc u ?a] => pose proof (of_uint_acc_bounds u a) as Hb
            end;
            rewrite Hsize in Hb; rewrite Hpow; lia |]).
  destruct Hc.
Qed.

(** [generate_random(length)] is the decimal form of a number with exactly
    [length] digits and no leading zero (one digit when [length] is below
    1), whatever the random generator hands out. *)
Theorem generate_random_range (length : Z) (w : world) :
  exists value,
    int_of_decimal (fst (generate_random length w)) = Some value /\
    10 ^ (Z.max 1 length - 1) <= value < 10 ^ Z.max 1 length /\
    Z.of_nat (String.length (fst (generate_random length w))) = Z.max 1 length /\
    forall first_digit rest,
      fst (generate_random length w) = String first_digit rest -> first_digit <> "0"%char.
Proof.
  destruct (generate_random_value length w) as (value & Hv & Hrange & Hlen).
  exists value. repeat split; try assumption; try apply Hrange.
  intros first_digit rest E ->.
  unfold generate_random in E.
  pose proof (choice_nonzero_digit w) as Hc.
  destruct (choice "123456789" w) as [c w1]. cbn [fst] in Hc.
  destruct (random_digits (Z.to_nat (length - 1)) w1) as [cs w2]. cbn [fst] in E.
  injection E as -> _.
  unfold nonzero_digit_char in Hc. simpl in Hc.
  repeat (destruct Hc as [Hc|Hc]; [discriminate Hc|]). exact Hc.
Qed.

(** *** The parameters added to a request *)

Lemma add_params_total (cfg : list param) :
  forall data w, exists data' w', add_params cfg data w = Some (data', w').
Proof.
  induction cfg as [|p cfg IH]; intros data w; simpl; [eauto|].
  destruct (String.eqb (p_type p) "timestamp").
  - unfold generate_timestamp. rewrite int_of_decimal_string_of_Z. apply IH.
  - destruct (String.eqb (p_type p) "random"); [|apply IH].
    destruct (generate_random_value (default 12 (p_length p)) w) as (v & Hv & _).
    destruct (generate_random (default 12 (p_length p)) w) as [digits w1].
    cbn [fst] in Hv. rewrite Hv. apply IH.
Qed.

(** A parameter that is not named [k] leaves the field [k] alone. *)
Lemma add_params_frame (k : string) (cfg : list param) :
  Forall (fun p => p_name p <> k) cfg ->
  forall data w data' w',
    add_params cfg data w = Some (data', w') -> dict_get k data' = dict_get k data.
Proof.
  induction 1 as [|p cfg Hp Hcfg IH]; intros data w data' w' Hrun; simpl in Hrun.
  - injection Hrun as <- _. reflexivity.
  - destruct (String.eqb (p_type p) "timestamp").
    + destruct (int_of_decimal (generate_timestamp w)); [|discriminate].
      rewrite (IH _ _ _ _ Hrun). apply dict_get_set_other, Hp.
    + destruct (String.eqb (p_type p) "random"); [|eapply IH; eassumption].
      destruct (generate_random (default 12 (p_length p)) w) as [digits w1].
      destruct (int_of_decimal digits); [|discriminate].
      rewrite (IH _ _ _ _ Hrun). apply dict_get_set_other, Hp.
Qed.

(** When the signature parameter has one of the names that
    [generate_signature] leaves out, the result carries a signature that
    checks: computing the signature of the result again, the signature field
    included, gives the value stored in it. *)
Theorem add_common_params_signature_checks
        (request_data : list (string * json)) (cfg : list param) (w : world) (p : param) :
  List.find is_signature cfg = Some p ->
  excluded (p_name p) = true ->
  exists data w' signature,
    add_common_params request_data cfg w = Some (data, w') /\
    dict_get (p_name p) data = Some (JStr signature) /\
    generate_signature (JDict data) = Some signature.
Proof.
  intros Hfind Hex. unfold add_common_params.
  destruct (add_params_total cfg (dict_del "auto_generate" request_data) w)
    as (data & w' & Hrun).
  rewrite Hrun, Hfind.
  destruct (generate_signature_dict data) as (signature & Hsig). rewrite Hsig.
  exists (dict_set (p_name p) (JStr signature) data), w', signature.
  split; [reflexivity|]. split; [apply dict_get_set_same|].
  rewrite generate_signature_dict_set by exact Hex. exact Hsig.
Qed.

Lemma add_common_params_signature_checks_witness :
  exists data w' signature,
    add_common_params [("userName", JStr "u"); ("pwd", JStr "p")]
                      login_auto_generate_config (MkWorld 1700000000 [3%nat; 14%nat]) =
      Some (data, w') /\
    dict_get "signature" data = Some (JStr signature) /\
    generate_signature (JDict data) = Some signature.
Proof.
  apply (add_common_params_signature_checks
           [("userName", JStr "u"); ("pwd", JStr "p")] login_auto_generate_config
           (MkWorld 1700000000 [3%nat; 14%nat]) (MkParam "signature" "signature" None));
    reflexivity.
Defined.

(** [add_common_params] always returns, drops the key auto_generate, and
    leaves every field alone that no parameter names. *)
Theorem add_common_params_frame
        (request_data : list (string * json)) (cfg : list param) (w : world) (k : string) :
  Forall (fun p => p_name p <> k) cfg ->
  exists data w',
    add_common_params request_data cfg w = Some (data, w') /\
    dict_get k data =
      (if String.eqb k "auto_generate" then None else dict_get k request_data).
Proof.
  intros Hk. unfold add_common_params.
  destruct (add_params_total cfg (dict_del "auto_generate" request_data) w)
    as (data & w' & Hrun).
  rewrite Hrun.
  pose proof (add_params_frame k cfg Hk _ _ _ _ Hrun) as Hframe.
  rewrite dict_get_del in Hframe.
  destruct (List.find is_signature cfg) as [p|] eqn:Hfind.
  - destruct (generate_signature_dict data) as (signature & Hsig). rewrite Hsig.
    eexists _, _. split; [reflexivity|].
    rewrite dict_get_set_other; [exact Hframe|].
    apply find_some in Hfind. destruct Hfind as [Hin _].
    rewrite Forall_forall in Hk. apply Hk. apply list_elem_of_In. exact Hin.
  - eexists _, _. split; [reflexivity | exact Hframe].
Qed.

Lemma add_common_params_frame_witness :
  exists data w',
    add_common_params [("userName", JStr "u"); ("auto_generate", JList [])]
                      login_auto_generate_config (MkWorld 1700000000 []) = Some (data, w') /\
    dict_get "userName" data = Some (JStr "u").
Proof.
  apply (add_common_params_frame
           [("userName", JStr "u"); ("auto_generate", JList [])]
           login_auto_generate_config (MkWorld 1700000000 []) "userName").
  repeat constructor; discriminate.
Defined.

End ParamFacts.

(** ** The daily task (src/scheduler.py) *)

Module SchedFacts.
Import Sched.

Definition valid_hm (hour minute : Z) : Prop :=
  0 <= hour < 24 /\ 0 <= minute < 60.

(** The wall-clock offset of [hour:minute] within a UTC day. *)
Definition offset_in_day (hour minute : Z) : Z := (hour * 3600 + minute * 60) * SECOND.

Lemma replace_hm_valid hour minute now :
  valid_hm hour minute ->
  replace_hm now hour minute = Some (now - now mod DAY + offset_in_day hour minute).
Proof.
  intros [[? ?] [? ?]]. unfold replace_hm.
  replace (0 <=? hour) with true by (symmetry; apply Z.leb_le; lia).
  replace (hour <? 24) with true by (symmetry; apply Z.ltb_lt; lia).
  replace (0 <=? minute) with true by (symmetry; apply Z.leb_le; lia).
  replace (minute <? 60) with true by (symmetry; apply Z.ltb_lt; lia).
  reflexivity.
Qed.

Lemma offset_in_day_range hour minute :
  valid_hm hour minute -> 0 <= offset_in_day hour minute < DAY.
Proof. unfold valid_hm, offset_in_day, DAY, SECOND. lia. Qed.

(** One turn: the target is aligned to [hour:minute], strictly in the future
    of the instant it was computed at, and at most 24 hours away. *)
Lemma daily_turn_spec hour minute now w :
  valid_hm hour minute ->
  exists f,
    daily_turn hour minute now w = Some f /\
    computed_at f = now /\
    target_time f mod DAY = offset_in_day hour minute /\
    now < target_time f <= now + DAY /\
    wait_seconds f = target_time f - now /\
    fired_at f = target_time f + oversleep w /\
    finished_at f = fired_at f + job_duration w /\
    error_logged f = job_raises w.
Proof.
  intros Hv. unfold daily_turn. rewrite (replace_hm_valid _ _ _ Hv).
  pose proof (offset_in_day_range _ _ Hv) as Ho.
  assert (HD : 0 < DAY) by (unfold DAY, SECOND; lia).
  pose proof (Z.mod_pos_bound now DAY HD) as Hm.
  set (o := offset_in_day hour minute) in *.
  assert (Hal : (now - now mod DAY + o) mod DAY = o).
  { rewrite <- Zplus_mod_idemp_l, Zminus_mod_idemp_r, Z.sub_diag, Zmod_0_l.
    simpl. apply Z.mod_small. exact Ho. }
  destruct (now - now mod DAY + o <=? now) eqn:E.
  - apply Z.leb_le in E. eexists. split; [reflexivity|]. simpl.
    repeat split; try lia.
    rewrite <- Zplus_mod_idemp_r, Z_mod_same_full, Z.add_0_r. exact Hal.
  - apply Z.leb_gt in E. eexists. split; [reflexivity|]. simpl.
    repeat split; lia.
Qed.

(** What a run of the loop looks like, turn by turn: every target is aligned
    to [hour:minute] and computed from the instant the previous turn ended
    (the first one from the start instant); the callback is awaited at the
    target (plus what [asyncio.sleep] overslept); a raising callback is logged
    and the next turn follows as after a successful one. *)
Fixpoint daily_run_ok (hour minute now : Z) (fs : list firing) (world : list turn) : Prop :=
  match fs, world with
  | [], [] => True
  | f :: fs', w :: world' =>
      computed_at f = now /\
      target_time f mod DAY = offset_in_day hour minute /\
      now < target_time f <= now + DAY /\
      wait_seconds f = target_time f - now /\
      fired_at f = target_time f + oversleep w /\
      finished_at f = fired_at f + job_duration w /\
      error_logged f = job_raises w /\
      daily_run_ok hour minute (finished_at f) fs' world'
  | _, _ => False
  end.

(** C8: for every start instant and every sequence of sleeps, job durations
    and job outcomes, the daily task fires once per turn, each time at a
    target that is the next occurrence of [hour:minute] UTC strictly after the
    instant the target was computed at (so within 24 hours of it), the target
    of a turn being computed only after the previous job has ended; a job that
    raises does not end the loop. *)
Theorem run_daily_task_aligned (hour minute : Z) (world : list turn) :
  valid_hm hour minute ->
  forall now, exists fs,
    run_daily_task hour minute now world = (fs, false) /\
    daily_run_ok hour minute now fs world.
Proof.
  intros Hv. induction world as [|w world IH]; intros now.
  - exists []. split; [reflexivity | exact I].
  - destruct (daily_turn_spec hour minute now w Hv)
      as (f & Hf & Hc & Hal & Hfut & Hw & Hfi & Hfin & Herr).
    destruct (IH (finished_at f)) as (fs & Hrun & Hok).
    exists (f :: fs). split.
    + simpl. rewrite Hf, Hrun. reflexivity.
    + simpl. tauto.
Qed.

Definition midnight_world : list turn :=
  [ MkTurn 0 (5 * SECOND) false; MkTurn 0 (3600 * SECOND) true; MkTurn 0 0 false ].

(** Start at 23:59:00 UTC of day 20000 with [hour = 0, minute = 0]. *)
Definition start_2359 : Z := 20000 * DAY + (23 * 3600 + 59 * 60) * SECOND.

Lemma run_daily_task_aligned_witness :
  valid_hm 0 0 /\
  exists fs,
    run_daily_task 0 0 start_2359 midnight_world = (fs, false) /\
    daily_run_ok 0 0 start_2359 fs midnight_world.
Proof.
  assert (H : valid_hm 0 0) by (unfold valid_hm; lia).
  split; [exact H | exact (run_daily_task_aligned 0 0 midnight_world H start_2359)].
Defined.

(** The scenario of the specification: the first run fires 60 seconds after
    a start at 23:59:00, the later ones exactly 24 hours after the previous
    target, whatever the job took and whether or not it raised. *)
Example run_daily_task_midnight :
  List.map (fun f => (wait_seconds f, target_time f, error_logged f))
           (fst (run_daily_task 0 0 start_2359 midnight_world)) =
  [ (60 * SECOND, 20001 * DAY, false);
    (DAY - 5 * SECOND, 20002 * DAY, true);
    (DAY - 3600 * SECOND, 20003 * DAY, false) ].
Proof. vm_compute. reflexivity. Qed.

(** No drift: when a turn ends less than 24 hours after its target, the next
    target is exactly 24 hours after this one. *)
Lemma next_target_one_day_later hour minute now w w' f f' :
  valid_hm hour minute ->
  daily_turn hour minute now w = Some f ->
  0 <= oversleep w + job_duration w < DAY ->
  daily_turn hour minute (finished_at f) w' = Some f' ->
  target_time f' = target_time f + DAY.
Proof.
  intros Hv Hf Hd Hf'.
  destruct (daily_turn_spec hour minute now w Hv)
    as (g & Hg & _ & Hal & _ & _ & Hfi & Hfin & _).
  rewrite Hf in Hg. injection Hg as <-.
  destruct (daily_turn_spec hour minute (finished_at f) w' Hv)
    as (g' & Hg' & _ & Hal' & Hfut' & _).
  rewrite Hf' in Hg'. injection Hg' as <-.
  unfold DAY, SECOND in *. Z.div_mod_to_equations. lia.
Qed.

(** A job that overruns 24 hours makes the task skip the occurrences that
    passed meanwhile; the next firing is still aligned. *)
Example run_daily_task_overrun :
  List.map target_time
    (fst (run_daily_task 0 0 start_2359 [MkTurn 0 (25 * 3600 * SECOND) false; MkTurn 0 0 false])) =
  [ 20001 * DAY; 20003 * DAY ].
Proof. vm_compute. reflexivity. Qed.

(** An hour outside 0..23 ends the coroutine at once (ValueError). *)
Example run_daily_task_bad_hour :
  run_daily_task 24 0 start_2359 midnight_world = ([], true).
Proof. reflexivity. Qed.

Lemma next_target_one_day_later_witness :
  target_time (MkFiring (20001 * DAY + 5 * SECOND) (20002 * DAY) (DAY - 5 * SECOND)
                        (20002 * DAY) (20002 * DAY + 3600 * SECOND) true) =
  target_time (MkFiring start_2359 (20001 * DAY) (60 * SECOND) (20001 * DAY)
                        (20001 * DAY + 5 * SECOND) false) + DAY.
Proof.
  apply (next_target_one_day_later 0 0 start_2359
           (MkTurn 0 (5 * SECOND) false) (MkTurn 0 (3600 * SECOND) true)).
  - unfold valid_hm. lia.
  - reflexivity.
  - unfold DAY, SECOND. simpl. lia.
  - reflexivity.
Defined.

(** *** The interval task *)

Definition total_job_time (world : list turn) : Z :=
  fold_right Z.add 0 (List.map job_duration world).

Definition forward (w : turn) : Prop := 0 <= job_duration w /\ 0 <= oversleep w.

Lemma run_interval_task_length interval_minutes world :
  forall now, List.length (run_interval_task interval_minutes now world) = List.length world.
Proof. induction world as [|w world IH]; intros now; simpl; [reflexivity|]. rewrite IH. reflexivity. Qed.

(** The interval task runs its callback at once and then once per turn,
    whether or not the callback raises; the sleep starts when the callback
    has ended, so the start of the turn [k] lies behind the fixed-rate
    instant [now + k * interval] by the run time of all callbacks before
    it, at least. *)
Theorem interval_task_drift (interval_minutes : Z) (world : list turn) :
  Forall forward world ->
  forall now,
    List.length (run_interval_task interval_minutes now world) = List.length world /\
    (forall r, head (run_interval_task interval_minutes now world) = Some r ->
               started_at r = now) /\
    forall (k : nat) (r : run),
      run_interval_task interval_minutes now world !! k = Some r ->
      now + Z.of_nat k * (interval_minutes * 60 * SECOND) + total_job_time (firstn k world)
        <= started_at r.
Proof.
  intros Hw now. split; [apply run_interval_task_length|]. split.
  - destruct world; simpl; intros r Hr; [discriminate|]. injection Hr as <-. reflexivity.
  - revert now. induction Hw as [|w world [Hd Ho] Hw IH]; intros now k r Hk.
    + destruct k; discriminate.
    + destruct k as [|k]; simpl in Hk.
      * injection Hk as <-. unfold total_job_time. simpl. lia.
      * apply IH in Hk. rewrite Nat2Z.inj_succ.
        change (firstn (S k) (w :: world)) with (w :: firstn k world).
        unfold total_job_time in *. cbn [List.map fold_right]. lia.
Qed.

Lemma interval_task_drift_witness :
  List.length (run_interval_task 30 0 midnight_world) = List.length midnight_world /\
  (forall r, head (run_interval_task 30 0 midnight_world) = Some r -> started_at r = 0) /\
  forall (k : nat) (r : run),
    run_interval_task 30 0 midnight_world !! k = Some r ->
    0 + Z.of_nat k * (30 * 60 * SECOND) + total_job_time (firstn k midnight_world)
      <= started_at r.
Proof.
  apply (interval_task_drift 30 midnight_world).
  repeat constructor; unfold forward, SECOND; simpl; lia.
Defined.

(** A callback that raises costs the task nothing: the run is recorded as
    failed and the next one follows. *)
Example run_interval_task_failure :
  List.map (fun r => (started_at r, run_failed r))
           (run_interval_task 30 0 midnight_world) =
  [ (0, false); (1805 * SECOND, true); (7205 * SECOND, false) ].
Proof. vm_compute. reflexivity. Qed.

(** *** The table of tasks *)

(** Every entry of the table names a task that was created, every task
    that is neither done nor asked to cancel is named by an entry, and two
    entries never name the same task. *)
Record registered (s : scheduler) : Prop := MkRegistered {
  reg_bound : forall id e, tasks s !! id = Some e -> (task e < List.length (created s))%nat;
  reg_live : forall h, created s !! h = Some Live ->
                       exists id e, tasks s !! id = Some e /\ task e = h;
  reg_inj : forall id1 id2 e1 e2,
      tasks s !! id1 = Some e1 -> tasks s !! id2 = Some e2 -> task e1 = task e2 -> id1 = id2
}.

Lemma cancel_if_not_done_length h l :
  List.length (cancel_if_not_done h l) = List.length l.
Proof.
  unfold cancel_if_not_done. destruct (l !! h) as [[| |]|]; try reflexivity.
  apply length_insert.
Qed.

Lemma cancel_if_not_done_live h l h' :
  cancel_if_not_done h l !! h' = Some Live <-> l !! h' = Some Live /\ h' <> h.
Proof.
  unfold cancel_if_not_done. destruct (l !! h) as [st|] eqn:E.
  - destruct st.
    + destruct (decide (h' = h)) as [->|Hne].
      * rewrite list_lookup_insert_eq by (eapply lookup_lt_Some; eassumption).
        split; [discriminate | tauto].
      * rewrite list_lookup_insert_ne by congruence. tauto.
    + split; [|tauto]. intros H. split; [exact H|]. congruence.
    + split; [|tauto]. intros H. split; [exact H|]. congruence.
  - split; [|tauto]. intros H. split; [exact H|]. congruence.
Qed.

(** The loop of [stop()] over the entries. *)
Lemma stop_created (m : gmap string entry) (l : list task_status) :
  let l' := map_fold (fun _ e acc => cancel_if_not_done (task e) acc) l m in
  List.length l' = List.length l /\
  forall h, l' !! h = Some Live <->
            l !! h = Some Live /\ forall id e, m !! id = Some e -> task e <> h.
Proof.
  cbv zeta.
  apply (map_fold_weak_ind
           (fun (r : list task_status) (m : gmap string entry) =>
              List.length r = List.length l /\
              forall h, r !! h = Some Live <->
                        l !! h = Some Live /\ forall id e, m !! id = Some e -> task e <> h)).
  - split; [reflexivity|]. intros h. split.
    + intros H. split; [exact H|]. intros id e He. rewrite lookup_empty in He. discriminate.
    + tauto.
  - intros id e m0 r Hid [Hlen Hlive]. split.
    + rewrite cancel_if_not_done_length. exact Hlen.
    + intros h. rewrite cancel_if_not_done_live, Hlive. split.
      * intros [[Hl Hm] Hne]. split; [exact Hl|]. intros id' e' He'.
        destruct (decide (id' = id)) as [->|Hd].
        -- rewrite lookup_insert_eq in He'. injection He' as <-. congruence.
        -- rewrite lookup_insert_ne in He' by congruence. eapply Hm, He'.
      * intros [Hl Hm]. split; [split; [exact Hl|]|].
        -- intros id' e' He'. apply (Hm id' e').
           rewrite lookup_insert_ne; [exact He'|]. intros ->. congruence.
        -- intros E. apply (Hm id e); [apply lookup_insert_eq | congruence].
Qed.

Lemma registered_new : registered new_scheduler.
Proof.
  constructor; simpl.
  - intros id e H. rewrite lookup_empty in H. discriminate.
  - intros h H. discriminate.
  - intros id1 id2 e1 e2 H. rewrite lookup_empty in H. discriminate.
Qed.

Lemma registered_stop s : registered s -> registered (stop s).
Proof.
  intros [Hb Hl Hi]. destruct (stop_created (tasks s) (created s)) as [Hlen Hlive].
  constructor; simpl.
  - intros id e He. rewrite Hlen. eapply Hb, He.
  - intros h Hh. apply Hlive in Hh. destruct Hh as [Hh Hno].
    destruct (Hl h Hh) as (id & e & He & Ht). exfalso. eapply Hno; eassumption.
  - exact Hi.
Qed.

Lemma registered_add_task task_id k s : registered s -> registered (fst (add_task task_id k s)).
Proof.
  intros [Hb Hl Hi]. unfold add_task.
  set (created1 := match tasks s !! task_id with
                   | Some e => cancel_if_not_done (task e) (created s)
                   | None => created s
                   end).
  assert (Hlen : List.length created1 = List.length (created s)).
  { unfold created1. destruct (tasks s !! task_id); [apply cancel_if_not_done_length | reflexivity]. }
  assert (Hlive : forall h, created1 !! h = Some Live ->
                            exists id e, tasks s !! id = Some e /\ task e = h /\ id <> task_id).
  { intros h Hh. unfold created1 in Hh. destruct (tasks s !! task_id) as [e0|] eqn:E0.
    - apply cancel_if_not_done_live in Hh. destruct Hh as [Hh Hne].
      destruct (Hl h Hh) as (id & e & He & Ht). exists id, e. repeat split; try assumption.
      intros ->. congruence.
    - destruct (Hl h Hh) as (id & e & He & Ht). exists id, e. repeat split; try assumption.
      intros ->. congruence. }
  destruct (loop s); constructor; simpl.
  - intros id e He. rewrite length_app. simpl.
    destruct (decide (id = task_id)) as [->|Hd].
    + rewrite lookup_insert_eq in He. injection He as <-. simpl. lia.
    + rewrite lookup_insert_ne in He by congruence. apply Hb in He. lia.
  - intros h Hh. destruct (decide (h < List.length created1)%nat) as [Hlt|Hge].
    + rewrite lookup_app_l in Hh by exact Hlt.
      destruct (Hlive h Hh) as (id & e & He & Ht & Hne).
      exists id, e. rewrite lookup_insert_ne by congruence. tauto.
    + exists task_id, (MkEntry k (List.length created1)). rewrite lookup_insert_eq.
      split; [reflexivity|]. simpl.
      apply lookup_lt_Some in Hh. rewrite length_app in Hh. simpl in Hh. lia.
  - intros id1 id2 e1 e2 H1 H2 Ht.
    destruct (decide (id1 = task_id)) as [->|Hd1], (decide (id2 = task_id)) as [->|Hd2];
      try reflexivity.
    + rewrite lookup_insert_eq in H1. injection H1 as <-.
      rewrite lookup_insert_ne in H2 by congruence. apply Hb in H2. simpl in Ht. lia.
    + rewrite lookup_insert_eq in H2. injection H2 as <-.
      rewrite lookup_insert_ne in H1 by congruence. apply Hb in H1. simpl in Ht. lia.
    + rewrite lookup_insert_ne in H1 by congruence.
      rewrite lookup_insert_ne in H2 by congruence. eapply Hi; eassumption.
  - intros id e He. rewrite Hlen. eapply Hb, He.
  - intros h Hh. destruct (Hlive h Hh) as (id & e & He & Ht & _). eauto.
  - exact Hi.
Qed.

Lemma registered_remove_task task_id s : registered s -> registered (remove_task task_id s).
Proof.
  intros Hr. unfold remove_task. destruct (tasks s !! task_id) as [e0|] eqn:E0; [|exact Hr].
  destruct Hr as [Hb Hl Hi]. constructor; simpl.
  - intros id e He. rewrite cancel_if_not_done_length.
    apply lookup_delete_Some in He. destruct He as [_ He]. eapply Hb, He.
  - intros h Hh. apply cancel_if_not_done_live in Hh. destruct Hh as [Hh Hne].
    destruct (Hl h Hh) as (id & e & He & Ht). exists id, e. split; [|exact Ht].
    apply lookup_delete_Some. split; [|exact He]. intros ->. congruence.
  - intros id1 id2 e1 e2 H1 H2. apply lookup_delete_Some in H1, H2.
    destruct H1 as [_ H1], H2 as [_ H2]. eapply Hi; eassumption.
Qed.

Lemma registered_apply_op o s : registered s -> registered (apply_op o s).
Proof.
  intros Hr. destruct o; simpl.
  - destruct Hr as [Hb Hl Hi]. constructor; assumption.
  - apply registered_stop, Hr.
  - apply registered_add_task, Hr.
  - apply registered_add_task, Hr.
  - apply registered_remove_task, Hr.
  - destruct Hr as [Hb Hl Hi]. constructor; simpl.
    + intros id e He. destruct (created s !! h); [rewrite length_insert|]; eapply Hb, He.
    + intros h' Hh. apply Hl. destruct (created s !! h) eqn:E; [|exact Hh].
      destruct (decide (h' = h)) as [->|Hne].
      * rewrite list_lookup_insert_eq in Hh by (eapply lookup_lt_Some; eassumption).
        discriminate.
      * rewrite list_lookup_insert_ne in Hh by congruence. exact Hh.
    + exact Hi.
Qed.

Lemma registered_apply_ops ops : forall s, registered s -> registered (apply_ops ops s).
Proof.
  unfold apply_ops. induction ops as [|o ops IH]; intros s Hr; simpl; [exact Hr|].
  apply IH, registered_apply_op, Hr.
Qed.

(** Whatever calls are made on a scheduler and whichever of its tasks end,
    in any order: a task it created that has neither ended nor been asked to
    cancel is the task of an entry of the table, and no two entries share a
    task. So adding a task under an id in use, or removing an id, never
    leaves the task that was there running. *)
Theorem scheduler_tasks_registered (ops : list op) :
  registered (apply_ops ops new_scheduler).
Proof. apply registered_apply_ops, registered_new. Qed.

(** After [stop()], whatever came before: no task of the scheduler is left
    that has neither ended nor been asked to cancel. *)
Theorem stop_cancels_every_task (ops : list op) (h : nat) :
  created (stop (apply_ops ops new_scheduler)) !! h <> Some Live.
Proof.
  pose proof (registered_apply_ops ops new_scheduler registered_new) as [Hb Hl Hi].
  simpl. intros Hh.
  destruct (stop_created (tasks (apply_ops ops new_scheduler))
                         (created (apply_ops ops new_scheduler))) as [_ Hlive].
  apply Hlive in Hh. destruct Hh as [Hh Hno].
  destruct (Hl h Hh) as (id & e & He & Ht). eapply Hno; eassumption.
Qed.

(** Before [start()], adding a task raises and leaves the table as it was;
    a task under the same id has been asked to cancel all the same. *)
Example add_task_before_start :
  let s := MkScheduler {[ "api_hourly_report" := MkEntry (IntervalTask 30) 0 ]}
                       false false [Live] in
  snd (add_task "api_hourly_report" (IntervalTask 60) s) = false /\
  created (fst (add_task "api_hourly_report" (IntervalTask 60) s)) = [CancelRequested] /\
  tasks (fst (add_task "api_hourly_report" (IntervalTask 60) s)) = tasks s.
Proof. vm_compute. repeat split; reflexivity. Qed.

End SchedFacts.

(** ** The session manager (src/auth_manager.py) *)

Module AuthFacts.
Import Auth.

Section Search.

Variable totp_at : string -> Z -> string.
Variable server : nat -> string -> response.

(** The codes [get_token] is prepared to send, in order: the current code,
    then the codes of the offsets -5..+2 that differ from it. *)
Definition candidates (secret : string) (now : Z) : list string :=
  let totp_code := totp_at secret now in
  totp_code ::
  List.filter (fun c => negb (String.eqb c totp_code))
              (List.map code (make_time_windows totp_at secret now)).

(** Sending the candidates one after the other, the [n]-th request first,
    up to and including the first one whose response ends the search: a
    success, or a response on which the test raises. *)
Fixpoint search (n : nat) (cands : list string) : list string :=
  match cands with
  | [] => []
  | c :: rest =>
      match login_succeeded (server n c) with
      | inr false => c :: search (S n) rest
      | _ => [c]
      end
  end.

(** A token of blanks only, a no-break space (U+00A0) and an ideographic
    space (U+3000) among them, strips to nothing. *)
Example strip_nonempty_blanks :
  strip_nonempty (String " " (String "194" (String "160" "　"))) = false /\
  strip_nonempty (String "194" (String "160" "T")) = true.
Proof. vm_compute. split; reflexivity. Qed.

Lemma strip_nonempty_truthy tok :
  strip_nonempty tok = true -> negb (String.eqb tok "") = true.
Proof. destruct tok; [discriminate | reflexivity]. Qed.

Lemma item_contains key v x : item key v = inr x -> contains key v = inr true.
Proof.
  destruct v as [| | | |l|d]; simpl; try discriminate.
  destruct (Param.dict_get key d) as [y|] eqn:E; [|discriminate].
  intros _. reflexivity.
Qed.

Lemma token_value_has_token r t : token_value r = inr t -> has_token r = inr true.
Proof.
  unfold token_value, has_token. destruct (body r) as [b|]; [|discriminate].
  unfold and_then. destruct (item "data" b) as [e|d] eqn:Ed; [discriminate|].
  intros Et. rewrite (item_contains _ _ _ Ed). apply (item_contains _ _ _ Et).
Qed.

Lemma response_token_value r tok :
  response_token r = Some tok -> token_value r = inr (Param.JStr tok).
Proof.
  unfold response_token. destruct (token_value r) as [e|t]; [discriminate|].
  destruct t; try discriminate. intros H. injection H as ->. reflexivity.
Qed.

Lemma login_succeeded_token r tok :
  error r = None -> response_token r = Some tok -> strip_nonempty tok = true ->
  login_succeeded r = inr true.
Proof.
  intros He Ht Hs. apply response_token_value in Ht.
  unfold login_succeeded. rewrite He, (token_value_has_token _ _ Ht), Ht. simpl.
  rewrite (strip_nonempty_truthy _ Hs). reflexivity.
Qed.

(** The data of a response whose token could be read is an object. *)
Lemma token_value_expires_in r t now :
  token_value r = inr t -> exists expiry, expires_in r now = inr expiry.
Proof.
  unfold token_value, expires_in. destruct (body r) as [b|]; [|discriminate].
  unfold and_then. destruct (item "data" b) as [e|d]; [discriminate|].
  destruct d; simpl; try discriminate. eauto.
Qed.

Lemma token_value_error_msg r t :
  token_value r = inr t -> exists m, error_msg r = inr m.
Proof.
  unfold token_value, error_msg. destruct (body r) as [b|]; [|discriminate].
  destruct b; simpl; try discriminate. eauto.
Qed.

Lemma finish_login_fail r st :
  login_succeeded r = inr false -> exists e, finish_login r st = (Raise e, st).
Proof.
  unfold login_succeeded, finish_login. intros H.
  destruct (error r); [eauto|].
  destruct (has_token r) as [e|[|]]; simpl in H; [discriminate| |eauto].
  destruct (token_value r) as [e|t] eqn:Et; simpl in H; [discriminate|].
  destruct (token_value_error_msg _ _ Et) as (m & Hm). rewrite Hm.
  injection H as H.
  destruct t; try (rewrite H; eauto); simpl in H; rewrite ?H; eauto.
Qed.

Lemma finish_login_ok r st tok :
  error r = None -> response_token r = Some tok -> strip_nonempty tok = true ->
  exists st',
    finish_login r st = (Return tok, st') /\
    _token_cache st' = <[cache_key := tok]> (_token_cache st) /\
    (exists exp, token_file st' = Some (MkTokenRecord tok exp (clock st))) /\
    sent_codes st' = sent_codes st.
Proof.
  intros He Ht Hs. apply response_token_value in Ht.
  unfold finish_login. rewrite He, (token_value_has_token _ _ Ht), Ht.
  rewrite (strip_nonempty_truthy _ Hs), Hs. cbn [andb].
  destruct (token_value_expires_in _ _ (clock st) Ht) as (expiry & Hx). rewrite Hx.
  eexists. split; [reflexivity|]. simpl. eauto.
Qed.

(** The loop sends the codes that differ from the current one, in order, and
    stops after the first response that ends the search. *)
Lemma try_windows_sent totp_code ws :
  forall resp st,
    sent_codes (snd (try_windows server totp_code ws resp st)) =
    (sent_codes st ++
     search (List.length (sent_codes st))
            (List.filter (fun c => negb (String.eqb c totp_code)) (List.map code ws)))%list.
Proof.
  induction ws as [|w ws IH]; intros resp st; simpl.
  - rewrite app_nil_r. reflexivity.
  - destruct (String.eqb (code w) totp_code) eqn:E; simpl.
    + apply IH.
    + destruct (login_succeeded (server (List.length (sent_codes st)) (code w)))
        as [e|[|]] eqn:Hs; [reflexivity | reflexivity |].
      rewrite IH. simpl. rewrite length_app, <- app_assoc. simpl.
      replace (List.length (sent_codes st) + 1)%nat with (S (List.length (sent_codes st))) by lia.
      reflexivity.
Qed.

Lemma try_windows_all_fail totp_code ws :
  (forall n w, In w ws -> login_succeeded (server n (code w)) = inr false) ->
  forall resp st,
    login_succeeded resp = inr false ->
    exists r, fst (try_windows server totp_code ws resp st) = inr r /\
              login_succeeded r = inr false.
Proof.
  induction ws as [|w ws IH]; intros Hrej resp st Hresp; simpl; [eauto|].
  assert (Hrest : forall n w', In w' ws -> login_succeeded (server n (code w')) = inr false)
    by (intros; apply Hrej; right; assumption).
  destruct (String.eqb (code w) totp_code); [apply IH; assumption|].
  simpl.
  rewrite (Hrej (List.length (sent_codes st)) w (or_introl eq_refl)).
  apply IH; [assumption|]. apply Hrej. left. reflexivity.
Qed.

Lemma try_windows_finds totp_code c ws :
  (forall n, login_succeeded (server n c) = inr true) ->
  (forall n c', c' <> c -> login_succeeded (server n c') = inr false) ->
  c <> totp_code ->
  In c (List.map code ws) ->
  forall resp st, exists n,
    fst (try_windows server totp_code ws resp st) = inr (server n c).
Proof.
  intros Hacc Hrej Hne. induction ws as [|w ws IH]; intros Hin resp st; simpl in *.
  - contradiction.
  - destruct (String.eqb_spec (code w) totp_code) as [E|E].
    + destruct Hin as [Hin|Hin]; [congruence|]. apply IH, Hin.
    + destruct (String.eqb_spec (code w) c) as [Ec|Ec].
      * rewrite Ec, Hacc. simpl. eauto.
      * rewrite (Hrej _ _ Ec). destruct Hin as [Hin|Hin]; [contradiction|].
        apply IH, Hin.
Qed.

Lemma search_length n cands : (List.length (search n cands) <= List.length cands)%nat.
Proof.
  revert n. induction cands as [|c cands IH]; intros n; simpl; [lia|].
  destruct (login_succeeded (server n c)) as [e|[|]]; simpl; try lia.
  specialize (IH (S n)). lia.
Qed.

Lemma search_head n c rest : exists more, search n (c :: rest) = c :: more.
Proof. simpl. destruct (login_succeeded (server n c)) as [e|[|]]; eauto. Qed.

Lemma filter_length_le {A : Type} (f : A -> bool) l :
  (List.length (List.filter f l) <= List.length l)%nat.
Proof.
  induction l as [|x l IH]; simpl; [lia|]. destruct (f x); simpl; lia.
Qed.

Lemma candidates_length secret now : (List.length (candidates secret now) <= 9)%nat.
Proof.
  unfold candidates. simpl List.length.
  pose proof (filter_length_le
                (fun c => negb (String.eqb c (totp_at secret now)))
                (List.map code (make_time_windows totp_at secret now))) as H.
  rewrite length_map in H. unfold make_time_windows in H. rewrite length_map in H.
  simpl in H. lia.
Qed.

(** The codes of the searched windows are those of the offsets -5..+2. *)
Lemma window_codes secret now c :
  In c (List.map code (make_time_windows totp_at secret now)) <->
  exists j, -5 <= j <= 2 /\ c = totp_at secret (now + j * 30).
Proof.
  unfold make_time_windows, window_offsets. simpl. split.
  - intros H.
    repeat (destruct H as [H|H];
            [eexists; split; [|symmetry; exact H]; lia|]).
    contradiction.
  - intros (j & Hj & ->).
    assert (E : j = -5 \/ j = -4 \/ j = -3 \/ j = -2 \/ j = -1 \/ j = 0 \/ j = 1 \/ j = 2) by lia.
    repeat (destruct E as [E|E]; [subst j; tauto|]). subst j. tauto.
Qed.

Lemma finish_login_sent r s : sent_codes (snd (finish_login r s)) = sent_codes s.
Proof.
  unfold finish_login.
  destruct (error r); [reflexivity|].
  destruct (has_token r) as [e|[|]]; [reflexivity| |reflexivity].
  destruct (token_value r) as [e|t]; [reflexivity|].
  destruct t; simpl;
    repeat match goal with
           | |- context [match ?x with _ => _ end] => destruct x; simpl
           end; reflexivity.
Qed.

(** What [get_token] sends when the cache is empty, whatever the server
    answers: the current code first, then the other window codes in order,
    up to the first response that ends the search; nine requests at most. *)
Lemma get_token_sent cfg st :
  _token_cache st !! cache_key = None ->
  sent_codes (snd (get_token totp_at server (Some cfg) st)) =
  (sent_codes st ++
   search (List.length (sent_codes st)) (candidates (totp_secret cfg) (clock st)))%list.
Proof.
  intros Hc. unfold get_token. rewrite Hc. unfold try_login_with_code at 1.
  unfold candidates. simpl search.
  destruct (login_succeeded (server (List.length (sent_codes st))
                                    (totp_at (totp_secret cfg) (clock st))))
    as [e|[|]] eqn:E.
  - reflexivity.
  - rewrite finish_login_sent. reflexivity.
  - destruct (try_windows server _ _ _ _) as [r s] eqn:T.
    assert (Hs : sent_codes s =
                 (sent_codes st ++
                  totp_at (totp_secret cfg) (clock st) ::
                  search (S (List.length (sent_codes st)))
                    (List.filter (fun c => negb (String.eqb c (totp_at (totp_secret cfg) (clock st))))
                       (List.map code (make_time_windows totp_at (totp_secret cfg) (clock st)))))%list).
    { change s with (snd (r, s)). rewrite <- T, try_windows_sent. simpl.
      rewrite length_app, <- app_assoc. simpl.
      replace (List.length (sent_codes st) + 1)%nat with (S (List.length (sent_codes st))) by lia.
      reflexivity. }
    destruct r as [e|r]; [exact Hs|]. rewrite finish_login_sent. exact Hs.
Qed.

(** With an empty cache, [get_token] sends the current code first and
    then the codes of the offsets -5..+2 in that order (skipping a code equal
    to the one already sent), stops at the first success and sends at most
    nine requests. For a server that accepts the code of the window at offset
    [k] from the local clock (handing out the token [tok]) and answers every
    other code with a response on which the test of success is false (it
    does not raise), the codes of the searched windows being distinct from
    the accepted one unless they are the window [k] itself, [get_token]
    returns [tok] if and only if [k] lies in -5..+2, and raises otherwise. *)
Theorem get_token_window_search (cfg : login_config) (st : state) (k : Z) (tok : string) :
  let code_of := fun j : Z => totp_at (totp_secret cfg) (clock st + j * 30) in
  _token_cache st !! cache_key = None ->
  strip_nonempty tok = true ->
  (forall n, error (server n (code_of k)) = None /\
             response_token (server n (code_of k)) = Some tok) ->
  (forall n c, c <> code_of k -> login_succeeded (server n c) = inr false) ->
  (forall j, -5 <= j <= 2 -> j <> k -> code_of j <> code_of k) ->
  exists o st',
    get_token totp_at server (Some cfg) st = (o, st') /\
    sent_codes st' =
      (sent_codes st ++
       search (List.length (sent_codes st)) (candidates (totp_secret cfg) (clock st)))%list /\
    (List.length (sent_codes st') <= List.length (sent_codes st) + 9)%nat /\
    (o = Return tok <-> -5 <= k <= 2) /\
    (o = Return tok \/ exists e, o = Raise e).
Proof.
  intros code_of Hcache Htok Hacc Hrej Hdist.
  destruct (get_token totp_at server (Some cfg) st) as [o st'] eqn:G.
  exists o, st'. split; [reflexivity|].
  pose proof (get_token_sent cfg st Hcache) as Hsent. rewrite G in Hsent. cbn [snd] in Hsent.
  split; [exact Hsent|].
  split.
  { rewrite Hsent, length_app.
    pose proof (search_length (List.length (sent_codes st)) (candidates (totp_secret cfg) (clock st))).
    pose proof (candidates_length (totp_secret cfg) (clock st)). lia. }
  assert (Hacc' : forall n, login_succeeded (server n (code_of k)) = inr true).
  { intros n. destruct (Hacc n). eapply login_succeeded_token; eauto. }
  assert (H0 : totp_at (totp_secret cfg) (clock st) = code_of 0).
  { unfold code_of. rewrite Z.mul_0_l, Z.add_0_r. reflexivity. }
  unfold get_token in G. rewrite Hcache in G. unfold try_login_with_code at 1 in G.
  rewrite H0 in G.
  destruct (String.eqb_spec (code_of 0) (code_of k)) as [E|E].
  - (* the current code is the accepted one *)
    assert (Hk : k = 0).
    { destruct (Z.eq_dec k 0) as [|Hne]; [assumption|].
      exfalso. apply (Hdist 0); [lia | congruence | exact E]. }
    rewrite E, Hacc' in G.
    destruct (Hacc (List.length (sent_codes st))) as [He Ht].
    destruct (finish_login_ok _ (MkState (_token_cache st) (token_file st) (clock st)
                                         (sent_codes st ++ [code_of k])) tok He Ht Htok)
      as (s & Hf & _).
    rewrite Hf in G. injection G as <- <-.
    split; [|left; reflexivity]. split; [lia | reflexivity].
  - rewrite (Hrej _ _ E) in G.
    destruct (try_windows server _ _ _ _) as [r s] eqn:T.
    destruct (Z_le_dec (-5) k) as [Hlo|Hlo]; [destruct (Z_le_dec k 2) as [Hhi|Hhi]|].
    + (* the accepted code is the code of one of the searched windows *)
      assert (Hin : In (code_of k)
                       (List.map code (make_time_windows totp_at (totp_secret cfg) (clock st)))).
      { apply window_codes. exists k. split; [lia | reflexivity]. }
      destruct (try_windows_finds (code_of 0) (code_of k) _ Hacc' Hrej (not_eq_sym E) Hin
                  (server (List.length (sent_codes st)) (code_of 0))
                  (MkState (_token_cache st) (token_file st) (clock st)
                           (sent_codes st ++ [code_of 0])))
        as (n & Hn).
      rewrite T in Hn. simpl in Hn. subst r.
      destruct (Hacc n) as [He Ht].
      destruct (finish_login_ok _ s tok He Ht Htok) as (s' & Hf & _).
      rewrite Hf in G. injection G as <- <-.
      split; [|left; reflexivity]. split; [lia | reflexivity].
    + (* no searched window carries the accepted code *)
      assert (Hfail : exists r', fst (r, s) = inr r' /\ login_succeeded r' = inr false).
      { rewrite <- T.
        apply try_windows_all_fail; [|apply Hrej; exact E].
        intros n w Hw. apply Hrej.
        assert (Hc : In (code w)
                        (List.map code (make_time_windows totp_at (totp_secret cfg) (clock st))))
          by (apply in_map; exact Hw).
        apply window_codes in Hc. destruct Hc as (j & Hj & ->).
        apply Hdist; lia. }
      destruct Hfail as (r' & Hr' & Hfail). cbn [fst] in Hr'. subst r.
      destruct (finish_login_fail r' s Hfail) as (e & Hf).
      rewrite Hf in G. injection G as <- <-.
      split; [|right; eauto]. split; [discriminate | lia].
    + assert (Hfail : exists r', fst (r, s) = inr r' /\ login_succeeded r' = inr false).
      { rewrite <- T.
        apply try_windows_all_fail; [|apply Hrej; exact E].
        intros n w Hw. apply Hrej.
        assert (Hc : In (code w)
                        (List.map code (make_time_windows totp_at (totp_secret cfg) (clock st))))
          by (apply in_map; exact Hw).
        apply window_codes in Hc. destruct Hc as (j & Hj & ->).
        apply Hdist; lia. }
      destruct Hfail as (r' & Hr' & Hfail). cbn [fst] in Hr'. subst r.
      destruct (finish_login_fail r' s Hfail) as (e & Hf).
      rewrite Hf in G. injection G as <- <-.
      split; [|right; eauto]. split; [discriminate | lia].
Qed.

Lemma finish_login_return r st tok st' :
  finish_login r st = (Return tok, st') ->
  _token_cache st' = <[cache_key := tok]> (_token_cache st) /\
  (exists exp, token_file st' = Some (MkTokenRecord tok exp (clock st))) /\
  sent_codes st' = sent_codes st.
Proof.
  unfold finish_login.
  destruct (error r); [discriminate|].
  destruct (has_token r) as [e|[|]]; try discriminate.
  destruct (token_value r) as [e|t]; [discriminate|].
  destruct t; try (destruct (truthy _); destruct (error_msg r); discriminate).
  destruct (negb _ && _); [|destruct (error_msg r); discriminate].
  destruct (expires_in r (clock st)); [discriminate|].
  intros H. injection H as <- <-. simpl. eauto.
Qed.

Lemma try_windows_clock totp_code ws :
  forall resp st, clock (snd (try_windows server totp_code ws resp st)) = clock st.
Proof.
  induction ws as [|w ws IH]; intros resp st; simpl; [reflexivity|].
  destruct (String.eqb (code w) totp_code); [apply IH|]. simpl.
  destruct (login_succeeded _) as [e|[|]]; [reflexivity | reflexivity |].
  rewrite IH. reflexivity.
Qed.

(** C6, as the code has it: a token present in the cache is returned as it
    is, with no request and no look at any expiry (the cache holds none);
    with an empty cache [get_token] logs in (the current code is sent to the
    login endpoint), and a token it returns is then in the cache and in the
    token file. *)
Theorem get_token_cache_or_login (cfg : login_config) (st : state) :
  (forall tok,
      _token_cache st !! cache_key = Some tok ->
      get_token totp_at server (Some cfg) st = (Return tok, st)) /\
  (_token_cache st !! cache_key = None ->
   exists o st' rest,
     get_token totp_at server (Some cfg) st = (o, st') /\
     sent_codes st' =
       (sent_codes st ++ totp_at (totp_secret cfg) (clock st) :: rest)%list /\
     (forall tok,
         o = Return tok ->
         _token_cache st' !! cache_key = Some tok /\
         exists exp, token_file st' = Some (MkTokenRecord tok exp (clock st)))).
Proof.
  split.
  - intros tok H. unfold get_token. rewrite H. reflexivity.
  - intros Hc.
    destruct (get_token totp_at server (Some cfg) st) as [o st'] eqn:G.
    pose proof (get_token_sent cfg st Hc) as Hsent. rewrite G in Hsent. cbn [snd] in Hsent.
    unfold candidates in Hsent.
    destruct (search_head (List.length (sent_codes st)) (totp_at (totp_secret cfg) (clock st))
                (List.filter (fun c => negb (String.eqb c (totp_at (totp_secret cfg) (clock st))))
                   (List.map code (make_time_windows totp_at (totp_secret cfg) (clock st)))))
      as (rest & Hrest).
    rewrite Hrest in Hsent.
    exists o, st', rest. split; [reflexivity|]. split; [exact Hsent|].
    intros tok ->.
    unfold get_token in G. rewrite Hc in G. unfold try_login_with_code at 1 in G.
    destruct (login_succeeded _) as [e|[|]] in G; [discriminate| |].
    + apply finish_login_return in G. cbn in G. destruct G as (Hcache & Hfile & _).
      rewrite Hcache, lookup_insert_eq. split; [reflexivity | exact Hfile].
    + destruct (try_windows server _ _ _ _) as [r s] eqn:T.
      destruct r as [e|r]; [discriminate|].
      apply finish_login_return in G. destruct G as (Hcache & Hfile & _).
      assert (Hclk : clock s = clock st).
      { change s with (snd (@inr exn response r, s)). rewrite <- T, try_windows_clock.
        reflexivity. }
      rewrite Hclk in Hfile.
      rewrite Hcache, lookup_insert_eq. split; [reflexivity | exact Hfile].
Qed.

End Search.

(** *** A concrete server *)

(** A stand-in for TOTP that gives every 30-second window its own code. *)
Definition demo_totp (secret : string) (t : Z) : string :=
  Param.string_of_Z (t / 30).

Definition demo_config : login_config :=
  MkLoginConfig "https://example.invalid/api/Login/Login" "user" "secret" "BASE32SECRET".

(** A login endpoint that accepts one code and answers every other one with
    an error message in a body without [data]. *)
Definition demo_server (accepted tok : string) (n : nat) (vcode : string) : response :=
  if String.eqb vcode accepted
  then MkResponse None
         (Some (Param.JDict [("data", Param.JDict [("token", Param.JStr tok)])]))
  else MkResponse None (Some (Param.JDict [("msg", Param.JStr "wrong code")])).

Definition fresh_state (now : Z) : state := MkState ∅ None now [].

Definition demo_now : Z := 1700000000.

(** The server's clock is three windows behind the client's. *)
Lemma get_token_window_search_witness :
  exists o st',
    get_token demo_totp (demo_server (demo_totp "BASE32SECRET" (demo_now + -3 * 30)) "TOKEN-1")
              (Some demo_config) (fresh_state demo_now) = (o, st') /\
    sent_codes st' =
      (sent_codes (fresh_state demo_now) ++
       search (demo_server (demo_totp "BASE32SECRET" (demo_now + -3 * 30)) "TOKEN-1")
              (List.length (sent_codes (fresh_state demo_now)))
              (candidates demo_totp (totp_secret demo_config) (clock (fresh_state demo_now))))%list /\
    (List.length (sent_codes st') <= List.length (sent_codes (fresh_state demo_now)) + 9)%nat /\
    (o = Return "TOKEN-1" <-> -5 <= -3 <= 2) /\
    (o = Return "TOKEN-1" \/ exists e, o = Raise e).
Proof.
  apply (get_token_window_search demo_totp
           (demo_server (demo_totp "BASE32SECRET" (demo_now + -3 * 30)) "TOKEN-1")
           demo_config (fresh_state demo_now) (-3) "TOKEN-1").
  - reflexivity.
  - reflexivity.
  - intros n. split; reflexivity.
  - intros n c Hc. unfold demo_server.
    destruct (String.eqb_spec c (demo_totp "BASE32SECRET" (demo_now + -3 * 30))) as [E|E].
    + exfalso. apply Hc. exact E.
    + reflexivity.
  - intros j Hj Hne.
    assert (E : j = -5 \/ j = -4 \/ j = -3 \/ j = -2 \/ j = -1 \/ j = 0 \/ j = 1 \/ j = 2) by lia.
    repeat (destruct E as [E|E]; [subst j; try (exfalso; apply Hne; reflexivity); vm_compute; discriminate|]).
    subst j. vm_compute. discriminate.
Defined.

Example window_search_trace :
  get_token demo_totp (demo_server (demo_totp "BASE32SECRET" (demo_now + -3 * 30)) "TOKEN-1")
            (Some demo_config) (fresh_state demo_now) =
  (Return "TOKEN-1",
   MkState {[ cache_key := "TOKEN-1" ]}
           (Some (MkTokenRecord "TOKEN-1" (Param.JInt (demo_now + 24 * 3600)) demo_now))
           demo_now
           ["56666666"; "56666661"; "56666662"; "56666663"]).
Proof. vm_compute. reflexivity. Qed.

(** A server whose window is three ahead of the newest one searched: every
    attempt fails and [get_token] raises after nine requests. *)
Example window_search_out_of_range :
  get_token demo_totp (demo_server (demo_totp "BASE32SECRET" (demo_now + 5 * 30)) "TOKEN-1")
            (Some demo_config) (fresh_state demo_now) =
  (Raise (KeyError "token not found in response"),
   MkState ∅ None demo_now
           ["56666666"; "56666661"; "56666662"; "56666663"; "56666664"; "56666665";
            "56666667"; "56666668"]).
Proof. vm_compute. reflexivity. Qed.

Lemma get_token_cache_or_login_witness :
  _token_cache (fresh_state demo_now) !! cache_key = None /\
  exists o st' rest,
    get_token demo_totp (demo_server "56666666" "TOKEN-1") (Some demo_config)
              (fresh_state demo_now) = (o, st') /\
    sent_codes st' =
      (sent_codes (fresh_state demo_now) ++
       demo_totp (totp_secret demo_config) (clock (fresh_state demo_now)) :: rest)%list /\
    (forall tok,
        o = Return tok ->
        _token_cache st' !! cache_key = Some tok /\
        exists exp, token_file st' = Some (MkTokenRecord tok exp (clock (fresh_state demo_now)))).
Proof.
  assert (H : _token_cache (fresh_state demo_now) !! cache_key = None) by reflexivity.
  split; [exact H|].
  exact (proj2 (get_token_cache_or_login demo_totp (demo_server "56666666" "TOKEN-1")
                  demo_config (fresh_state demo_now)) H).
Defined.

(** The state of a process whose cached token was saved with an expiry that
    has passed since. *)
Definition expired_state : state :=
  MkState {[ cache_key := "OLD-TOKEN" ]}
          (Some (MkTokenRecord "OLD-TOKEN" (Param.JInt (demo_now - 10))
                               (demo_now - 10 - 24 * 3600)))
          demo_now [].

(** C6 as stated fails: the stored expiry has passed, and [get_token] still
    returns the cached token without any login request. *)
Lemma get_token_ignores_expiry :
  (exists rec expiry,
      token_file expired_state = Some rec /\
      tr_expiry_time rec = Param.JInt expiry /\ expiry < clock expired_state) /\
  get_token demo_totp (demo_server "56666666" "TOKEN-1") (Some demo_config) expired_state =
  (Return "OLD-TOKEN", expired_state).
Proof.
  split.
  - eexists _, _. split; [reflexivity|]. split; [reflexivity|]. vm_compute. reflexivity.
  - reflexivity.
Qed.

(** *** A rejection with [data: null] *)

(** A login endpoint that answers in the envelope [{code, msg, data}]: the
    body of a rejection has [data: null]. *)
Definition envelope_server (accepted tok : string) (n : nat) (vcode : string) : response :=
  if String.eqb vcode accepted
  then MkResponse None
         (Some (Param.JDict [ ("code", Param.JInt 0); ("msg", Param.JStr "Succeed");
                              ("data", Param.JDict [("token", Param.JStr tok)]) ]))
  else MkResponse None
         (Some (Param.JDict [ ("code", Param.JInt 1); ("msg", Param.JStr "wrong code");
                              ("data", Param.JNull) ])).

(** The same endpoint as the reader sees it: status 200 and the body. *)
Definition envelope_reply (accepted tok : string) (n : nat) (vcode : string) : Reader.reply :=
  match body (envelope_server accepted tok n vcode) with
  | Some b => Reader.Replied 200 b
  | None => Reader.Failed
  end.

(** C7 fails on such an endpoint. Its clock is one window behind, so that
    it accepts the code of the offset -1, which the search would reach with
    its sixth request. The first rejection ends [get_token]: the test of
    success asks whether ['token'] is in [None], which raises TypeError, and
    one request has been sent. When the rejections carry no [data], the same
    search finds the token; and the login of the reader, which reads the
    same bodies inside a [try], finds it on this endpoint. *)
Lemma get_token_null_data_ends_search :
  demo_totp "BASE32SECRET" (demo_now + -1 * 30) = "56666665" /\
  get_token demo_totp (envelope_server "56666665" "TOKEN-1") (Some demo_config)
            (fresh_state demo_now) =
    (Raise (TypeError "not iterable"), MkState ∅ None demo_now ["56666666"]) /\
  get_token demo_totp (demo_server "56666665" "TOKEN-1") (Some demo_config)
            (fresh_state demo_now) =
    (Return "TOKEN-1",
     MkState {[ cache_key := "TOKEN-1" ]}
             (Some (MkTokenRecord "TOKEN-1" (Param.JInt (demo_now + 24 * 3600)) demo_now))
             demo_now
             ["56666666"; "56666661"; "56666662"; "56666663"; "56666664"; "56666665"]) /\
  fst (Reader.login_and_get_token demo_totp (envelope_reply "56666665" "TOKEN-1")
         (Some demo_config) (Reader.MkReader None None, fresh_state demo_now)) =
    Some "TOKEN-1".
Proof. vm_compute. repeat split; reflexivity. Qed.

(** *** What a call leaves behind *)

Section Session.

Variable totp_at : string -> Z -> string.
Variable server : nat -> string -> response.

Lemma try_windows_frame totp_code ws :
  forall resp st,
    let st' := snd (try_windows server totp_code ws resp st) in
    _token_cache st' = _token_cache st /\ token_file st' = token_file st /\
    clock st' = clock st.
Proof.
  induction ws as [|w ws IH]; intros resp st; simpl; [tauto|].
  destruct (String.eqb (code w) totp_code); [apply IH|]. simpl.
  destruct (login_succeeded _) as [e|[|]]; [simpl; tauto | simpl; tauto |].
  specialize (IH (server (List.length (sent_codes st)) (code w))
                 (MkState (_token_cache st) (token_file st) (clock st)
                          (sent_codes st ++ [code w]))).
  simpl in IH. exact IH.
Qed.

Lemma finish_login_raise r st e st' : finish_login r st = (Raise e, st') -> st' = st.
Proof.
  unfold finish_login.
  destruct (error r); [intros H; injection H as _ <-; reflexivity|].
  destruct (has_token r) as [e0|[|]];
    [intros H; injection H as _ <-; reflexivity | |intros H; injection H as _ <-; reflexivity].
  destruct (token_value r) as [e0|t]; [intros H; injection H as _ <-; reflexivity|].
  destruct t;
    try (destruct (truthy _); [|destruct (error_msg r)];
         intros H; injection H as _ <-; reflexivity).
  destruct (negb _ && _).
  - destruct (expires_in r (clock st)); [|discriminate].
    intros H; injection H as _ <-; reflexivity.
  - destruct (error_msg r); intros H; injection H as _ <-; reflexivity.
Qed.

(** A call that raises has stored nothing: the cache, the token file and
    the clock are as before (only login requests were sent). *)
Theorem get_token_raise_changes_nothing
        (cfg : option login_config) (st st' : state) (e : exn) :
  get_token totp_at server cfg st = (Raise e, st') ->
  _token_cache st' = _token_cache st /\ token_file st' = token_file st /\
  clock st' = clock st.
Proof.
  unfold get_token.
  destruct (_token_cache st !! cache_key); [discriminate|].
  destruct cfg as [cfg|]; [|intros H; injection H as _ <-; tauto].
  unfold try_login_with_code at 1.
  destruct (login_succeeded _) as [e0|[|]].
  - intros H. injection H as _ <-. simpl. tauto.
  - intros H. apply finish_login_raise in H. subst st'. simpl. tauto.
  - destruct (try_windows server _ _ _ _) as [r s] eqn:T.
    pose proof (try_windows_frame
                  (totp_at (totp_secret cfg) (clock st))
                  (make_time_windows totp_at (totp_secret cfg) (clock st))
                  (server (List.length (sent_codes st)) (totp_at (totp_secret cfg) (clock st)))
                  (MkState (_token_cache st) (token_file st) (clock st)
                           (sent_codes st ++ [totp_at (totp_secret cfg) (clock st)]))) as F.
    rewrite T in F. simpl in F.
    destruct r as [e0|r].
    + intros H. injection H as _ <-. exact F.
    + intros H. apply finish_login_raise in H. subst st'. exact F.
Qed.

(** The window at offset 0 carries the current code and is skipped, so the
    candidates are eight at most. *)
Lemma candidates_length_8 secret now :
  (List.length (candidates totp_at secret now) <= 8)%nat.
Proof.
  unfold candidates, make_time_windows, window_offsets.
  cbn [List.map code List.filter List.length].
  replace (now + 0 * 30) with now by lia.
  rewrite String.eqb_refl. cbn [negb].
  repeat match goal with
         | |- context [if negb ?b then _ else _] => destruct b; cbn [negb]
         end; simpl; lia.
Qed.

(** Whatever the configuration, the state and the answers of the server,
    one call sends eight login requests at most. *)
Theorem get_token_request_bound (cfg : option login_config) (st : state) :
  exists sent,
    sent_codes (snd (get_token totp_at server cfg st)) = (sent_codes st ++ sent)%list /\
    (List.length sent <= 8)%nat.
Proof.
  destruct (_token_cache st !! cache_key) as [tok|] eqn:Hc.
  - exists []. unfold get_token. rewrite Hc. simpl. rewrite app_nil_r. split; [reflexivity | lia].
  - destruct cfg as [cfg|].
    + eexists. split; [apply (get_token_sent totp_at server cfg st Hc)|].
      pose proof (search_length server (List.length (sent_codes st))
                                (candidates totp_at (totp_secret cfg) (clock st))).
      pose proof (candidates_length_8 (totp_secret cfg) (clock st)). lia.
    + exists []. unfold get_token. rewrite Hc. simpl. rewrite app_nil_r.
      split; [reflexivity | lia].
Qed.

Lemma get_token_return_cached (cfg : option login_config) (st st' : state) (tok : string) :
  get_token totp_at server cfg st = (Return tok, st') ->
  _token_cache st' !! cache_key = Some tok.
Proof.
  intros H. unfold get_token in H.
  destruct (_token_cache st !! cache_key) as [t|] eqn:Hc.
  - injection H as <- <-. exact Hc.
  - destruct cfg as [cfg|]; [|discriminate].
    unfold try_login_with_code at 1 in H.
    destruct (login_succeeded _) as [e|[|]] in H; [discriminate| |].
    + apply finish_login_return in H. destruct H as (Hcache & _).
      rewrite Hcache. apply lookup_insert_eq.
    + destruct (try_windows server _ _ _ _) as [[e|r] s]; [discriminate|].
      apply finish_login_return in H. destruct H as (Hcache & _).
      rewrite Hcache. apply lookup_insert_eq.
Qed.

Lemma happen_cached (tok : string) (ev : event) (st : state) :
  _token_cache st !! cache_key = Some tok ->
  _token_cache (happen totp_at server st ev) !! cache_key = Some tok /\
  sent_codes (happen totp_at server st ev) = sent_codes st.
Proof.
  intros H. destruct ev as [cfg|t|]; simpl.
  - unfold get_token. rewrite H. simpl. split; [exact H | reflexivity].
  - split; [exact H | reflexivity].
  - split; [exact H | reflexivity].
Qed.

Lemma after_cached (tok : string) (evs : list event) :
  forall st,
    _token_cache st !! cache_key = Some tok ->
    _token_cache (after totp_at server evs st) !! cache_key = Some tok /\
    sent_codes (after totp_at server evs st) = sent_codes st.
Proof.
  induction evs as [|ev evs IH]; intros st H; simpl; [split; [exact H | reflexivity]|].
  destruct (happen_cached tok ev st H) as (Hc & Hs).
  destruct (IH _ Hc) as (Hc' & Hs'). split; [exact Hc' | congruence].
Qed.

(** Once a call has returned a token, every later call returns the same
    token and does nothing else, whatever configuration it is given:
    through any number of further calls, however the clock moves and even
    with the token file removed, no request is sent. This lasts as long as
    nothing else writes the entry of the cache. *)
Theorem get_token_twice
        (cfg cfg' : option login_config) (st st' : state) (tok : string) (evs : list event) :
  get_token totp_at server cfg st = (Return tok, st') ->
  get_token totp_at server cfg' (after totp_at server evs st') =
    (Return tok, after totp_at server evs st') /\
  sent_codes (after totp_at server evs st') = sent_codes st'.
Proof.
  intros H. apply get_token_return_cached in H.
  destruct (after_cached tok evs st' H) as (Hc & Hs). split; [|exact Hs].
  unfold get_token. rewrite Hc. reflexivity.
Qed.

(** After [clear_token_cache] the token counts as invalid and the next
    [get_token] logs in again, starting with the current code. *)
Theorem clear_token_cache_forces_login (cfg : login_config) (st : state) :
  is_token_valid (clear_token_cache st) = false /\
  exists rest,
    sent_codes (snd (get_token totp_at server (Some cfg) (clear_token_cache st))) =
    (sent_codes st ++ totp_at (totp_secret cfg) (clock st) :: rest)%list.
Proof.
  assert (Hc : _token_cache (clear_token_cache st) !! cache_key = None)
    by (simpl; apply lookup_delete_eq).
  split.
  - unfold is_token_valid. rewrite Hc. reflexivity.
  - rewrite (get_token_sent totp_at server cfg _ Hc). unfold candidates.
    simpl sent_codes. simpl clock.
    destruct (search_head server (List.length (sent_codes st))
                (totp_at (totp_secret cfg) (clock st))
                (List.filter (fun c => negb (String.eqb c (totp_at (totp_secret cfg) (clock st))))
                   (List.map code (make_time_windows totp_at (totp_secret cfg) (clock st)))))
      as (rest & ->).
    eauto.
Qed.

End Session.

(** The state after the eight failed requests of [window_search_out_of_range]. *)
Definition failed_state : state :=
  MkState ∅ None demo_now
          ["56666666"; "56666661"; "56666662"; "56666663"; "56666664";
           "56666665"; "56666667"; "56666668"].

Lemma get_token_raise_changes_nothing_witness :
  _token_cache failed_state = _token_cache (fresh_state demo_now) /\
  token_file failed_state = token_file (fresh_state demo_now) /\
  clock failed_state = clock (fresh_state demo_now).
Proof.
  apply (get_token_raise_changes_nothing demo_totp
           (demo_server (demo_totp "BASE32SECRET" (demo_now + 5 * 30)) "TOKEN-1")
           (Some demo_config) (fresh_state demo_now) failed_state
           (KeyError "token not found in response")).
  vm_compute. reflexivity.
Defined.

(** The state after the successful search of [window_search_trace]. *)
Definition logged_in_state : state :=
  MkState {[ cache_key := "TOKEN-1" ]}
          (Some (MkTokenRecord "TOKEN-1" (Param.JInt (demo_now + 24 * 3600)) demo_now))
          demo_now
          ["56666666"; "56666661"; "56666662"; "56666663"].

(** Two days later, the token file gone, and a call without configuration. *)
Definition later_events : list event :=
  [ Call (Some demo_config); Elapse (demo_now + 2 * 24 * 3600); RemoveTokenFile ].

Lemma get_token_twice_witness :
  get_token demo_totp (demo_server "56666663" "TOKEN-1") None
            (after demo_totp (demo_server "56666663" "TOKEN-1") later_events logged_in_state) =
  (Return "TOKEN-1",
   after demo_totp (demo_server "56666663" "TOKEN-1") later_events logged_in_state) /\
  sent_codes (after demo_totp (demo_server "56666663" "TOKEN-1") later_events logged_in_state) =
  sent_codes logged_in_state.
Proof.
  apply (get_token_twice demo_totp (demo_server "56666663" "TOKEN-1")
                         (Some demo_config) None (fresh_state demo_now)).
  vm_compute. reflexivity.
Defined.

(** *** The login request *)

Lemma add_params_login (data : list (string * Param.json)) (w : Param.world) :
  exists random w',
    Param.add_params Param.login_auto_generate_config data w =
      Some (Param.dict_set "random" (Param.JInt random)
              (Param.dict_set "timestamp" (Param.JInt (Param.now w)) data), w') /\
    10 ^ 11 <= random < 10 ^ 12.
Proof.
  unfold Param.login_auto_generate_config.
  cbn [Param.add_params Param.p_type Param.p_name Param.p_length].
  change (String.eqb "timestamp" "timestamp") with true. cbv iota.
  unfold Param.generate_timestamp. rewrite ParamFacts.int_of_decimal_string_of_Z.
  change (String.eqb "random" "timestamp") with false.
  change (String.eqb "random" "random") with true.
  change (String.eqb "signature" "timestamp") with false.
  change (String.eqb "signature" "random") with false. cbv iota.
  change (default 12 (Some 12)) with 12.
  destruct (ParamFacts.generate_random_value 12 w) as (v & Hv & Hrange & _).
  destruct (Param.generate_random 12 w) as [digits w1]. cbn [fst] in Hv. rewrite Hv.
  exists v, w1. split; [reflexivity|].
  change (Z.max 1 12) with 12 in Hrange. change (12 - 1) with 11 in Hrange. exact Hrange.
Qed.

(** The body of a login request: the four fields of the form, the
    timestamp, a random number of twelve digits, and the signature, which is
    the uppercase MD5 of the canonical JSON of the form fields and the random
    number. The timestamp is not signed. *)
Theorem login_data_signature (cfg : login_config) (vcode : string) (w : Param.world) :
  exists random w',
    login_data cfg vcode w =
      Some ([ ("userName", Param.JStr (username cfg));
              ("pwd", Param.JStr (password cfg));
              ("vCode", Param.JStr vcode);
              ("language", Param.JStr "zh");
              ("timestamp", Param.JInt (Param.now w));
              ("random", Param.JInt random);
              ("signature",
               Param.JStr
                 (Param.md5_hex_upper
                    (Param.canonical_json
                       (Param.JDict [ ("userName", Param.JStr (username cfg));
                                      ("pwd", Param.JStr (password cfg));
                                      ("vCode", Param.JStr vcode);
                                      ("language", Param.JStr "zh");
                                      ("random", Param.JInt random) ])))) ], w') /\
    10 ^ 11 <= random < 10 ^ 12.
Proof.
  unfold login_data, Param.add_common_params.
  set (form := [ ("userName", Param.JStr (username cfg));
                 ("pwd", Param.JStr (password cfg));
                 ("vCode", Param.JStr vcode);
                 ("language", Param.JStr "zh") ]).
  assert (Hdel : Param.dict_del "auto_generate" form = form) by reflexivity.
  rewrite Hdel.
  destruct (add_params_login form w) as (random & w' & Hrun & Hrange).
  rewrite Hrun. exists random, w'. split; [|exact Hrange].
  change (List.find Param.is_signature Param.login_auto_generate_config)
    with (Some (Param.MkParam "signature" "signature" None)).
  cbv iota. cbn [Param.p_name].
  set (data := Param.dict_set "random" (Param.JInt random)
                 (Param.dict_set "timestamp" (Param.JInt (Param.now w)) form)).
  assert (Hdata : data = (form ++ [ ("timestamp", Param.JInt (Param.now w));
                                    ("random", Param.JInt random) ])%list) by reflexivity.
  assert (Hflat : Forall ParamFacts.flat_field data).
  { rewrite Hdata. unfold form. repeat constructor. }
  unfold Param.generate_signature.
  rewrite (ParamFacts.sort_and_stringify_flat data Hflat).
  assert (Hkept : List.filter (fun kv => negb (Param.excluded (fst kv)))
                              (List.filter ParamFacts.not_list_field data) =
                  (form ++ [("random", Param.JInt random)])%list) by reflexivity.
  rewrite Hkept.
  assert (Hset : forall v : Param.json,
             Param.dict_set "signature" v data = (data ++ [("signature", v)])%list)
    by (intros v; reflexivity).
  rewrite Hset, Hdata. reflexivity.
Qed.

End AuthFacts.

(** ** The session of the reader (src/api_data_reader.py) *)

Module ReaderFacts.
Import Reader.

Lemma keep_token_nonempty token t : keep_token token = Some t -> t <> "".
Proof.
  destruct token as [[| | |s| |]|]; simpl; try discriminate.
  destruct (String.eqb_spec s ""); simpl; [discriminate|].
  destruct (Auth.strip_nonempty s); [|discriminate]. intros H. injection H as <-. assumption.
Qed.

Lemma token_of_result_nonempty result t : token_of_result result = Some t -> t <> "".
Proof.
  destruct result as [| | | | |d]; simpl; try discriminate.
  destruct (_ || _).
  - destruct (Param.dict_get "data" d) as [[| | | | |data]|]; try discriminate.
    apply keep_token_nonempty.
  - destruct (Param.dict_get "response" d) as [[| | | | |response]|]; try discriminate.
    destruct (Param.dict_get "data" response) as [[| | | | |data]|]; try discriminate.
    apply keep_token_nonempty.
Qed.

Section Session.

Variable totp_at : string -> Z -> string.
Variable login_reply : nat -> string -> reply.

(** A state that differs from [st] in the codes sent only. *)
Definition same_session (st st' : Auth.state) : Prop :=
  Auth._token_cache st' = Auth._token_cache st /\
  Auth.token_file st' = Auth.token_file st /\
  Auth.clock st' = Auth.clock st.

Lemma try_login_with_code_spec totp_code st :
  same_session st (snd (try_login_with_code login_reply totp_code st)) /\
  Auth.sent_codes (snd (try_login_with_code login_reply totp_code st)) =
    (Auth.sent_codes st ++ [totp_code])%list /\
  forall t, fst (try_login_with_code login_reply totp_code st) = Some t -> t <> "".
Proof.
  unfold try_login_with_code, same_session.
  destruct (login_reply _ _) as [|status result]; simpl.
  - repeat split. discriminate.
  - destruct (status =? 200); simpl; repeat split; try discriminate.
    apply token_of_result_nonempty.
Qed.

(** What a login that got the token [t] leaves behind. *)
Definition holds_token (t : string) (clock0 : Z) (s : state) : Prop :=
  fst s = MkReader (Some t) (Some (clock0 + 24 * 3600)) /\
  Auth._token_cache (snd s) !! Auth.cache_key = Some t /\
  Auth.token_file (snd s) = Some (Auth.MkTokenRecord t (Param.JInt (clock0 + 24 * 3600)) clock0) /\
  Auth.clock (snd s) = clock0 /\
  t <> "".

Lemma logged_in_holds t st : t <> "" -> holds_token t (Auth.clock st) (logged_in t st).
Proof.
  intros Ht. unfold holds_token, logged_in. simpl.
  repeat split; try assumption. apply lookup_insert_eq.
Qed.

Lemma try_codes_spec current_code codes_info r :
  forall st out s',
    try_codes login_reply current_code codes_info r st = (out, s') ->
    match out with
    | Some t => holds_token t (Auth.clock st) s'
    | None => fst s' = r /\ same_session st (snd s')
    end.
Proof.
  induction codes_info as [|c codes_info IH]; intros st out s' H; simpl in H.
  - injection H as <- <-. simpl. unfold same_session. tauto.
  - destruct (String.eqb (Auth.code c) current_code); [apply IH, H|].
    destruct (try_login_with_code_spec (Auth.code c) st) as ((Hc & Hf & Hk) & _ & Hne).
    destruct (try_login_with_code login_reply (Auth.code c) st) as [[t|] st1];
      simpl in Hc, Hf, Hk, Hne.
    + injection H as <- <-. rewrite <- Hk. apply logged_in_holds, Hne. reflexivity.
    + apply IH in H. destruct out as [t|].
      * rewrite <- Hk. exact H.
      * destruct H as (Hr & Hc' & Hf' & Hk'). unfold same_session.
        repeat split; congruence.
Qed.

Lemma login_and_get_token_spec cfg r st out s' :
  login_and_get_token totp_at login_reply cfg (r, st) = (out, s') ->
  match out with
  | Some t => holds_token t (Auth.clock st) s'
  | None => fst s' = r /\ same_session st (snd s')
  end.
Proof.
  unfold login_and_get_token. destruct cfg as [cfg|].
  - destruct (String.eqb (Auth.totp_secret cfg) "").
    + intros H. injection H as <- <-. simpl. unfold same_session. tauto.
    + destruct (try_login_with_code_spec (totp_at (Auth.totp_secret cfg) (Auth.clock st)) st)
        as ((Hc & Hf & Hk) & _ & Hne).
      destruct (try_login_with_code login_reply _ st) as [[t|] st1];
        simpl in Hc, Hf, Hk, Hne.
      * intros H. injection H as <- <-. rewrite <- Hk. apply logged_in_holds, Hne. reflexivity.
      * intros H. apply try_codes_spec in H. destruct out as [t|].
        -- rewrite <- Hk. exact H.
        -- destruct H as (Hr & Hc' & Hf' & Hk'). unfold same_session.
           repeat split; congruence.
  - intros H. injection H as <- <-. simpl. unfold same_session. tauto.
Qed.

(** True from [ensure_valid_token] means that the reader holds a token that
    is not empty, with an expiry that is not before the time of the call;
    False means that it holds none (the token and the expiry are reset). *)
Theorem ensure_valid_token_result (cfg : option Auth.login_config) (s : state) :
  exists b s',
    ensure_valid_token totp_at login_reply cfg s = (b, s') /\
    if b then
      exists token expiry,
        login_token (fst s') = Some token /\ token <> "" /\
        token_expiry (fst s') = Some expiry /\ Auth.clock (snd s) <= expiry
    else fst s' = MkReader None None.
Proof.
  unfold ensure_valid_token. destruct (is_token_expired s) eqn:E.
  - destruct s as [r st]. unfold _reset_token_state. cbn [snd].
    destruct (login_and_get_token totp_at login_reply cfg (MkReader None None, st))
      as [out s'] eqn:L.
    apply login_and_get_token_spec in L. destruct out as [t|].
    + destruct L as (Hr & _ & _ & Hk & Hne).
      exists true, s'. split; [reflexivity|].
      exists t, (Auth.clock st + 24 * 3600). rewrite Hr. simpl.
      repeat split; try assumption. lia.
    + exists false, (MkReader None None, snd s'). split; reflexivity.
  - exists true, s. split; [reflexivity|].
    destruct s as [r st]. unfold is_token_expired in E. cbn [fst snd].
    destruct (login_token r) as [t|]; [|discriminate].
    destruct (String.eqb_spec t ""); [discriminate|].
    destruct (token_expiry r) as [e|]; [|discriminate].
    destruct (e =? 0); [discriminate|]. apply Z.ltb_ge in E.
    exists t, e. repeat split; assumption.
Qed.

(** A login of the reader fills the cache of [AuthManager] and the token
    file: once [login_and_get_token] has returned a token, [get_token]
    returns the same token without any request, and the token file holds it
    with an expiry 24 hours after the login. *)
Theorem reader_login_shared
        (server : nat -> string -> Auth.response)
        (cfg cfg' : option Auth.login_config) (s s' : state) (token : string) :
  login_and_get_token totp_at login_reply cfg s = (Some token, s') ->
  Auth.get_token totp_at server cfg' (snd s') = (Auth.Return token, snd s') /\
  Auth.token_file (snd s') =
    Some (Auth.MkTokenRecord token (Param.JInt (Auth.clock (snd s) + 24 * 3600))
                               (Auth.clock (snd s))).
Proof.
  destruct s as [r st]. intros H. apply login_and_get_token_spec in H.
  destruct H as (_ & Hc & Hf & _). split; [|exact Hf].
  unfold Auth.get_token. rewrite Hc. reflexivity.
Qed.

(** A reader made while the token file holds a token that has not expired
    takes it over and counts as logged in: [ensure_valid_token] is True and
    sends nothing. The cache of [AuthManager] is not filled by this: if it
    is empty, as in a new process, the next [get_token] logs in all the
    same. *)
Theorem startup_token_not_shared
        (server : nat -> string -> Auth.response)
        (cfg : option Auth.login_config) (login : Auth.login_config)
        (st : Auth.state) (token_data : Auth.token_record) (expiry : Z) :
  Auth.token_file st = Some token_data ->
  Auth.tr_expiry_time token_data = Param.JInt expiry ->
  0 <= Auth.clock st < expiry ->
  Auth.tr_token token_data <> "" ->
  Auth._token_cache st !! Auth.cache_key = None ->
  ensure_valid_token totp_at login_reply cfg (_load_token_on_startup st) =
    (true, (MkReader (Some (Auth.tr_token token_data)) (Some expiry), st)) /\
  exists rest,
    Auth.sent_codes (snd (Auth.get_token totp_at server (Some login) st)) =
    (Auth.sent_codes st ++ totp_at (Auth.totp_secret login) (Auth.clock st) :: rest)%list.
Proof.
  intros Hfile Hexp Hclock Htok Hcache. split.
  - unfold _load_token_on_startup, Auth.load_token_from_file. rewrite Hfile, Hexp.
    cbn [Auth.json_number].
    replace (expiry <=? Auth.clock st) with false by (symmetry; apply Z.leb_gt; lia).
    rewrite Hexp. cbn [Auth.json_number].
    unfold ensure_valid_token, is_token_expired. cbn [login_token token_expiry].
    destruct (String.eqb_spec (Auth.tr_token token_data) ""); [contradiction|].
    replace (expiry =? 0) with false by (symmetry; apply Z.eqb_neq; lia).
    replace (expiry <? Auth.clock st) with false by (symmetry; apply Z.ltb_ge; lia).
    reflexivity.
  - rewrite (AuthFacts.get_token_sent totp_at server login st Hcache).
    unfold AuthFacts.candidates.
    destruct (AuthFacts.search_head server (List.length (Auth.sent_codes st))
                (totp_at (Auth.totp_secret login) (Auth.clock st))
                (List.filter
                   (fun c => negb (String.eqb c (totp_at (Auth.totp_secret login) (Auth.clock st))))
                   (List.map Auth.code
                      (Auth.make_time_windows totp_at (Auth.totp_secret login) (Auth.clock st)))))
      as (rest & ->).
    eauto.
Qed.

End Session.

(** A login endpoint that answers in the second format. *)
Definition demo_reply (accepted token : string) (n : nat) (vcode : string) : reply :=
  if String.eqb vcode accepted
  then Replied 200 (Param.JDict [ ("code", Param.JInt 0); ("msg", Param.JStr "Succeed");
                                  ("data", Param.JDict [("token", Param.JStr token)]) ])
  else Replied 200 (Param.JDict [ ("code", Param.JInt 1); ("msg", Param.JStr "wrong code") ]).

Definition new_reader (now : Z) : state :=
  (MkReader None None, AuthFacts.fresh_state now).

Lemma reader_login_shared_witness :
  Auth.get_token AuthFacts.demo_totp (AuthFacts.demo_server "0" "OTHER") None
    (snd (snd (login_and_get_token AuthFacts.demo_totp (demo_reply "56666665" "TOKEN-2")
                 (Some AuthFacts.demo_config) (new_reader AuthFacts.demo_now)))) =
  (Auth.Return "TOKEN-2",
   snd (snd (login_and_get_token AuthFacts.demo_totp (demo_reply "56666665" "TOKEN-2")
               (Some AuthFacts.demo_config) (new_reader AuthFacts.demo_now)))) /\
  Auth.token_file
    (snd (snd (login_and_get_token AuthFacts.demo_totp (demo_reply "56666665" "TOKEN-2")
                 (Some AuthFacts.demo_config) (new_reader AuthFacts.demo_now)))) =
  Some (Auth.MkTokenRecord "TOKEN-2"
          (Param.JInt (Auth.clock (snd (new_reader AuthFacts.demo_now)) + 24 * 3600))
          (Auth.clock (snd (new_reader AuthFacts.demo_now)))).
Proof.
  apply (reader_login_shared AuthFacts.demo_totp (demo_reply "56666665" "TOKEN-2")
           (AuthFacts.demo_server "0" "OTHER") (Some AuthFacts.demo_config) None
           (new_reader AuthFacts.demo_now)).
  vm_compute. reflexivity.
Defined.

(** A process started an hour after a token was saved. *)
Definition restarted : Auth.state :=
  Auth.MkState ∅ (Some (Auth.MkTokenRecord "TOKEN-1"
                                            (Param.JInt (AuthFacts.demo_now + 24 * 3600))
                                            AuthFacts.demo_now))
               (AuthFacts.demo_now + 3600) [].

Lemma startup_token_not_shared_witness :
  ensure_valid_token AuthFacts.demo_totp (demo_reply "0" "TOKEN-2") None
                     (_load_token_on_startup restarted) =
    (true, (MkReader (Some "TOKEN-1") (Some (AuthFacts.demo_now + 24 * 3600)), restarted)) /\
  exists rest,
    Auth.sent_codes (snd (Auth.get_token AuthFacts.demo_totp
                            (AuthFacts.demo_server "0" "OTHER")
                            (Some AuthFacts.demo_config) restarted)) =
    (Auth.sent_codes restarted ++
     AuthFacts.demo_totp (Auth.totp_secret AuthFacts.demo_config) (Auth.clock restarted)
     :: rest)%list.
Proof.
  apply (startup_token_not_shared AuthFacts.demo_totp (demo_reply "0" "TOKEN-2")
           (AuthFacts.demo_server "0" "OTHER") None AuthFacts.demo_config restarted
           (Auth.MkTokenRecord "TOKEN-1" (Param.JInt (AuthFacts.demo_now + 24 * 3600))
                               AuthFacts.demo_now)
           (AuthFacts.demo_now + 24 * 3600)).
  - reflexivity.
  - reflexivity.
  - vm_compute. split; [discriminate | reflexivity].
  - discriminate.
  - reflexivity.
Defined.

(** The three formats of a successful reply, and bodies that give no
    token: a null token, a token of blanks, a [data] that is not an
    object. *)
Example token_of_result_formats :
  token_of_result (Param.JDict [ ("success", Param.JBool true); ("code", Param.JInt 200);
                                 ("data", Param.JDict [("token", Param.JStr "T")]) ]) = Some "T" /\
  token_of_result (Param.JDict [ ("code", Param.JInt 0); ("msg", Param.JStr "Succeed");
                                 ("data", Param.JDict [("token", Param.JStr "T")]) ]) = Some "T" /\
  token_of_result
    (Param.JDict [ ("response",
                    Param.JDict [("data", Param.JDict [("token", Param.JStr "T")])]) ]) = Some "T" /\
  token_of_result (Param.JDict [ ("code", Param.JInt 0); ("msg", Param.JStr "Succeed");
                                 ("data", Param.JDict [("token", Param.JNull)]) ]) = None /\
  token_of_result (Param.JDict [ ("code", Param.JInt 0); ("msg", Param.JStr "Succeed");
                                 ("data", Param.JDict [("token", Param.JStr "  ")]) ]) = None /\
  token_of_result (Param.JDict [ ("code", Param.JInt 0); ("msg", Param.JStr "Succeed");
                                 ("data", Param.JNull) ]) = None.
Proof. vm_compute. repeat split; reflexivity. Qed.

End ReaderFacts.

(** ** The spreadsheet writer (src/google_sheets_writer.py) *)

Module SheetsFacts.
Import Sheets.

(** *** Reading the trace *)

(** What the invocations of a stretch of the trace raised, in order. *)
Definition outcomes (l : list event) : list (option exn) :=
  flat_map (fun ev => match ev with Invoked _ _ r => [r] | _ => [] end) l.

(** The delays of its backoff sleeps, in order. *)
Definition backoffs (l : list event) : list Z :=
  flat_map (fun ev => match ev with Slept Backoff d => [d] | _ => [] end) l.

(** The instants its invocations started at. *)
Definition invoke_times (l : list event) : list Z :=
  flat_map (fun ev => match ev with Invoked t _ _ => [t] | _ => [] end) l.


Definition raised_by {A : Type} (out : exn + A) : option exn :=
  match out with inl e => Some e | inr _ => None end.

Lemma outcomes_app l1 l2 : outcomes (l1 ++ l2) = outcomes l1 ++ outcomes l2.
Proof. apply flat_map_app. Qed.

Lemma backoffs_app l1 l2 : backoffs (l1 ++ l2) = backoffs l1 ++ backoffs l2.
Proof. apply flat_map_app. Qed.

Lemma invoke_times_app l1 l2 : invoke_times (l1 ++ l2) = invoke_times l1 ++ invoke_times l2.
Proof. apply flat_map_app. Qed.

(** *** The steps of one attempt *)

(** What [_rate_limit_delay] leaves behind: at most one sleep, the stamp of
    the instant it ends at, and a stamp at least [min_request_interval] after
    the previous one. *)
Lemma rate_limit_delay_run s :
  exists s' pre,
    _rate_limit_delay s = (inr tt, s') /\
    log s' = log s ++ pre /\
    outcomes pre = [] /\ backoffs pre = [] /\ invoke_times pre = [] /\
    last_request_time s' = clock s' /\
    clock s <= clock s' /\
    last_request_time s + min_request_interval <= clock s' /\
    service s' = service s /\ _sheet_id_cache s' = _sheet_id_cache s /\
    remote s' = remote s /\ faults s' = faults s.
Proof.
  unfold _rate_limit_delay, bind, time_time, get_state, set_last_request_time.
  destruct (clock s - last_request_time s <? min_request_interval) eqn:E.
  - apply Z.ltb_lt in E. unfold sleep, next_lag. simpl.
    do 2 eexists. split; [reflexivity|]. simpl.
    repeat split; try reflexivity; lia.
  - apply Z.ltb_ge in E. unfold ret. simpl.
    exists (MkState (service s) (clock s) (_sheet_id_cache s) (remote s) (clock s)
                    (faults s) (lags s) (log s)), [].
    split; [reflexivity|]. simpl. rewrite app_nil_r.
    repeat split; try reflexivity; lia.
Qed.

(** What an invocation leaves behind: one event, stamped with the instant
    it started at. *)
Lemma invoke_run req s :
  exists out s',
    invoke req s = (out, s') /\
    log s' = log s ++ [Invoked (clock s) req (raised_by out)] /\
    clock s <= clock s' /\
    last_request_time s' = last_request_time s /\
    service s' = service s /\ _sheet_id_cache s' = _sheet_id_cache s /\
    faults s' = tl (faults s).
Proof.
  unfold invoke, next_lag.
  destruct (faults s) as [|[e|] fs] eqn:F.
  - destruct (serve req (remote s)) as [e|[resp rem]];
      do 2 eexists; (split; [reflexivity|]); simpl; repeat split; try reflexivity; lia.
  - do 2 eexists. split; [reflexivity|]. simpl. repeat split; try reflexivity; lia.
  - destruct (serve req (remote s)) as [e|[resp rem]];
      do 2 eexists; (split; [reflexivity|]); simpl; repeat split; try reflexivity; lia.
Qed.

(** The body of the [try] of one turn of the retry loop. *)
Definition attempt (operation : request) : M (option response) :=
  let* _ := _rate_limit_delay in
  let* result := invoke operation in
  ret (Some result).

Lemma attempt_run req s :
  exists out s' new t,
    attempt req s = (out, s') /\
    log s' = log s ++ new /\
    outcomes new = [raised_by out] /\ backoffs new = [] /\ invoke_times new = [t] /\
    last_request_time s + min_request_interval <= t /\
    clock s <= t /\
    last_request_time s' = t /\ t <= clock s' /\
    (forall r, out = inr r -> exists resp, r = Some resp) /\
    service s' = service s /\ _sheet_id_cache s' = _sheet_id_cache s.
Proof.
  destruct (rate_limit_delay_run s)
    as (s1 & pre & H1 & Hl1 & Ho1 & Hb1 & Ht1 & Hlast1 & Hc1 & Hsp1 & Hsv1 & Hca1 & _).
  destruct (invoke_run req s1) as (out & s2 & H2 & Hl2 & Hc2 & Hlast2 & Hsv2 & Hca2 & _).
  unfold attempt, bind. rewrite H1, H2.
  destruct out as [e|resp].
  - exists (inl e), s2, (pre ++ [Invoked (clock s1) req (Some e)]), (clock s1).
    split; [reflexivity|].
    rewrite Hl2, Hl1, <- app_assoc, outcomes_app, backoffs_app, invoke_times_app, Ho1, Hb1, Ht1.
    simpl. repeat split; try reflexivity; try lia; try congruence.
  - exists (inr (Some resp)), s2, (pre ++ [Invoked (clock s1) req None]), (clock s1).
    split; [reflexivity|].
    rewrite Hl2, Hl1, <- app_assoc, outcomes_app, backoffs_app, invoke_times_app, Ho1, Hb1, Ht1.
    simpl. repeat split; try reflexivity; try lia; try congruence.
    intros r Hr. injection Hr as <-. eauto.
Qed.






(** *** Invariants of method bodies *)

(** A property of the state that a method body keeps. *)
Definition preserves {A : Type} (P : state -> Prop) (m : M A) : Prop :=
  forall s, P s -> P (snd (m s)).

Lemma preserves_ret {A : Type} P (a : A) : preserves P (ret a).
Proof. intros s H. exact H. Qed.

Lemma preserves_raise {A : Type} P e : preserves P (@raise A e).
Proof. intros s H. exact H. Qed.

Lemma preserves_bind {A B : Type} P (m : M A) (k : A -> M B) :
  preserves P m -> (forall a, preserves P (k a)) -> preserves P (bind m k).
Proof.
  intros Hm Hk s H. unfold bind. specialize (Hm s H).
  destruct (m s) as [[e|a] s1]; simpl in *; [exact Hm|]. apply Hk, Hm.
Qed.

Lemma preserves_try_except {A : Type} P (m : M A) (h : exn -> M A) :
  preserves P m -> (forall e, preserves P (h e)) -> preserves P (try_except m h).
Proof.
  intros Hm Hh s H. unfold try_except. specialize (Hm s H).
  destruct (m s) as [[e|a] s1]; simpl in *; [apply Hh, Hm | exact Hm].
Qed.

Lemma preserves_get_state P : preserves P get_state.
Proof. intros s H. exact H. Qed.

Lemma preserves_time_time P : preserves P time_time.
Proof. intros s H. exact H. Qed.

Create HintDb preserves.

#[local] Hint Resolve preserves_ret preserves_raise preserves_get_state preserves_time_time
  : preserves.

(** *** Spacing of the invocations *)

(** Consecutive instants are at least [min_request_interval] apart. *)
Definition spaced (ts : list Z) : Prop :=
  Sorted (fun a b => a + min_request_interval <= b) ts.

(** The invocations so far are spaced, and none is later than the stamp
    [last_request_time]. *)
Definition well_timed (s : state) : Prop :=
  spaced (invoke_times (log s)) /\
  Forall (fun t => t <= last_request_time s) (invoke_times (log s)).

Lemma spaced_snoc ts t :
  spaced ts -> Forall (fun x => x + min_request_interval <= t) ts -> spaced (ts ++ [t]).
Proof.
  unfold spaced. induction 1 as [|x ts Hs IH Hhd]; intros Hall; simpl.
  - repeat constructor.
  - inversion Hall as [|? ? Hx Hrest]; subst.
    constructor; [apply IH, Hrest|].
    destruct ts as [|y ts]; simpl; constructor.
    + exact Hx.
    + inversion Hhd; assumption.
Qed.

Lemma well_timed_attempt req : preserves well_timed (attempt req).
Proof.
  intros s [Hsp Hle].
  destruct (attempt_run req s)
    as (out & s' & new & t & H & Hl & _ & _ & Ht & Hmin & _ & Hlast & _).
  rewrite H. simpl. unfold well_timed. rewrite Hl, invoke_times_app, Ht, Hlast. split.
  - apply spaced_snoc; [exact Hsp|].
    eapply List.Forall_impl; [|exact Hle]. simpl. intros x Hx. lia.
  - apply Forall_app. split; [|repeat constructor; lia].
    eapply List.Forall_impl; [|exact Hle]. simpl. intros x Hx.
    unfold min_request_interval in Hmin. lia.
Qed.

Lemma well_timed_sleep why d : preserves well_timed (sleep why d).
Proof.
  intros s [Hsp Hle]. unfold sleep, well_timed. simpl.
  rewrite invoke_times_app. simpl. rewrite app_nil_r. split; assumption.
Qed.

Lemma well_timed_retry_loop req retries :
  forall turns attempt_no, preserves well_timed (retry_loop req retries attempt_no turns).
Proof.
  induction turns as [|turns IH]; intros a; simpl.
  - apply preserves_ret.
  - apply preserves_try_except; [apply well_timed_attempt|].
    intros [status|m].
    + destruct (status =? 429); [|apply preserves_raise].
      destruct (a <? retries)%nat; [|apply preserves_raise].
      apply preserves_bind; [apply well_timed_sleep | intros _; apply IH].
    + destruct (a <? retries)%nat; [|apply preserves_raise].
      apply preserves_bind; [apply well_timed_sleep | intros _; apply IH].
Qed.

Lemma well_timed_execute req retries : preserves well_timed (_execute_with_retry req retries).
Proof. apply well_timed_retry_loop. Qed.

Lemma well_timed_queue_operation req : preserves well_timed (_queue_operation req).
Proof. apply well_timed_execute. Qed.

Lemma well_timed_get_values r : preserves well_timed (get_values r).
Proof. destruct r as [[[vs|]| |]|]; simpl; auto with preserves. Qed.

Lemma well_timed_get_sheets r : preserves well_timed (get_sheets r).
Proof. destruct r as [[| |]|]; simpl; auto with preserves. Qed.

Lemma well_timed_cache_sheet_id k v : preserves well_timed (cache_sheet_id k v).
Proof. intros s H. exact H. Qed.

Lemma well_timed_get_sheet_id sid name : preserves well_timed (_get_sheet_id sid name).
Proof.
  unfold _get_sheet_id. apply preserves_bind; [apply preserves_get_state|].
  intros s0. destruct (_sheet_id_cache s0 !! _); [apply preserves_ret|].
  apply preserves_try_except; [|intros; apply preserves_ret].
  apply preserves_bind; [apply well_timed_queue_operation|]. intros r.
  apply preserves_bind; [apply well_timed_get_sheets|]. intros sheets.
  destruct (List.find _ sheets); [|apply preserves_ret].
  apply preserves_bind; [apply well_timed_cache_sheet_id | intros; apply preserves_ret].
Qed.

Lemma well_timed_group_rows sid name rows :
  forall a b reqs, preserves well_timed (group_rows sid name rows a b reqs).
Proof.
  induction rows as [|r rows IH]; intros a b reqs; simpl; [apply preserves_ret|].
  destruct (r =? b + 1); [apply IH|].
  apply preserves_bind; [apply well_timed_get_sheet_id | intros; apply IH].
Qed.

Lemma well_timed_delete_rows sid name rows : preserves well_timed (delete_rows sid name rows).
Proof.
  unfold delete_rows. destruct (sort_rows rows) as [|r0 rest]; [apply preserves_ret|].
  apply preserves_bind; [apply well_timed_group_rows|]. intros [[a b] reqs].
  apply preserves_bind; [apply well_timed_get_sheet_id|]. intros id.
  apply preserves_bind; [apply well_timed_queue_operation | intros; apply preserves_ret].
Qed.

Lemma well_timed_delete_rows_by_date sid name date group :
  preserves well_timed (_delete_rows_by_date sid name date group).
Proof.
  unfold _delete_rows_by_date.
  apply preserves_try_except; [|intros; apply preserves_ret].
  apply preserves_bind; [apply well_timed_queue_operation|]. intros r.
  apply preserves_bind; [apply well_timed_get_values|]. intros values.
  destruct values; [apply preserves_ret|].
  destruct (rows_matching_date _ _ _ _); [apply preserves_ret | apply well_timed_delete_rows].
Qed.

Lemma well_timed_delete_old_hourly_data sid name group :
  preserves well_timed (_delete_old_hourly_data sid name group).
Proof.
  unfold _delete_old_hourly_data.
  apply preserves_try_except; [|intros; apply preserves_ret].
  apply preserves_bind; [apply well_timed_queue_operation|]. intros r.
  apply preserves_bind; [apply well_timed_get_values|]. intros values.
  destruct values; [apply preserves_ret|].
  apply preserves_bind; [apply preserves_time_time|]. intros now.
  destruct (rows_older_than _ _ _ _); [apply preserves_ret | apply well_timed_delete_rows].
Qed.

Lemma well_timed_insert_rows sid name ts data group :
  preserves well_timed (insert_rows sid name ts data group).
Proof.
  unfold insert_rows.
  apply preserves_bind; [apply well_timed_get_sheet_id|]. intros [id|]; [|apply preserves_ret].
  apply preserves_bind; [apply well_timed_queue_operation|]. intros _.
  apply preserves_bind; [apply well_timed_queue_operation | intros; apply preserves_ret].
Qed.

Lemma well_timed_write_daily_data sid name data group :
  preserves well_timed (write_daily_data sid name data group).
Proof.
  unfold write_daily_data.
  apply preserves_try_except; [|intros; apply preserves_ret].
  apply preserves_bind; [apply preserves_get_state|]. intros s0.
  destruct (negb (service s0)); [apply preserves_ret|].
  destruct data as [|first rest]; [apply preserves_ret|].
  apply preserves_bind; [apply preserves_time_time|]. intros now.
  apply preserves_bind; [apply well_timed_delete_rows_by_date|]. intros _.
  apply well_timed_insert_rows.
Qed.

Lemma well_timed_write_hourly_data sid name data group :
  preserves well_timed (write_hourly_data sid name data group).
Proof.
  unfold write_hourly_data.
  apply preserves_try_except; [|intros; apply preserves_ret].
  apply preserves_bind; [apply preserves_get_state|]. intros s0.
  destruct (negb (service s0)); [apply preserves_ret|].
  destruct data as [|first rest]; [apply preserves_ret|].
  apply preserves_bind; [apply preserves_time_time|]. intros now.
  apply preserves_bind; [apply well_timed_delete_old_hourly_data|]. intros _.
  apply well_timed_insert_rows.
Qed.

(** What an instance does over its life: operations run through the retry
    executor (by the queue worker), whole writes, and stretches of time in
    which other tasks run. *)
Inductive call : Type :=
| Operation (req : request) (retries : option nat)
| WriteDaily (spreadsheet_id sheet_name : string) (data_list : list report) (group_name : string)
| WriteHourly (spreadsheet_id sheet_name : string) (data_list : list report) (group_name : string)
| Elapse (duration : Z).

Definition elapse (duration : Z) (s : state) : state :=
  MkState (service s) (last_request_time s) (_sheet_id_cache s) (remote s)
          (clock s + Z.max 0 duration) (faults s) (lags s) (log s).

Definition run_call (s : state) (c : call) : state :=
  match c with
  | Operation req retries => snd (_execute_with_retry req retries s)
  | WriteDaily sid name data group => snd (write_daily_data sid name data group s)
  | WriteHourly sid name data group => snd (write_hourly_data sid name data group s)
  | Elapse d => elapse d s
  end.

Definition run_calls (cs : list call) (s : state) : state := fold_left run_call cs s.

Lemma well_timed_run_call c s : well_timed s -> well_timed (run_call s c).
Proof.
  destruct c; simpl.
  - apply well_timed_execute.
  - apply well_timed_write_daily_data.
  - apply well_timed_write_hourly_data.
  - intros H. exact H.
Qed.

Lemma well_timed_fresh s : log s = [] -> well_timed s.
Proof. intros H. unfold well_timed, spaced. rewrite H. simpl. split; constructor. Qed.

(** When the previous stamp is less than [min_request_interval] old,
    [_rate_limit_delay] sleeps the remainder, and otherwise not at all. *)
Lemma rate_limit_delay_sleeps_remainder s :
  log (snd (_rate_limit_delay s)) =
  log s ++
  (if clock s - last_request_time s <? min_request_interval
   then [Slept RateLimit (min_request_interval - (clock s - last_request_time s))]
   else []).
Proof.
  unfold _rate_limit_delay, bind, time_time, get_state, set_last_request_time.
  destruct (clock s - last_request_time s <? min_request_interval); simpl.
  - reflexivity.
  - rewrite app_nil_r. reflexivity.
Qed.

(** C5: whatever a writer instance is asked to do, and whatever the network
    answers and however long calls and sleeps take, any two consecutive
    invocations of queued operations (retries included) start at least
    [min_request_interval], 1200 ms, apart: all of them go through the one
    stamp [last_request_time] of the instance, and before each of them
    [_rate_limit_delay] sleeps what is missing to the interval. *)
Theorem consecutive_invocations_spaced (cs : list call) (s : state) :
  well_timed s ->
  Sorted (fun t1 t2 => t1 + 1200 <= t2) (invoke_times (log (run_calls cs s))) /\
  (forall s0,
      log (snd (_rate_limit_delay s0)) =
      log s0 ++
      (if clock s0 - last_request_time s0 <? 1200
       then [Slept RateLimit (1200 - (clock s0 - last_request_time s0))]
       else [])).
Proof.
  intros H. split; [|exact rate_limit_delay_sleeps_remainder].
  assert (Hw : well_timed (run_calls cs s)).
  { revert s H. induction cs as [|c cs IH]; intros s H; simpl; [exact H|].
    apply IH, well_timed_run_call, H. }
  exact (proj1 Hw).
Qed.

(** *** The two writes never raise *)

Lemma try_except_total {A : Type} (m : M A) (a : A) s :
  exists b s', try_except m (fun _ => ret a) s = (inr b, s').
Proof.
  unfold try_except. destruct (m s) as [[e|b] s']; [exists a, s' | exists b, s']; reflexivity.
Qed.

Lemma delete_rows_by_date_total sid name date group s :
  exists b s', _delete_rows_by_date sid name date group s = (inr b, s').
Proof. apply try_except_total. Qed.

Lemma delete_old_hourly_data_total sid name group s :
  exists b s', _delete_old_hourly_data sid name group s = (inr b, s').
Proof. apply try_except_total. Qed.

(** C10, as the code has it: both writes return a boolean on every input
    and every state; they return False and leave the state as it is (no
    remote call, no sleep) when the service is missing or the data list is
    empty; the step that deletes old rows never raises (it catches what its
    remote calls raise, and the write goes on); an exception that comes out
    of the rest (finding the sheet, inserting the rows, writing the values)
    makes the write return False. *)
Theorem write_data_total (sid name : string) (data : list report) (group : string) (s : state) :
  (exists b s', write_daily_data sid name data group s = (inr b, s')) /\
  (exists b s', write_hourly_data sid name data group s = (inr b, s')) /\
  (service s = false \/ data = [] ->
   write_daily_data sid name data group s = (inr false, s) /\
   write_hourly_data sid name data group s = (inr false, s)) /\
  (forall first rest,
      service s = true -> data = first :: rest ->
      let timestamp := format_datetime_for_sheet (get_india_datetime (clock s)) in
      (exists b s1,
          _delete_rows_by_date sid name (default "" (create_time first)) group s = (inr b, s1) /\
          forall e s2,
            insert_rows sid name timestamp data group s1 = (inl e, s2) ->
            write_daily_data sid name data group s = (inr false, s2)) /\
      (exists b s1,
          _delete_old_hourly_data sid name group s = (inr b, s1) /\
          forall e s2,
            insert_rows sid name timestamp data group s1 = (inl e, s2) ->
            write_hourly_data sid name data group s = (inr false, s2))).
Proof.
  split; [apply try_except_total|]. split; [apply try_except_total|]. split.
  - intros [H|H].
    + unfold write_daily_data, write_hourly_data, try_except, bind, get_state.
      rewrite H. split; reflexivity.
    + subst data. unfold write_daily_data, write_hourly_data, try_except, bind, get_state.
      destruct (negb (service s)); split; reflexivity.
  - intros first rest Hsv -> timestamp. split.
    + destruct (delete_rows_by_date_total sid name (default "" (create_time first)) group s)
        as (b & s1 & Hd).
      exists b, s1. split; [exact Hd|]. intros e s2 Hi.
      unfold write_daily_data, try_except, bind, get_state, time_time.
      rewrite Hsv. simpl. rewrite Hd. fold timestamp. rewrite Hi. reflexivity.
    + destruct (delete_old_hourly_data_total sid name group s) as (b & s1 & Hd).
      exists b, s1. split; [exact Hd|]. intros e s2 Hi.
      unfold write_hourly_data, try_except, bind, get_state, time_time.
      rewrite Hsv. simpl. rewrite Hd. fold timestamp. rewrite Hi. reflexivity.
Qed.

(** *** Runs on a healthy network *)

(** The part of the state a remote call cannot change. *)
Definition same_instance (s s' : state) : Prop :=
  service s' = service s /\ _sheet_id_cache s' = _sheet_id_cache s.

(** With no fault pending, a request the service accepts goes through at
    the first attempt. *)
Lemma queue_operation_ok req s resp rem :
  faults s = [] ->
  serve req (remote s) = inr (resp, rem) ->
  exists s',
    _queue_operation req s = (inr (Some resp), s') /\
    remote s' = rem /\ faults s' = [] /\ same_instance s s' /\ clock s <= clock s'.
Proof.
  intros Hf Hserve.
  destruct (rate_limit_delay_run s)
    as (s1 & pre & H1 & _ & _ & _ & _ & _ & Hc1 & _ & Hsv1 & Hca1 & Hrem1 & Hf1).
  unfold _queue_operation, _execute_with_retry. simpl.
  unfold try_except, bind. rewrite H1.
  unfold invoke. rewrite Hf1, Hf, Hrem1, Hserve. simpl.
  eexists. split; [reflexivity|]. simpl. unfold same_instance, next_lag.
  repeat split; try assumption. lia.
Qed.

(** A request the service refuses raises its HTTP 400 or 404 at the first
    attempt and changes nothing remote. *)
Lemma queue_operation_refused req s status :
  faults s = [] ->
  serve req (remote s) = inl (HttpError status) ->
  status <> 429 ->
  exists s',
    _queue_operation req s = (inl (HttpError status), s') /\
    remote s' = remote s /\ faults s' = [] /\ same_instance s s' /\ clock s <= clock s'.
Proof.
  intros Hf Hserve Hst.
  destruct (rate_limit_delay_run s)
    as (s1 & pre & H1 & _ & _ & _ & _ & _ & Hc1 & _ & Hsv1 & Hca1 & Hrem1 & Hf1).
  unfold _queue_operation, _execute_with_retry. simpl.
  unfold try_except, bind. rewrite H1.
  unfold invoke. rewrite Hf1, Hf, Hrem1, Hserve. simpl.
  replace (status =? 429) with false by (symmetry; apply Z.eqb_neq; exact Hst).
  unfold raise. eexists. split; [reflexivity|]. simpl. unfold same_instance, next_lag.
  repeat split; try assumption. lia.
Qed.

(** The sheet [name] of the spreadsheet [sid] has the id [id] and the
    grid [g], and [id] names no other sheet before it. *)
Definition sheet_at (sid name : string) (id : Z) (g : list row) (rem : remote_state) : Prop :=
  exists tabs,
    rem !! sid = Some tabs /\
    find_tab name tabs = Some (MkTab name id g) /\
    List.find (fun t => sheetId t =? id) tabs = Some (MkTab name id g).

Lemma set_grid_find_tab name id g g' tabs :
  find_tab name tabs = Some (MkTab name id g) ->
  find_tab name (set_grid id g' tabs) = Some (MkTab name id g').
Proof.
  unfold find_tab, set_grid. induction tabs as [|t tabs IH]; simpl; [discriminate|].
  destruct (String.eqb (title t) name) eqn:E.
  - intros H. injection H as ->. simpl. rewrite Z.eqb_refl. simpl.
    rewrite String.eqb_refl. reflexivity.
  - intros H. destruct (sheetId t =? id); simpl; rewrite E; apply IH, H.
Qed.

Lemma set_grid_find_id name id g g' tabs :
  List.find (fun t => sheetId t =? id) tabs = Some (MkTab name id g) ->
  List.find (fun t => sheetId t =? id) (set_grid id g' tabs) = Some (MkTab name id g').
Proof.
  unfold set_grid. induction tabs as [|t tabs IH]; simpl; [discriminate|].
  destruct (sheetId t =? id) eqn:E.
  - intros H. injection H as ->. simpl. rewrite Z.eqb_refl. reflexivity.
  - intros H. simpl. rewrite E. apply IH, H.
Qed.

Lemma sheet_at_set_grid sid name id g g' rem tabs :
  rem !! sid = Some tabs ->
  find_tab name tabs = Some (MkTab name id g) ->
  List.find (fun t => sheetId t =? id) tabs = Some (MkTab name id g) ->
  sheet_at sid name id g' (<[sid := set_grid id g' tabs]> rem).
Proof.
  intros Hr Ht Hi. exists (set_grid id g' tabs).
  split; [apply lookup_insert_eq|].
  split; [eapply set_grid_find_tab, Ht | eapply set_grid_find_id, Hi].
Qed.

Lemma serve_values_get sid name id g rem :
  sheet_at sid name id g rem ->
  serve (values_get sid (ColumnsAJ name)) rem = inr (values_response (read_rows g), rem).
Proof.
  intros (tabs & Hr & Ht & _). simpl. rewrite Hr, Ht. reflexivity.
Qed.

Lemma serve_spreadsheets_get sid name id g rem :
  sheet_at sid name id g rem ->
  exists sheets,
    serve (spreadsheets_get sid) rem = inr (sheets_response sheets, rem) /\
    List.find (fun sh => String.eqb (fst sh) name) sheets = Some (name, id).
Proof.
  intros (tabs & Hr & Ht & _). simpl. rewrite Hr. eexists. split; [reflexivity|].
  clear Hr. unfold find_tab in Ht. induction tabs as [|t tabs IH]; simpl in *; [discriminate|].
  destruct (String.eqb (title t) name) eqn:E.
  - injection Ht as ->. reflexivity.
  - apply IH, Ht.
Qed.

(** Deleting the rows [a .. a+n-1] (zero-based), some but not all. *)
Lemma serve_delete sid name id g rem (a n : nat) :
  sheet_at sid name id g rem ->
  (1 <= n)%nat -> (a + n <= List.length g)%nat -> (n < List.length g)%nat ->
  exists rem',
    serve (batchUpdate sid [deleteDimension (Some id) (Z.of_nat a) (Z.of_nat (a + n))]) rem =
      inr (done_response, rem') /\
    sheet_at sid name id (firstn a g ++ skipn (a + n) g) rem'.
Proof.
  intros (tabs & Hr & Ht & Hi) Hn Hlen Hall. simpl. rewrite Hr. simpl. rewrite Hi. simpl.
  replace ((0 <=? Z.of_nat a) && (Z.of_nat a <? Z.of_nat (a + n)) &&
           (Z.of_nat (a + n) <=? Z.of_nat (List.length g)) &&
           (Z.of_nat (a + n) - Z.of_nat a <? Z.of_nat (List.length g))) with true.
  2:{ symmetry. rewrite !andb_true_iff.
      repeat split; first [apply Z.leb_le | apply Z.ltb_lt]; lia. }
  rewrite !Nat2Z.id. eexists. split; [reflexivity|].
  eapply sheet_at_set_grid; eassumption.
Qed.

(** Inserting [n] empty rows below the first row. *)
Lemma serve_insert sid name id g rem (n : nat) :
  sheet_at sid name id g rem ->
  (1 <= n)%nat -> (1 <= List.length g)%nat ->
  exists rem',
    serve (batchUpdate sid [insertDimension (Some id) 1 (1 + Z.of_nat n)]) rem =
      inr (done_response, rem') /\
    sheet_at sid name id (firstn 1 g ++ repeat [] n ++ skipn 1 g) rem'.
Proof.
  intros (tabs & Hr & Ht & Hi) Hn Hlen. simpl. rewrite Hr. simpl. rewrite Hi. simpl.
  replace ((1 <? 1 + Z.of_nat n) && (1 <=? Z.of_nat (List.length g))) with true.
  2:{ symmetry. rewrite !andb_true_iff. split; first [apply Z.leb_le | apply Z.ltb_lt]; lia. }
  replace (Z.to_nat (1 + Z.of_nat n - 1)) with n by lia.
  change (Z.to_nat 1) with 1%nat.
  eexists. split; [reflexivity|].
  eapply sheet_at_set_grid; eassumption.
Qed.

Lemma overwrite_rows_empty (values pre post : list row) :
  overwrite_rows (List.length pre) values (pre ++ repeat [] (List.length values) ++ post) =
  pre ++ values ++ post.
Proof.
  induction pre as [|r pre IH]; simpl.
  - induction values as [|v values IHv]; simpl.
    + destruct post; reflexivity.
    + unfold overwrite_cells at 1. rewrite skipn_nil, app_nil_r. f_equal. exact IHv.
  - f_equal. exact IH.
Qed.

(** Writing [n] rows of at most ten cells over the empty rows just
    inserted. *)
Lemma serve_update sid name id g rem (values : list row) :
  sheet_at sid name id (firstn 1 g ++ repeat [] (List.length values) ++ skipn 1 g) rem ->
  (1 <= List.length g)%nat ->
  forallb (fun v => Nat.leb (List.length v) 10) values = true ->
  exists rem',
    serve (values_update sid (RowsAJ name 2 (1 + Z.of_nat (List.length values))) values) rem =
      inr (done_response, rem') /\
    sheet_at sid name id (firstn 1 g ++ values ++ skipn 1 g) rem'.
Proof.
  intros (tabs & Hr & Ht & Hi) Hlen Hcells. simpl. rewrite Hr, Ht. simpl. rewrite Hcells.
  assert (Hl1 : List.length (firstn 1 g) = 1%nat) by (rewrite length_firstn; lia).
  replace ((2 - 1 + Z.of_nat (List.length values) <=? 1 + Z.of_nat (List.length values)) &&
           (1 + Z.of_nat (List.length values) <=?
            Z.of_nat (List.length (firstn 1 g ++ repeat [] (List.length values) ++ skipn 1 g))))
    with true.
  2:{ symmetry. rewrite !andb_true_iff.
      rewrite !length_app, repeat_length, Hl1.
      split; apply Z.leb_le; lia. }
  simpl.
  pose proof (overwrite_rows_empty values (firstn 1 g) (skipn 1 g)) as Ho.
  rewrite Hl1 in Ho. change (Z.to_nat (2 - 1)) with 1%nat. rewrite Ho.
  eexists. split; [reflexivity|].
  eapply sheet_at_set_grid; eassumption.
Qed.

(** The cache of sheet ids holds nothing for the sheet, or its id. *)
Definition cache_ok (sid name : string) (id : Z) (s : state) : Prop :=
  let key := (sid ++ "_" ++ name)%string in
  _sheet_id_cache s !! key = None \/ _sheet_id_cache s !! key = Some id.

(** A healthy world: no fault pending, the sheet is there with the grid
    [g], and the cache does not contradict its id. *)
Definition healthy (sid name : string) (id : Z) (g : list row) (s : state) : Prop :=
  faults s = [] /\ sheet_at sid name id g (remote s) /\ cache_ok sid name id s.

Lemma get_sheet_id_ok sid name id g s :
  healthy sid name id g s ->
  exists s',
    _get_sheet_id sid name s = (inr (Some id), s') /\
    healthy sid name id g s' /\ service s' = service s /\ clock s <= clock s'.
Proof.
  intros (Hf & Hat & Hc). unfold _get_sheet_id, bind, get_state.
  destruct Hc as [Hc|Hc]; unfold cache_ok in *; rewrite Hc.
  - destruct (serve_spreadsheets_get sid name id g _ Hat) as (sheets & Hserve & Hfind).
    destruct (queue_operation_ok _ s _ _ Hf Hserve) as (s1 & Hq & Hrem & Hf1 & [Hsv Hca] & Hclk).
    unfold try_except, bind. rewrite Hq. simpl. rewrite Hfind. simpl.
    eexists. split; [reflexivity|]. simpl.
    split; [|split; [exact Hsv | exact Hclk]].
    split; [exact Hf1|]. split; [rewrite Hrem; exact Hat|].
    right. simpl. apply lookup_insert_eq.
  - exists s. split; [reflexivity|]. split; [|split; [reflexivity | lia]].
    split; [exact Hf|]. split; [exact Hat|]. right. exact Hc.
Qed.

(** The one-based numbers of the rows [a .. a+n-1]. *)
Definition block (a n : nat) : list Z :=
  List.map (fun k => Z.of_nat k + 1) (seq a n).

Lemma sort_rows_block a n : sort_rows (block a n) = block a n.
Proof.
  revert a. induction n as [|n IH]; intros a; [reflexivity|].
  unfold block in *. simpl. unfold sort_rows in *. simpl. rewrite IH.
  destruct n as [|n]; simpl; [reflexivity|].
  replace (Z.of_nat a + 1 <=? Z.of_nat (S a) + 1) with true
    by (symmetry; apply Z.leb_le; lia).
  reflexivity.
Qed.

Lemma block_cons a n : block a (S n) = (Z.of_nat a + 1) :: block (S a) n.
Proof. reflexivity. Qed.

Lemma group_rows_cons sid name r rest start_row end_row reqs :
  group_rows sid name (r :: rest) start_row end_row reqs =
  if r =? end_row + 1 then group_rows sid name rest start_row r reqs
  else
    let* sheet_id := _get_sheet_id sid name in
    group_rows sid name rest r r (reqs ++ [deleteDimension sheet_id (start_row - 1) end_row]).
Proof. reflexivity. Qed.

Lemma group_rows_block sid name n :
  forall a start_row reqs s,
    group_rows sid name (block (S a) n) start_row (Z.of_nat a + 1) reqs s =
    (inr (start_row, Z.of_nat (a + n) + 1, reqs), s).
Proof.
  induction n as [|n IH]; intros a start_row reqs s.
  - simpl. unfold ret. rewrite Nat.add_0_r. reflexivity.
  - rewrite block_cons, group_rows_cons.
    replace (Z.of_nat (S a) + 1 =? Z.of_nat a + 1 + 1) with true
      by (symmetry; apply Z.eqb_eq; lia).
    replace (a + S n)%nat with (S a + n)%nat by lia. apply IH.
Qed.

(** Deleting one contiguous block of rows of a healthy sheet. *)
Lemma delete_rows_block sid name id g s (a n : nat) :
  healthy sid name id g s ->
  (1 <= n)%nat -> (a + n <= List.length g)%nat -> (n < List.length g)%nat ->
  exists s',
    delete_rows sid name (block a n) s = (inr true, s') /\
    healthy sid name id (firstn a g ++ skipn (a + n) g) s' /\
    service s' = service s /\ clock s <= clock s'.
Proof.
  intros Hh Hn Hlen Hall. unfold delete_rows. rewrite sort_rows_block.
  destruct n as [|n]; [lia|]. rewrite block_cons.
  unfold bind. rewrite group_rows_block.
  destruct (get_sheet_id_ok sid name id g s Hh) as (s1 & Hg & (Hf1 & Hat1 & Hc1) & Hsv1 & Hclk1).
  rewrite Hg.
  destruct (serve_delete sid name id g _ a (S n) Hat1 Hn Hlen Hall) as (rem' & Hserve & Hat').
  replace (Z.of_nat a + 1 - 1) with (Z.of_nat a) by lia.
  replace (Z.of_nat (a + n) + 1) with (Z.of_nat (a + S n)) by lia. simpl app.
  destruct (queue_operation_ok _ s1 _ _ Hf1 Hserve) as (s2 & Hq & Hrem & Hf2 & [Hsv2 Hca2] & Hclk2).
  rewrite Hq. unfold ret. eexists. split; [reflexivity|].
  split; [|split; [congruence | lia]].
  split; [exact Hf2|]. split; [rewrite Hrem; exact Hat'|].
  unfold cache_ok in *. rewrite Hca2. exact Hc1.
Qed.

Lemma build_row_cells timestamp group data :
  forallb (fun v => Nat.leb (List.length v) 10)
          (List.map (build_row timestamp group) data) = true.
Proof. induction data as [|d data IH]; simpl; [reflexivity | exact IH]. Qed.

(** Inserting the new batch below the first row of a healthy sheet. *)
Lemma insert_rows_ok sid name id g s timestamp data group :
  healthy sid name id g s ->
  data <> [] -> (1 <= List.length g)%nat ->
  exists s',
    insert_rows sid name timestamp data group s = (inr true, s') /\
    healthy sid name id
            (firstn 1 g ++ List.map (build_row timestamp group) data ++ skipn 1 g) s' /\
    service s' = service s /\ clock s <= clock s'.
Proof.
  intros Hh Hdata Hlen. unfold insert_rows, bind.
  destruct (get_sheet_id_ok sid name id g s Hh) as (s1 & Hg & (Hf1 & Hat1 & Hc1) & Hsv1 & Hclk1).
  rewrite Hg.
  set (rows := List.map (build_row timestamp group) data).
  assert (Hn : (1 <= List.length rows)%nat).
  { unfold rows. rewrite length_map. destruct data; [congruence | simpl; lia]. }
  destruct (serve_insert sid name id g _ (List.length rows) Hat1 Hn Hlen) as (rem1 & Hs1 & Hat2).
  destruct (queue_operation_ok _ s1 _ _ Hf1 Hs1) as (s2 & Hq2 & Hrem2 & Hf2 & [Hsv2 Hca2] & Hclk2).
  rewrite Hq2.
  rewrite <- Hrem2 in Hat2.
  destruct (serve_update sid name id g _ rows Hat2 Hlen (build_row_cells _ _ _))
    as (rem2 & Hs2 & Hat3).
  destruct (queue_operation_ok _ s2 _ _ Hf2 Hs2) as (s3 & Hq3 & Hrem3 & Hf3 & [Hsv3 Hca3] & Hclk3).
  rewrite Hq3. unfold ret. eexists. split; [reflexivity|].
  split; [|split; [congruence | lia]].
  split; [exact Hf3|]. split; [rewrite Hrem3; exact Hat3|].
  unfold cache_ok in *. rewrite Hca3, Hca2. exact Hc1.
Qed.

(** *** The rows a write deletes *)

Lemma strip_end_length {A : Type} (f : A -> bool) l :
  (List.length (strip_end f l) <= List.length l)%nat.
Proof.
  unfold strip_end. induction l as [|x l IH]; simpl; [lia|].
  destruct (fold_right _ [] l); simpl in *; [destruct (f x); simpl; lia | lia].
Qed.

Lemma read_rows_length g vs :
  read_rows g = Some vs -> (1 <= List.length vs <= List.length g)%nat.
Proof.
  unfold read_rows. intros H.
  pose proof (strip_end_length is_nil (List.map trim_row g)) as Hl.
  rewrite length_map in Hl.
  destruct (strip_end is_nil (List.map trim_row g)) as [|v vs']; [discriminate|].
  injection H as <-. simpl in *. lia.
Qed.

Lemma rows_older_than_cons today group i row values :
  rows_older_than today group i (row :: values) =
  let tail := rows_older_than today group (i + 1) values in
  if Nat.leb 3 (List.length row) then
    if String.eqb (nth 1 row "") group && negb (String.eqb (nth 2 row "") "") then
      match strptime_date (nth 2 row "") with
      | Some row_date => if 0 <? today - row_date then (i + 1) :: tail else tail
      | None => tail
      end
    else tail
  else tail.
Proof. reflexivity. Qed.

Lemma rows_matching_date_cons date group i row values :
  rows_matching_date date group i (row :: values) =
  let tail := rows_matching_date date group (i + 1) values in
  if Nat.leb 3 (List.length row) then
    if String.eqb (nth 2 row "") date && String.eqb (nth 1 row "") group
    then (i + 1) :: tail else tail
  else tail.
Proof. reflexivity. Qed.

Lemma rows_older_than_bound today group values :
  forall i,
    Forall (fun r => i < r <= i + Z.of_nat (List.length values))
           (rows_older_than today group i values).
Proof.
  induction values as [|row values IH]; intros i; [constructor|].
  rewrite rows_older_than_cons. cbv zeta.
  assert (Htail : Forall (fun r => i < r <= i + Z.of_nat (List.length (row :: values)))
                         (rows_older_than today group (i + 1) values)).
  { eapply List.Forall_impl; [|apply IH]. cbv beta. intros r Hr.
    change (List.length (row :: values)) with (S (List.length values)). lia. }
  destruct (Nat.leb 3 (List.length row)); [|exact Htail].
  destruct (String.eqb (nth 1 row "") group && negb (String.eqb (nth 2 row "") ""));
    [|exact Htail].
  destruct (strptime_date (nth 2 row "")) as [d|]; [|exact Htail].
  destruct (0 <? today - d); [|exact Htail].
  constructor; [|exact Htail].
  change (List.length (row :: values)) with (S (List.length values)). lia.
Qed.

Lemma rows_matching_date_bound date group values :
  forall i,
    Forall (fun r => i < r <= i + Z.of_nat (List.length values))
           (rows_matching_date date group i values).
Proof.
  induction values as [|row values IH]; intros i; [constructor|].
  rewrite rows_matching_date_cons. cbv zeta.
  assert (Htail : Forall (fun r => i < r <= i + Z.of_nat (List.length (row :: values)))
                         (rows_matching_date date group (i + 1) values)).
  { eapply List.Forall_impl; [|apply IH]. cbv beta. intros r Hr.
    change (List.length (row :: values)) with (S (List.length values)). lia. }
  destruct (Nat.leb 3 (List.length row)); [|exact Htail].
  destruct (String.eqb (nth 2 row "") date && String.eqb (nth 1 row "") group);
    [|exact Htail].
  constructor; [|exact Htail].
  change (List.length (row :: values)) with (S (List.length values)). lia.
Qed.

Lemma block_last_in a n : In (Z.of_nat (a + n) + 1) (block a (S n)).
Proof.
  unfold block. apply in_map_iff. exists (a + n)%nat. split; [reflexivity|].
  apply in_seq. lia.
Qed.

(** A block of selected rows lies inside the grid. *)
Lemma block_in_grid (rows : list Z) (values g : list row) a n :
  Forall (fun r => 0 < r <= 0 + Z.of_nat (List.length values)) rows ->
  (List.length values <= List.length g)%nat ->
  rows = block a (S n) ->
  (a + S n <= List.length g)%nat.
Proof.
  intros Hb Hl ->. rewrite Forall_forall in Hb.
  specialize (Hb _ (proj2 (list_elem_of_In _ _) (block_last_in a n))). lia.
Qed.

(** The rows of the sheet as the delete step sees them. *)
Definition values_of (g : list row) : list row := default [] (read_rows g).

(** [_delete_old_hourly_data] on a healthy sheet whose stale rows (as of
    the date at the instant the read returns) form the block [a .. a+n-1]
    below the header. *)
Lemma delete_old_hourly_data_block sid name id g s group (a n : nat) :
  healthy sid name id g s ->
  rows_older_than
    (date_of (get_india_datetime
                (clock (snd (_queue_operation (values_get sid (ColumnsAJ name)) s)))))
    group 0 (values_of g) = block a n ->
  (1 <= a)%nat ->
  exists s',
    _delete_old_hourly_data sid name group s = (inr true, s') /\
    healthy sid name id (firstn a g ++ skipn (a + n) g) s' /\
    service s' = service s /\ clock s <= clock s'.
Proof.
  intros (Hf & Hat & Hc) Hrows Ha.
  pose proof (serve_values_get sid name id g _ Hat) as Hserve.
  destruct (queue_operation_ok _ s _ _ Hf Hserve) as (s1 & Hq & Hrem & Hf1 & [Hsv1 Hca1] & Hclk1).
  rewrite Hq in Hrows. simpl in Hrows.
  assert (Hh1 : healthy sid name id g s1).
  { split; [exact Hf1|]. split; [rewrite Hrem; exact Hat|].
    unfold cache_ok in *. rewrite Hca1. exact Hc. }
  unfold _delete_old_hourly_data, try_except, bind. rewrite Hq.
  unfold values_of in Hrows.
  destruct (read_rows g) as [vs|] eqn:Hread; simpl in *.
  - destruct (read_rows_length g vs Hread) as [Hpos Hle].
    destruct vs as [|v vs]; [simpl in Hpos; lia|].
    rewrite Hrows.
    destruct n as [|n].
    + unfold ret. simpl. rewrite Nat.add_0_r, firstn_skipn. eauto.
    + rewrite block_cons. cbv iota beta. rewrite <- block_cons.
      assert (Hin : (a + S n <= List.length g)%nat).
      { eapply (block_in_grid _ (v :: vs) g); [|exact Hle | exact Hrows].
        apply rows_older_than_bound. }
      destruct (delete_rows_block sid name id g s1 a (S n) Hh1) as (s2 & Hd & Hh2 & Hsv2 & Hclk2);
        [lia | exact Hin | lia |].
      rewrite Hd.
      eexists. split; [reflexivity|]. split; [exact Hh2|]. split; [congruence | lia].
  - destruct n as [|n]; [|discriminate Hrows].
    unfold ret. rewrite Nat.add_0_r, firstn_skipn. eauto.
Qed.

(** [_delete_rows_by_date] on a healthy sheet whose rows of that date and
    group form the block [a .. a+n-1] below the header. *)
Lemma delete_rows_by_date_block sid name id g s date group (a n : nat) :
  healthy sid name id g s ->
  rows_matching_date date group 0 (values_of g) = block a n ->
  (1 <= a)%nat ->
  exists s',
    _delete_rows_by_date sid name date group s = (inr true, s') /\
    healthy sid name id (firstn a g ++ skipn (a + n) g) s' /\
    service s' = service s /\ clock s <= clock s'.
Proof.
  intros (Hf & Hat & Hc) Hrows Ha.
  pose proof (serve_values_get sid name id g _ Hat) as Hserve.
  destruct (queue_operation_ok _ s _ _ Hf Hserve) as (s1 & Hq & Hrem & Hf1 & [Hsv1 Hca1] & Hclk1).
  assert (Hh1 : healthy sid name id g s1).
  { split; [exact Hf1|]. split; [rewrite Hrem; exact Hat|].
    unfold cache_ok in *. rewrite Hca1. exact Hc. }
  unfold _delete_rows_by_date, try_except, bind. rewrite Hq.
  unfold values_of in Hrows.
  destruct (read_rows g) as [vs|] eqn:Hread; simpl in Hrows |- *.
  - destruct (read_rows_length g vs Hread) as [Hpos Hle].
    destruct vs as [|v vs]; [simpl in Hpos; lia|].
    rewrite Hrows.
    destruct n as [|n].
    + unfold ret. simpl. rewrite Nat.add_0_r, firstn_skipn. eauto.
    + rewrite block_cons. cbv iota beta. rewrite <- block_cons.
      assert (Hin : (a + S n <= List.length g)%nat).
      { eapply (block_in_grid _ (v :: vs) g); [|exact Hle | exact Hrows].
        apply rows_matching_date_bound. }
      destruct (delete_rows_block sid name id g s1 a (S n) Hh1) as (s2 & Hd & Hh2 & Hsv2 & Hclk2);
        [lia | exact Hin | lia |].
      rewrite Hd.
      eexists. split; [reflexivity|]. split; [exact Hh2|]. split; [congruence | lia].
  - destruct n as [|n]; [|discriminate Hrows].
    unfold ret. rewrite Nat.add_0_r, firstn_skipn. eauto.
Qed.

(** A row the hourly write selects for deletion: a row of the group whose
    date cell parses to a day before [today]. *)
Definition stale (today : Z) (group : string) (r : row) : Prop :=
  (3 <= List.length r)%nat /\ nth 1 r "" = group /\
  exists d, strptime_date (nth 2 r "") = Some d /\ d < today.

Lemma strptime_date_empty : strptime_date "" = None.
Proof. reflexivity. Qed.

(** The year and the second digit of a day from 10 to 29 go through [\d],
    which takes the digits of every script; the other fields are classes of
    ASCII digits. *)
Example strptime_date_digits :
  strptime_date "2025-01-09" = Some 20097 /\
  strptime_date "２０２５-01-09" = Some 20097 /\
  strptime_date "2025-01-1９" = Some 20107 /\
  strptime_date "2025-0１-09" = None /\
  strptime_date "2025-1-9" = Some 20097 /\
  strptime_date "2025-01- 9" = Some 20097 /\
  strptime_date "2025-02-29" = None /\
  strptime_date "2025-01-091" = None.
Proof. vm_compute. repeat split; reflexivity. Qed.

Lemma rows_older_than_spec today group values :
  forall i k,
    In (i + Z.of_nat k + 1) (rows_older_than today group i values) <->
    exists r, nth_error values k = Some r /\ stale today group r.
Proof.
  induction values as [|row values IH]; intros i k.
  - simpl. split; [contradiction|]. intros (r & Hr & _). destruct k; discriminate.
  - rewrite rows_older_than_cons. cbv zeta.
    assert (Hnot_head : forall l, (forall x, In x l -> i + 1 < x) ->
                                  k = O -> ~ In (i + Z.of_nat k + 1) l).
    { intros l Hl -> Hin. apply Hl in Hin. simpl in Hin. lia. }
    assert (Hgt : forall x, In x (rows_older_than today group (i + 1) values) -> i + 1 < x).
    { intros x Hx. pose proof (rows_older_than_bound today group values (i + 1)) as Hb.
      rewrite Forall_forall in Hb. apply Hb. apply list_elem_of_In. exact Hx. }
    assert (Htail : forall k', k = S k' ->
               (In (i + Z.of_nat k + 1) (rows_older_than today group (i + 1) values) <->
                exists r, nth_error (row :: values) k = Some r /\ stale today group r)).
    { intros k' ->. simpl nth_error. rewrite <- IH.
      replace (i + Z.of_nat (S k') + 1) with (i + 1 + Z.of_nat k' + 1) by lia. reflexivity. }
    assert (Hstale : stale today group row <->
               Nat.leb 3 (List.length row) = true /\
               (String.eqb (nth 1 row "") group && negb (String.eqb (nth 2 row "") "")) = true /\
               exists d, strptime_date (nth 2 row "") = Some d /\ (0 <? today - d) = true).
    { unfold stale. rewrite Nat.leb_le, andb_true_iff, String.eqb_eq, negb_true_iff,
        String.eqb_neq. split.
      - intros (Hl & Hg & d & Hd & Hlt). split; [exact Hl|]. split.
        + split; [exact Hg|]. intros E. rewrite E, strptime_date_empty in Hd. discriminate.
        + exists d. split; [exact Hd|]. apply Z.ltb_lt. lia.
      - intros (Hl & [Hg _] & d & Hd & Hlt). split; [exact Hl|]. split; [exact Hg|].
        exists d. split; [exact Hd|]. apply Z.ltb_lt in Hlt. lia. }
    destruct k as [|k'].
    + (* the row number of [row] itself *)
      simpl nth_error. replace (i + Z.of_nat 0 + 1) with (i + 1) by lia.
      split.
      * intros Hin. exists row. split; [reflexivity|]. apply Hstale.
        destruct (Nat.leb 3 (List.length row));
          [|exfalso; apply Hgt in Hin; lia].
        destruct (String.eqb (nth 1 row "") group && negb (String.eqb (nth 2 row "") ""));
          [|exfalso; apply Hgt in Hin; lia].
        destruct (strptime_date (nth 2 row "")) as [d|];
          [|exfalso; apply Hgt in Hin; lia].
        destruct (0 <? today - d) eqn:E; [|exfalso; apply Hgt in Hin; lia].
        repeat split. exists d. split; [reflexivity | exact E].
      * intros (r & Hr & Hs). injection Hr as <-. apply Hstale in Hs.
        destruct Hs as (-> & -> & d & -> & ->). left. reflexivity.
    + rewrite <- (Htail k' eq_refl).
      destruct (Nat.leb 3 (List.length row)); [|reflexivity].
      destruct (String.eqb (nth 1 row "") group && negb (String.eqb (nth 2 row "") ""));
        [|reflexivity].
      destruct (strptime_date (nth 2 row "")) as [d|]; [|reflexivity].
      destruct (0 <? today - d); [|reflexivity].
      simpl. split; [intros [H|H]; [lia | exact H] | intros H; right; exact H].
Qed.

(** The grid after a write that removed the block [a .. a+n-1] and put
    [rows] below the header. *)
Definition grid_after (g : list row) (a n : nat) (rows : list row) : list row :=
  let g' := firstn a g ++ skipn (a + n) g in
  firstn 1 g' ++ rows ++ skipn 1 g'.

Lemma grid_after_header g a n rows :
  (1 <= a)%nat ->
  grid_after g a n rows =
  firstn 1 g ++ rows ++ skipn 1 (firstn a g) ++ skipn (a + n) g.
Proof.
  intros Ha. unfold grid_after.
  destruct g as [|h g].
  - rewrite !firstn_nil, !skipn_nil. simpl. rewrite !app_nil_r. reflexivity.
  - destruct a as [|a]; [lia|]. reflexivity.
Qed.

(** The hourly write selects for deletion the rows of the group whose
    date cell parses (as %Y-%m-%d) to a day strictly before
    the current date in Asia/Kolkata, the date being taken when the read of
    the sheet returns; rows dated today or later are not selected. On a
    healthy sheet where the selected rows form one contiguous block below the
    header, the write returns True and leaves exactly the header, the new
    batch directly below it, and every other row that was there, in order. *)
Theorem write_hourly_data_block
        (sid name : string) (id : Z) (g : list row) (s : state)
        (data : list report) (group : string) (a n : nat) :
  let today :=
    date_of (get_india_datetime
               (clock (snd (_queue_operation (values_get sid (ColumnsAJ name)) s)))) in
  let timestamp := format_datetime_for_sheet (get_india_datetime (clock s)) in
  service s = true ->
  healthy sid name id g s ->
  data <> [] ->
  rows_older_than today group 0 (values_of g) = block a n ->
  (1 <= a)%nat -> (1 <= List.length g)%nat ->
  (forall k,
      In (Z.of_nat k + 1) (rows_older_than today group 0 (values_of g)) <->
      exists r, nth_error (values_of g) k = Some r /\ stale today group r) /\
  exists s',
    write_hourly_data sid name data group s = (inr true, s') /\
    healthy sid name id
            (grid_after g a n (List.map (build_row timestamp group) data)) s'.
Proof.
  intros today timestamp Hsv Hh Hdata Hrows Ha Hlen. split.
  - intros k. apply (rows_older_than_spec today group (values_of g) 0 k).
  - destruct (delete_old_hourly_data_block sid name id g s group a n Hh Hrows Ha)
      as (s1 & Hd & Hh1 & Hsv1 & Hclk1).
    assert (Hlen1 : (1 <= List.length (firstn a g ++ skipn (a + n) g))%nat).
    { rewrite length_app, length_firstn. lia. }
    destruct (insert_rows_ok sid name id _ s1 timestamp data group Hh1 Hdata Hlen1)
      as (s2 & Hi & Hh2 & _).
    exists s2. split; [|exact Hh2].
    unfold write_hourly_data, try_except, bind, get_state, time_time.
    rewrite Hsv. simpl. destruct data as [|first rest]; [congruence|].
    rewrite Hd. fold timestamp. rewrite Hi. reflexivity.
Qed.

(** The daily write on a healthy sheet where the rows of the date and group
    form one contiguous block below the header: they are replaced by the new
    batch, and every other row stays. *)
Lemma write_daily_data_block
      (sid name : string) (id : Z) (g : list row) (s : state)
      (first : report) (rest : list report) (group : string) (a n : nat) :
  let timestamp := format_datetime_for_sheet (get_india_datetime (clock s)) in
  service s = true ->
  healthy sid name id g s ->
  rows_matching_date (default "" (create_time first)) group 0 (values_of g) = block a n ->
  (1 <= a)%nat -> (1 <= List.length g)%nat ->
  exists s',
    write_daily_data sid name (first :: rest) group s = (inr true, s') /\
    healthy sid name id
            (grid_after g a n (List.map (build_row timestamp group) (first :: rest))) s' /\
    service s' = true.
Proof.
  intros timestamp Hsv Hh Hrows Ha Hlen.
  destruct (delete_rows_by_date_block sid name id g s _ group a n Hh Hrows Ha)
    as (s1 & Hd & Hh1 & Hsv1 & Hclk1).
  assert (Hlen1 : (1 <= List.length (firstn a g ++ skipn (a + n) g))%nat).
  { rewrite length_app, length_firstn. lia. }
  destruct (insert_rows_ok sid name id _ s1 timestamp (first :: rest) group Hh1
              ltac:(discriminate) Hlen1)
    as (s2 & Hi & Hh2 & Hsv2 & _).
  exists s2. split; [|split; [exact Hh2 | congruence]].
  unfold write_daily_data, try_except, bind, get_state, time_time.
  rewrite Hsv. simpl. rewrite Hd. fold timestamp. rewrite Hi. reflexivity.
Qed.

(** *** Writing the same batch twice *)

(** Whether a row has the date and the group. *)
Definition matches (date group : string) (r : row) : bool :=
  String.eqb (nth 2 r "") date && String.eqb (nth 1 r "") group.

(** The one-based numbers, counted from [i], of the rows that satisfy
    [f]. *)
Fixpoint positions (f : row -> bool) (i : Z) (l : list row) : list Z :=
  match l with
  | [] => []
  | r :: rest => if f r then (i + 1) :: positions f (i + 1) rest else positions f (i + 1) rest
  end.

Lemma strip_end_cons {A : Type} (f : A -> bool) x l :
  strip_end f (x :: l) =
  match strip_end f l with
  | [] => if f x then [] else [x]
  | _ => x :: strip_end f l
  end.
Proof. reflexivity. Qed.

(** The cells a read trims away are empty, as is a cell past the end. *)
Lemma nth_strip_end (l : list string) :
  forall i, nth i (strip_end (fun c => String.eqb c "") l) "" = nth i l "".
Proof.
  induction l as [|x l IH]; intros i; [reflexivity|].
  rewrite strip_end_cons.
  destruct (strip_end (fun c => String.eqb c "") l) as [|y ys] eqn:E.
  - destruct (String.eqb_spec x "") as [->|Hx].
    + destruct i as [|i]; simpl; [reflexivity|].
      rewrite <- IH. destruct i; reflexivity.
    + destruct i as [|i]; simpl; [reflexivity|].
      rewrite <- IH. destruct i; reflexivity.
  - destruct i as [|i]; simpl; [reflexivity|]. apply IH.
Qed.

Lemma nth_trim_row (r : row) i : (i < 10)%nat -> nth i (trim_row r) "" = nth i r "".
Proof.
  intros Hi. unfold trim_row. rewrite nth_strip_end, nth_firstn.
  replace (i <? 10)%nat with true by (symmetry; apply Nat.ltb_lt; exact Hi).
  reflexivity.
Qed.

Lemma trim_row_keeps_date (r : row) :
  nth 2 r "" <> "" -> (3 <= List.length (trim_row r))%nat.
Proof.
  intros H. destruct (le_lt_dec 3 (List.length (trim_row r))) as [Hle|Hlt]; [exact Hle|].
  exfalso. apply H. rewrite <- (nth_trim_row r 2) by lia.
  apply nth_overflow. lia.
Qed.

(** On the rows as read, the selection of [_delete_rows_by_date] is the
    selection by date and group on the grid. *)
Lemma rows_matching_date_trimmed date group :
  date <> "" ->
  forall l i,
    rows_matching_date date group i (List.map trim_row l) = positions (matches date group) i l.
Proof.
  intros Hdate. induction l as [|r l IH]; intros i; [reflexivity|].
  change (List.map trim_row (r :: l)) with (trim_row r :: List.map trim_row l).
  rewrite rows_matching_date_cons. cbv zeta. simpl positions. rewrite IH.
  unfold matches. rewrite !nth_trim_row by lia.
  destruct (String.eqb_spec (nth 2 r "") date) as [E|E]; cbn [andb].
  - assert (H3 : (3 <= List.length (trim_row r))%nat)
      by (apply trim_row_keeps_date; congruence).
    apply Nat.leb_le in H3. rewrite H3. reflexivity.
  - destruct (Nat.leb 3 (List.length (trim_row r))); reflexivity.
Qed.

Lemma rows_matching_date_strip date group (l : list row) :
  forall i,
    rows_matching_date date group i (strip_end is_nil l) = rows_matching_date date group i l.
Proof.
  induction l as [|r l IH]; intros i; [reflexivity|].
  rewrite strip_end_cons. rewrite (rows_matching_date_cons date group i r l). cbv zeta.
  rewrite <- IH.
  destruct (strip_end is_nil l) as [|y ys] eqn:E.
  - destruct r as [|c r]; reflexivity.
  - rewrite rows_matching_date_cons. reflexivity.
Qed.

Lemma rows_matching_date_grid date group g :
  date <> "" ->
  rows_matching_date date group 0 (values_of g) = positions (matches date group) 0 g.
Proof.
  intros Hdate.
  assert (E : values_of g = strip_end is_nil (List.map trim_row g)).
  { unfold values_of, read_rows.
    destruct (strip_end is_nil (List.map trim_row g)); reflexivity. }
  rewrite E, rows_matching_date_strip. apply rows_matching_date_trimmed, Hdate.
Qed.

Lemma positions_app f l1 l2 :
  forall i,
    positions f i (l1 ++ l2) = positions f i l1 ++ positions f (i + Z.of_nat (List.length l1)) l2.
Proof.
  induction l1 as [|r l1 IH]; intros i; simpl.
  - rewrite Z.add_0_r. reflexivity.
  - rewrite IH. replace (i + 1 + Z.of_nat (List.length l1))
      with (i + Z.pos (Pos.of_succ_nat (List.length l1))) by lia.
    destruct (f r); reflexivity.
Qed.

Lemma positions_bound f l :
  forall i, Forall (fun x => i < x <= i + Z.of_nat (List.length l)) (positions f i l).
Proof.
  induction l as [|r l IH]; intros i; simpl; [constructor|].
  assert (Htail : Forall (fun x => i < x <= i + Z.pos (Pos.of_succ_nat (List.length l)))
                         (positions f (i + 1) l)).
  { eapply List.Forall_impl; [|apply IH]. cbv beta. intros x Hx. lia. }
  destruct (f r); [constructor; [lia | exact Htail] | exact Htail].
Qed.

Lemma positions_none f l :
  forall i, positions f i l = [] <-> forallb (fun r => negb (f r)) l = true.
Proof.
  induction l as [|r l IH]; intros i; simpl; [tauto|].
  destruct (f r); simpl; [split; discriminate | apply IH].
Qed.

Lemma positions_all f l :
  forallb f l = true ->
  forall i, positions f (Z.of_nat i) l = block i (List.length l).
Proof.
  induction l as [|r l IH]; intros Hall i; [reflexivity|].
  simpl in Hall. apply andb_true_iff in Hall. destruct Hall as [Hr Hl].
  simpl positions. rewrite Hr. simpl List.length. rewrite block_cons. f_equal.
  rewrite <- (IH Hl (S i)). f_equal. lia.
Qed.

Lemma block_bounds a n : Forall (fun x => Z.of_nat a < x <= Z.of_nat (a + n)) (block a n).
Proof.
  unfold block. apply Forall_forall. intros x Hx. apply list_elem_of_In in Hx.
  apply in_map_iff in Hx. destruct Hx as (k & <- & Hk). apply in_seq in Hk. lia.
Qed.

Lemma Forall_app_nil_l (P Q : Z -> Prop) (l1 l2 : list Z) :
  (forall x, P x -> Q x -> False) -> Forall P (l1 ++ l2) -> Forall Q l1 -> l1 = [].
Proof.
  intros Hno Hall H1. destruct l1 as [|x l1]; [reflexivity|]. exfalso.
  apply Forall_app in Hall. destruct Hall as [Hp _].
  inversion Hp; subst. inversion H1; subst. eauto.
Qed.

Lemma Forall_app_nil_r (P Q : Z -> Prop) (l1 l2 : list Z) :
  (forall x, P x -> Q x -> False) -> Forall P (l1 ++ l2) -> Forall Q l2 -> l2 = [].
Proof.
  intros Hno Hall H2. destruct l2 as [|x l2]; [reflexivity|]. exfalso.
  apply Forall_app in Hall. destruct Hall as [_ Hp].
  inversion Hp; subst. inversion H2; subst. eauto.
Qed.

(** When the selected rows are the block [a .. a+n-1], no row outside the
    block is selected. *)
Lemma positions_block_outside f g a n :
  positions f 0 g = block a n ->
  forallb (fun r => negb (f r)) (firstn a g ++ skipn (a + n) g) = true.
Proof.
  intros H. rewrite forallb_app. apply andb_true_iff.
  pose proof (block_bounds a n) as Hb. rewrite <- H in Hb.
  split.
  - rewrite <- (firstn_skipn a g) in Hb. rewrite positions_app in Hb.
    apply (positions_none f _ 0).
    eapply (Forall_app_nil_l _ (fun x => x <= Z.of_nat a)); [|exact Hb|].
    + intros x Hx Hx'. simpl in *. lia.
    + eapply List.Forall_impl; [|apply positions_bound]. cbv beta. intros x Hx.
      rewrite length_firstn in Hx. lia.
  - rewrite <- (firstn_skipn (a + n) g) in Hb. rewrite positions_app in Hb.
    apply (positions_none f _ (0 + Z.of_nat (List.length (firstn (a + n) g)))).
    destruct (le_lt_dec (List.length g) (a + n)) as [Hshort|Hlong].
    + rewrite skipn_all2 by exact Hshort. reflexivity.
    + eapply (Forall_app_nil_r _ (fun x => Z.of_nat (a + n) < x)); [|exact Hb|].
      * intros x Hx Hx'. simpl in *. lia.
      * eapply List.Forall_impl; [|apply positions_bound]. cbv beta. intros x Hx.
        rewrite length_firstn in Hx. lia.
Qed.

Lemma forallb_firstn {A : Type} (f : A -> bool) n l :
  forallb f l = true -> forallb f (firstn n l) = true.
Proof.
  revert n. induction l as [|x l IH]; intros n H; destruct n; simpl in *; try reflexivity.
  apply andb_true_iff in H. destruct H as [Hx Hl]. rewrite Hx. simpl. apply IH, Hl.
Qed.

Lemma forallb_skipn {A : Type} (f : A -> bool) n l :
  forallb f l = true -> forallb f (skipn n l) = true.
Proof.
  revert n. induction l as [|x l IH]; intros n H; destruct n; simpl in *; try reflexivity.
  - exact H.
  - apply andb_true_iff in H. destruct H as [Hx Hl]. apply IH, Hl.
Qed.

Lemma build_rows_match timestamp date group data :
  Forall (fun r => create_time r = Some date) data ->
  forallb (matches date group) (List.map (build_row timestamp group) data) = true.
Proof.
  induction 1 as [|r data Hr Hd IH]; simpl; [reflexivity|].
  rewrite IH. unfold matches. simpl. rewrite Hr. simpl.
  rewrite !String.eqb_refl. reflexivity.
Qed.

Lemma filter_none {A : Type} (f : A -> bool) l :
  forallb (fun x => negb (f x)) l = true -> List.filter f l = [].
Proof.
  induction l as [|x l IH]; simpl; [reflexivity|]. intros H.
  apply andb_true_iff in H. destruct H as [Hx Hl].
  apply negb_true_iff in Hx. rewrite Hx. apply IH, Hl.
Qed.

Lemma filter_all {A : Type} (f : A -> bool) l :
  forallb f l = true -> List.filter f l = l.
Proof.
  induction l as [|x l IH]; simpl; [reflexivity|]. intros H.
  apply andb_true_iff in H. destruct H as [Hx Hl]. rewrite Hx, IH by exact Hl. reflexivity.
Qed.

Lemma cut_after_header {A : Type} (h rows t : list A) :
  List.length h = 1%nat ->
  firstn 1 (h ++ rows ++ t) ++ skipn (1 + List.length rows) (h ++ rows ++ t) = h ++ t.
Proof.
  intros H. destruct h as [|x [|y h]]; simpl in H; try discriminate.
  change (([x] ++ rows ++ t)) with (x :: (rows ++ t)).
  change (skipn (1 + List.length rows) (x :: rows ++ t))
    with (skipn (List.length rows) (rows ++ t)).
  rewrite skipn_app, skipn_all, Nat.sub_diag. reflexivity.
Qed.

(** Idempotence where it holds: on a healthy sheet whose rows of the date
    and group form one contiguous block below the header (or are none), two
    writes of the same batch both return True and leave the sheet as one
    write does, with exactly the rows of the batch for that date and group;
    the rows of other dates and groups stay in place. *)
Lemma write_daily_data_twice_block
      (sid name : string) (id : Z) (g : list row) (s : state)
      (first : report) (rest : list report) (date group : string) (a n : nat) :
  service s = true ->
  healthy sid name id g s ->
  Forall (fun r => create_time r = Some date) (first :: rest) ->
  date <> "" ->
  rows_matching_date date group 0 (values_of g) = block a n ->
  (1 <= a)%nat -> (1 <= List.length g)%nat ->
  exists s1 s2 rows,
    write_daily_data sid name (first :: rest) group s = (inr true, s1) /\
    write_daily_data sid name (first :: rest) group s1 = (inr true, s2) /\
    rows = List.map (build_row (format_datetime_for_sheet (get_india_datetime (clock s1))) group)
                    (first :: rest) /\
    healthy sid name id (grid_after g a n rows) s2 /\
    List.filter (matches date group) (grid_after g a n rows) = rows /\
    List.length rows = List.length (first :: rest).
Proof.
  intros Hsv Hh Hdates Hdate Hrows Ha Hlen.
  assert (Hfirst : default "" (create_time first) = date).
  { inversion Hdates as [|? ? Hf _]; subst. rewrite Hf. reflexivity. }
  rewrite <- Hfirst in Hrows.
  destruct (write_daily_data_block sid name id g s first rest group a n Hsv Hh Hrows Ha Hlen)
    as (s1 & Hrun1 & Hh1 & Hsv1).
  rewrite Hfirst in Hrows.
  set (rows1 := List.map (build_row (format_datetime_for_sheet (get_india_datetime (clock s)))
                                    group) (first :: rest)) in *.
  set (g' := firstn a g ++ skipn (a + n) g).
  assert (Hg1 : grid_after g a n rows1 = firstn 1 g' ++ rows1 ++ skipn 1 g') by reflexivity.
  assert (Hout : forallb (fun r => negb (matches date group r)) g' = true).
  { apply positions_block_outside. rewrite <- rows_matching_date_grid by exact Hdate.
    exact Hrows. }
  assert (Hlen' : (1 <= List.length g')%nat).
  { unfold g'. rewrite length_app, length_firstn. lia. }
  assert (Hl1 : List.length (firstn 1 g') = 1%nat) by (rewrite length_firstn; lia).
  assert (Hn1 : List.length rows1 = List.length (first :: rest))
    by (unfold rows1; apply length_map).
  (* the rows of the date and group after the first write *)
  assert (Hrows1 : rows_matching_date (default "" (create_time first)) group 0
                     (values_of (grid_after g a n rows1)) =
                   block 1 (List.length rows1)).
  { rewrite Hfirst, rows_matching_date_grid by exact Hdate.
    rewrite Hg1, !positions_app, Hl1.
    rewrite (proj2 (positions_none _ (firstn 1 g') 0)) by (apply forallb_firstn, Hout).
    rewrite (proj2 (positions_none _ (skipn 1 g') _)) by (apply forallb_skipn, Hout).
    rewrite app_nil_r. simpl app.
    apply (positions_all _ rows1 (build_rows_match _ date group _ Hdates) 1). }
  assert (Hlen1 : (1 <= List.length (grid_after g a n rows1))%nat).
  { rewrite Hg1, !length_app, Hl1. lia. }
  destruct (write_daily_data_block sid name id _ s1 first rest group 1 (List.length rows1)
              Hsv1 Hh1 Hrows1 (le_n 1) Hlen1)
    as (s2 & Hrun2 & Hh2 & _).
  set (rows2 := List.map (build_row (format_datetime_for_sheet (get_india_datetime (clock s1)))
                                    group) (first :: rest)) in *.
  assert (Hsame : grid_after (grid_after g a n rows1) 1 (List.length rows1) rows2 =
                  grid_after g a n rows2).
  { unfold grid_after at 1. rewrite Hg1.
    assert (E : firstn 1 (firstn 1 g' ++ rows1 ++ skipn 1 g') ++
                skipn (1 + List.length rows1) (firstn 1 g' ++ rows1 ++ skipn 1 g') = g').
    { rewrite (cut_after_header (firstn 1 g') rows1 (skipn 1 g') Hl1).
      apply firstn_skipn. }
    rewrite E. reflexivity. }
  rewrite Hsame in Hh2.
  exists s1, s2, rows2.
  split; [exact Hrun1|]. split; [exact Hrun2|]. split; [reflexivity|].
  split; [exact Hh2|]. split; [|apply length_map].
  change (grid_after g a n rows2) with (firstn 1 g' ++ rows2 ++ skipn 1 g').
  rewrite !List.filter_app.
  rewrite (filter_none _ (firstn 1 g')) by (apply forallb_firstn, Hout).
  rewrite (filter_none _ (skipn 1 g')) by (apply forallb_skipn, Hout).
  rewrite app_nil_r, app_nil_l.
  apply filter_all. apply (build_rows_match _ date group _ Hdates).
Qed.

(** *** Scenarios *)

Definition header : row :=
  [ "written"; "group"; "date"; "channel"; "registrations"; "payers"; "amount";
    "deposit"; "withdraw"; "difference" ].

Definition old_row (group date channel : string) : row :=
  [ "2025-01-09 10:00:00"; group; date; channel; "1"; "2"; "3"; "4"; "5"; "6" ].

(** 2025-01-10 14:36:40 in Asia/Kolkata. *)
Definition start_clock : Z := 1736500000000.

(** A writer just created, its service in place, on a spreadsheet SHEET1
    with one sheet Daily-Report holding the grid [g]; [fs] is what the network
    will do to the coming invocations. *)
Definition writer_on (g : list row) (fs : list (option exn)) : state :=
  MkState true 0 ∅ {[ "SHEET1" := [MkTab "Daily-Report" 7 g] ]} start_clock fs [] [].

Definition sheet_grid (s : state) : list row :=
  match remote s !! "SHEET1" with
  | Some tabs => match find_tab "Daily-Report" tabs with Some t => grid t | None => [] end
  | None => []
  end.

Definition one_report : report :=
  MkReport (Some "2025-01-10") (Some "FBA8-18") (Some "5") (Some "2") (Some "10")
           (Some "20") (Some "3") (Some "17").

Definition daily (s : state) : (exn + bool) * state :=
  write_daily_data "SHEET1" "Daily-Report" [one_report] "G1" s.

Definition hourly (s : state) : (exn + bool) * state :=
  write_hourly_data "SHEET1" "Daily-Report" [one_report] "G1" s.

(** The rows of a grid with the given date and group. *)
Definition rows_of (date group : string) (g : list row) : list row :=
  List.filter (fun r => String.eqb (nth 2 r "") date && String.eqb (nth 1 r "") group) g.

(** The scenario of the specification: one row dated 2025-01-10 written to
    an empty report; written again, it is still there once. *)
Example write_daily_data_end_to_end :
  fst (daily (writer_on [header; []; []] [])) = inr true /\
  List.map (firstn 4) (sheet_grid (snd (daily (writer_on [header; []; []] [])))) =
    [ firstn 4 header; ["2025-01-10 14:36:40"; "G1"; "2025-01-10"; "FBA8-18"]; []; [] ] /\
  List.length (rows_of "2025-01-10" "G1"
                 (sheet_grid (snd (daily (snd (daily (writer_on [header; []; []] []))))))) = 1%nat.
Proof. vm_compute. repeat split. Qed.

(** A report whose rows of 2025-01-10 are not next to each other (another
    day's row of the same group lies between them). *)
Definition scattered_grid : list row :=
  [ header;
    old_row "G1" "2025-01-10" "a";
    old_row "G1" "2025-01-09" "b";
    old_row "G1" "2025-01-10" "c";
    old_row "G1" "2025-01-09" "d";
    []; []; [] ].

(** C1 on this report: both writes return True, and yet the sheet ends with
    two rows for (2025-01-10, G1) where one was written, and has lost the row
    d of 2025-01-09. The batch of the first write holds the two ranges
    computed on the sheet as read; the service applies the second range after
    the first, one row further down than meant. *)
Theorem write_daily_data_twice_scattered :
  fst (daily (writer_on scattered_grid [])) = inr true /\
  fst (daily (snd (daily (writer_on scattered_grid [])))) = inr true /\
  List.map (firstn 4)
    (sheet_grid (snd (daily (snd (daily (writer_on scattered_grid [])))))) =
    [ firstn 4 header;
      ["2025-01-10 14:36:44"; "G1"; "2025-01-10"; "FBA8-18"];
      ["2025-01-09 10:00:00"; "G1"; "2025-01-09"; "b"];
      ["2025-01-09 10:00:00"; "G1"; "2025-01-10"; "c"];
      []; [] ] /\
  List.length (rows_of "2025-01-10" "G1"
                 (sheet_grid (snd (daily (snd (daily (writer_on scattered_grid []))))))) = 2%nat /\
  List.length [one_report] = 1%nat /\
  In (old_row "G1" "2025-01-09" "d") scattered_grid /\
  ~ In (old_row "G1" "2025-01-09" "d")
       (sheet_grid (snd (daily (writer_on scattered_grid [])))) /\
  outcomes (log (snd (daily (writer_on scattered_grid [])))) = [None; None; None; None; None] /\
  nth_error (log (snd (daily (writer_on scattered_grid [])))) 4 =
    Some (Invoked (start_clock + 2400)
                  (batchUpdate "SHEET1"
                     [deleteDimension (Some 7) 1 2; deleteDimension (Some 7) 3 4])
                  None).
Proof.
  vm_compute. repeat split.
  - do 4 right. left. reflexivity.
  - intros H. repeat (destruct H as [H|H]; [discriminate H|]). exact H.
Qed.

(** A report with a row of the group dated after today. *)
Definition future_grid : list row :=
  [ header; old_row "G1" "2025-01-12" "x"; []; [] ].

(** C2 as stated fails: the row is of the group, its date parses and is not
    today, and it is still there after the hourly write. *)
Lemma write_hourly_data_keeps_future_row :
  fst (hourly (writer_on future_grid [])) = inr true /\
  In (old_row "G1" "2025-01-12" "x") (sheet_grid (snd (hourly (writer_on future_grid [])))) /\
  strptime_date "2025-01-12" = Some 20100 /\
  date_of (get_india_datetime (clock (snd (hourly (writer_on future_grid []))))) = 20098.
Proof. vm_compute. repeat split. right. right. left. reflexivity. Qed.

(** Two stale rows of the group next to each other, a row of today, and a
    row of another group. *)
Definition stale_grid : list row :=
  [ header;
    old_row "G1" "2025-01-09" "a";
    old_row "G1" "2025-01-08" "b";
    old_row "G1" "2025-01-10" "c";
    old_row "G2" "2025-01-01" "d";
    [] ].

Lemma writer_on_healthy g : healthy "SHEET1" "Daily-Report" 7 g (writer_on g []).
Proof.
  split; [reflexivity|]. split.
  - exists [MkTab "Daily-Report" 7 g]. repeat split.
  - left. reflexivity.
Qed.

Lemma write_hourly_data_block_witness :
  (forall k,
      In (Z.of_nat k + 1) (rows_older_than 20098 "G1" 0 (values_of stale_grid)) <->
      exists r, nth_error (values_of stale_grid) k = Some r /\ stale 20098 "G1" r) /\
  exists s',
    write_hourly_data "SHEET1" "Daily-Report" [one_report] "G1" (writer_on stale_grid []) =
      (inr true, s') /\
    healthy "SHEET1" "Daily-Report" 7
            (grid_after stale_grid 1 2
               (List.map (build_row "2025-01-10 14:36:40" "G1") [one_report])) s'.
Proof.
  apply (write_hourly_data_block "SHEET1" "Daily-Report" 7 stale_grid (writer_on stale_grid [])
           [one_report] "G1" 1 2).
  - reflexivity.
  - apply writer_on_healthy.
  - discriminate.
  - vm_compute. reflexivity.
  - lia.
  - simpl. lia.
Defined.

Example write_hourly_data_stale_rows :
  List.map (firstn 4) (sheet_grid (snd (hourly (writer_on stale_grid [])))) =
  [ firstn 4 header;
    ["2025-01-10 14:36:40"; "G1"; "2025-01-10"; "FBA8-18"];
    ["2025-01-09 10:00:00"; "G1"; "2025-01-10"; "c"];
    ["2025-01-09 10:00:00"; "G2"; "2025-01-01"; "d"];
    [] ].
Proof. vm_compute. reflexivity. Qed.

(** A date of yesterday written with full-width digits parses, and the row
    goes like any other stale row. *)
Example write_hourly_data_full_width_date :
  List.map (firstn 4)
    (sheet_grid (snd (hourly (writer_on [ header;
                                          old_row "G1" "２０２５-01-09" "a";
                                          old_row "G1" "2025-01-10" "b";
                                          [] ] [])))) =
  [ firstn 4 header;
    ["2025-01-10 14:36:40"; "G1"; "2025-01-10"; "FBA8-18"];
    ["2025-01-09 10:00:00"; "G1"; "2025-01-10"; "b"];
    [] ].
Proof. vm_compute. reflexivity. Qed.

(** Stale rows of the group that are not next to each other: the hourly
    write removes the first, and the row of today instead of the second. *)
Example write_hourly_data_scattered :
  List.map (firstn 4)
    (sheet_grid (snd (hourly (writer_on [ header;
                                          old_row "G1" "2025-01-09" "a";
                                          old_row "G1" "2025-01-10" "b";
                                          old_row "G1" "2025-01-08" "c";
                                          old_row "G1" "2025-01-10" "d";
                                          [] ] [])))) =
  [ firstn 4 header;
    ["2025-01-10 14:36:40"; "G1"; "2025-01-10"; "FBA8-18"];
    ["2025-01-09 10:00:00"; "G1"; "2025-01-10"; "b"];
    ["2025-01-09 10:00:00"; "G1"; "2025-01-08"; "c"];
    [] ].
Proof. vm_compute. reflexivity. Qed.

Definition report_on (date channel : string) : report :=
  MkReport (Some date) (Some channel) (Some "5") (Some "2") (Some "10")
           (Some "20") (Some "3") (Some "17").

(** Two hourly rounds of two groups that share a sheet, and a day going by. *)
Definition two_groups_day : list call :=
  [ WriteHourly "SHEET1" "Daily-Report" [report_on "2025-01-09" "A"] "G1";
    WriteHourly "SHEET1" "Daily-Report" [report_on "2025-01-09" "B"] "G2";
    Elapse 3600000;
    WriteHourly "SHEET1" "Daily-Report" [report_on "2025-01-09" "A"] "G1";
    WriteHourly "SHEET1" "Daily-Report" [report_on "2025-01-09" "B"] "G2";
    Elapse 86400000 ].

Definition new_sheet_writer : state :=
  MkState true 0 ∅ {[ "SHEET1" := [MkTab "Daily-Report" 7 [header; []; []; []]] ]}
          (start_clock - 86400000) [] [] [].

(** Two groups that share one sheet, written every hour: the rows of a
    group come to lie between those of the other. The first write of G1 on
    the next day finds its rows of the day before in the rows 3 and 5, sends
    the ranges [2,3) and [4,5) in one batch, and the second range, applied
    after the first, removes the row below the one meant: the write returns
    True and a row of G1 dated the day before is still there. *)
Lemma write_hourly_data_two_groups :
  List.map (firstn 4) (sheet_grid (run_calls two_groups_day new_sheet_writer)) =
  [ firstn 4 header;
    ["2025-01-09 15:36:49"; "G2"; "2025-01-09"; "B"];
    ["2025-01-09 15:36:47"; "G1"; "2025-01-09"; "A"];
    ["2025-01-09 14:36:43"; "G2"; "2025-01-09"; "B"];
    ["2025-01-09 14:36:40"; "G1"; "2025-01-09"; "A"];
    []; []; [] ] /\
  fst (write_hourly_data "SHEET1" "Daily-Report" [report_on "2025-01-10" "A"] "G1"
         (run_calls two_groups_day new_sheet_writer)) = inr true /\
  List.map (firstn 4)
    (sheet_grid (snd (write_hourly_data "SHEET1" "Daily-Report"
                        [report_on "2025-01-10" "A"] "G1"
                        (run_calls two_groups_day new_sheet_writer)))) =
  [ firstn 4 header;
    ["2025-01-10 15:36:53"; "G1"; "2025-01-10"; "A"];
    ["2025-01-09 15:36:49"; "G2"; "2025-01-09"; "B"];
    ["2025-01-09 14:36:43"; "G2"; "2025-01-09"; "B"];
    ["2025-01-09 14:36:40"; "G1"; "2025-01-09"; "A"];
    []; [] ].
Proof. vm_compute. repeat split; reflexivity. Qed.

Lemma consecutive_invocations_spaced_witness :
  Sorted (fun t1 t2 => t1 + 1200 <= t2)
         (invoke_times
            (log (run_calls
                    [ WriteDaily "SHEET1" "Daily-Report" [one_report] "G1";
                      Elapse 100;
                      Operation (spreadsheets_get "SHEET1") None;
                      WriteHourly "SHEET1" "Daily-Report" [one_report] "G1" ]
                    (writer_on scattered_grid
                       [Some (HttpError 429); None; Some (Exception "timeout")])))) /\
  (forall s0,
      log (snd (_rate_limit_delay s0)) =
      log s0 ++
      (if clock s0 - last_request_time s0 <? 1200
       then [Slept RateLimit (1200 - (clock s0 - last_request_time s0))]
       else [])).
Proof.
  apply consecutive_invocations_spaced. apply well_timed_fresh. reflexivity.
Defined.

(** The network answers 429 to every attempt: six invocations, five
    backoff sleeps of 3, 6, 12, 24 and 48 seconds, and the 429 is raised. *)
Example execute_with_retry_exhausted :
  let s := writer_on [header] (repeat (Some (HttpError 429)) 10) in
  let r := _execute_with_retry (spreadsheets_get "SHEET1") None s in
  fst r = inl (HttpError 429) /\
  outcomes (log (snd r)) = repeat (Some (HttpError 429)) 6 /\
  backoffs (log (snd r)) = [3000; 6000; 12000; 24000; 48000].
Proof. vm_compute. repeat split. Qed.

(** A malformed request (the spreadsheet has no sheet of that id) is refused
    with HTTP 400, raised after the one attempt. *)
Example execute_with_retry_not_retried :
  let s := writer_on [header] [] in
  let r := _execute_with_retry (batchUpdate "SHEET1" [deleteDimension (Some 99) 0 1]) None s in
  fst r = inl (HttpError 400) /\
  outcomes (log (snd r)) = [Some (HttpError 400)] /\
  backoffs (log (snd r)) = [].
Proof. vm_compute. repeat split. Qed.

(** Two rate-limit answers, then the call goes through. *)
Example execute_with_retry_recovers :
  let s := writer_on [header] [Some (HttpError 429); Some (HttpError 429)] in
  let r := _execute_with_retry (spreadsheets_get "SHEET1") None s in
  fst r = inr (Some (sheets_response [("Daily-Report", 7)])) /\
  outcomes (log (snd r)) = [Some (HttpError 429); Some (HttpError 429); None] /\
  backoffs (log (snd r)) = [3000; 6000].
Proof. vm_compute. repeat split. Qed.

(** The third remote call of a write on a report without rows to delete,
    the insertion of the empty rows, raises HTTP 500: the write returns
    False. *)
Example write_daily_data_insert_error :
  let s := writer_on [header; []] [None; None; Some (HttpError 500)] in
  fst (daily s) = inr false /\
  outcomes (log (snd (daily s))) = [None; None; Some (HttpError 500)] /\
  sheet_grid (snd (daily s)) = [header; []].
Proof. vm_compute. repeat split. Qed.

(** A second writer instance of the same process: its own stamp and cache,
    the same service, clock and trace. *)
Definition second_instance (s : state) : state :=
  MkState true 0 ∅ (remote s) (clock s) (faults s) (lags s) (log s).

(** C5 as stated fails: the stamp is an attribute of the instance, and a
    process has several writers (the report manager and the command handler
    each make their own). The first writer's call takes 300 ms; the second
    writer, whose stamp is still 0, invokes as soon as it is asked to. *)
Lemma two_instances_not_spaced :
  invoke_times
    (log (snd (_execute_with_retry (spreadsheets_get "SHEET1") None
                 (second_instance
                    (snd (_execute_with_retry (spreadsheets_get "SHEET1") None
                            (MkState true 0 ∅
                                     {[ "SHEET1" := [MkTab "Daily-Report" 7 [header]] ]}
                                     start_clock [] [300] []))))))) =
  [start_clock; start_clock + 300] /\
  300 < min_request_interval /\
  invoke_times
    (log (snd (_execute_with_retry (spreadsheets_get "SHEET1") None
                 (second_instance
                    (snd (_execute_with_retry (spreadsheets_get "SHEET1") None
                            (writer_on [header] []))))))) =
  [start_clock; start_clock].
Proof. vm_compute. repeat split; reflexivity. Qed.

(** C10 as stated fails: the first remote call of the write, the read made
    to find the rows to delete, raises HTTP 500; [_delete_rows_by_date]
    catches it, the write goes on and returns True. The rows that were to be
    replaced are still there. *)
Lemma write_daily_data_swallows_delete_error :
  let s := writer_on [header; old_row "G1" "2025-01-10" "a"; []] [Some (HttpError 500)] in
  fst (daily s) = inr true /\
  nth_error (log (snd (daily s))) 0 =
    Some (Invoked start_clock (values_get "SHEET1" (ColumnsAJ "Daily-Report"))
                  (Some (HttpError 500))) /\
  List.length (rows_of "2025-01-10" "G1" (sheet_grid (snd (daily s)))) = 2%nat.
Proof. vm_compute. repeat split. Qed.

(** *** The cache of sheet ids *)

Definition cache_is (c : gmap string Z) (s : state) : Prop := _sheet_id_cache s = c.

Lemma cache_is_attempt c req : preserves (cache_is c) (attempt req).
Proof.
  intros s H. destruct (attempt_run req s) as (out & s' & new & t & Hrun & Hrest).
  rewrite Hrun. simpl. unfold cache_is in *.
  destruct Hrest as (_ & _ & _ & _ & _ & _ & _ & _ & _ & _ & Hc). congruence.
Qed.

Lemma cache_is_sleep c why d : preserves (cache_is c) (sleep why d).
Proof. intros s H. exact H. Qed.

Lemma cache_is_retry_loop c req retries :
  forall turns attempt_no, preserves (cache_is c) (retry_loop req retries attempt_no turns).
Proof.
  induction turns as [|turns IH]; intros a; simpl.
  - apply preserves_ret.
  - apply preserves_try_except; [apply cache_is_attempt|].
    intros [status|m].
    + destruct (status =? 429); [|apply preserves_raise].
      destruct (a <? retries)%nat; [|apply preserves_raise].
      apply preserves_bind; [apply cache_is_sleep | intros _; apply IH].
    + destruct (a <? retries)%nat; [|apply preserves_raise].
      apply preserves_bind; [apply cache_is_sleep | intros _; apply IH].
Qed.

Lemma cache_is_queue_operation c req : preserves (cache_is c) (_queue_operation req).
Proof. apply cache_is_retry_loop. Qed.

Lemma get_sheet_id_hit sid name id s :
  _sheet_id_cache s !! (sid ++ "_" ++ name)%string = Some id ->
  _get_sheet_id sid name s = (inr (Some id), s).
Proof. intros H. unfold _get_sheet_id, bind, get_state. rewrite H. reflexivity. Qed.

Lemma get_sheet_id_outcome (sid name : string) (s : state) :
  exists r s',
    _get_sheet_id sid name s = (inr r, s') /\
    (forall id, r = Some id ->
       forall s2, _sheet_id_cache s2 = _sheet_id_cache s' ->
                  _get_sheet_id sid name s2 = (inr (Some id), s2)) /\
    (r = None -> _sheet_id_cache s' = _sheet_id_cache s).
Proof.
  destruct (_sheet_id_cache s !! (sid ++ "_" ++ name)%string) as [id0|] eqn:Hc.
  - exists (Some id0), s. split; [apply get_sheet_id_hit, Hc|]. split; [|discriminate].
    intros id E s2 H2. injection E as <-. apply get_sheet_id_hit. rewrite H2. exact Hc.
  - unfold _get_sheet_id, bind, get_state. rewrite Hc. unfold try_except.
    pose proof (cache_is_queue_operation (_sheet_id_cache s) (spreadsheets_get sid) s eq_refl)
      as Hkept.
    destruct (_queue_operation (spreadsheets_get sid) s) as [[e|result] s1];
      unfold cache_is in Hkept; simpl in Hkept.
    + exists None, s1. split; [reflexivity|]. split; [discriminate | intros _; exact Hkept].
    + destruct result as [[vs|sheets|]|]; simpl.
      * exists None, s1. split; [reflexivity|]. split; [discriminate | intros _; exact Hkept].
      * destruct (List.find (fun sh => String.eqb (fst sh) name) sheets) as [sh|]; simpl.
        -- eexists _, _. split; [reflexivity|]. split; [|discriminate].
           intros id E s2 H2. injection E as <-. apply get_sheet_id_hit.
           rewrite H2. simpl. apply lookup_insert_eq.
        -- exists None, s1. split; [reflexivity|]. split; [discriminate | intros _; exact Hkept].
      * exists None, s1. split; [reflexivity|]. split; [discriminate | intros _; exact Hkept].
      * exists None, s1. split; [reflexivity|]. split; [discriminate | intros _; exact Hkept].
Qed.

(** On a writer whose service is in place, [_get_sheet_id] never raises.
    An id it has found once is served from the cache from then on, with no
    remote call and whatever has become of the sheet; a lookup that fails
    leaves the cache as it was, so that the next call asks the service
    again. *)
Theorem get_sheet_id_cached (sid name : string) (s : state) :
  service s = true ->
  exists r s',
    _get_sheet_id sid name s = (inr r, s') /\
    (forall id, r = Some id ->
       forall s2, _sheet_id_cache s2 = _sheet_id_cache s' ->
                  _get_sheet_id sid name s2 = (inr (Some id), s2) /\
                  log (snd (_get_sheet_id sid name s2)) = log s2) /\
    (r = None -> _sheet_id_cache s' = _sheet_id_cache s).
Proof.
  intros _.
  destruct (get_sheet_id_outcome sid name s) as (r & s' & Hrun & Hlater & Hnone).
  exists r, s'. split; [exact Hrun|]. split; [|exact Hnone].
  intros id E s2 H2. pose proof (Hlater id E s2 H2) as H. rewrite H. split; reflexivity.
Qed.

(** The key of the cache is the spreadsheet id, an underscore and the sheet
    name put together: a lookup for another spreadsheet and sheet whose key
    comes out the same is answered with the id cached for the first, with no
    remote call. *)
Theorem get_sheet_id_key_shared (sid1 name1 sid2 name2 : string) (id : Z) (s s1 : state) :
  service s = true ->
  (sid1 ++ "_" ++ name1)%string = (sid2 ++ "_" ++ name2)%string ->
  _sheet_id_cache s !! (sid1 ++ "_" ++ name1)%string = None ->
  _get_sheet_id sid1 name1 s = (inr (Some id), s1) ->
  _get_sheet_id sid2 name2 s1 = (inr (Some id), s1).
Proof.
  intros _ Hkey Hmiss Hrun.
  destruct (get_sheet_id_outcome sid1 name1 s) as (r & s' & Hrun' & Hlater & _).
  rewrite Hrun in Hrun'. injection Hrun' as <- <-.
  pose proof (Hlater id eq_refl s1 eq_refl) as H1.
  unfold _get_sheet_id, bind, get_state in H1 |- *. rewrite <- Hkey.
  destruct (_sheet_id_cache s1 !! (sid1 ++ "_" ++ name1)%string) as [id1|] eqn:E.
  - exact H1.
  - exfalso. clear H1 Hlater.
    unfold _get_sheet_id, bind, get_state in Hrun. rewrite Hmiss in Hrun.
    unfold try_except in Hrun.
    destruct (_queue_operation (spreadsheets_get sid1) s) as [[e|result] s0];
      [discriminate|].
    destruct result as [[vs|sheets|]|]; simpl in Hrun; try discriminate.
    destruct (List.find (fun sh => String.eqb (fst sh) name1) sheets) as [sh|];
      simpl in Hrun; [|discriminate].
    injection Hrun as _ <-. simpl in E. rewrite lookup_insert_eq in E. discriminate.
Qed.

(** Two spreadsheets AB_C and AB: the sheet D of the first has the id 7,
    the sheet C_D of the second the id 9. *)
Definition two_spreadsheets : state :=
  MkState true 0 ∅
          {[ "AB_C" := [MkTab "D" 7 [header]]; "AB" := [MkTab "C_D" 9 [header]] ]}
          start_clock [] [] [].

Lemma get_sheet_id_key_shared_witness :
  _get_sheet_id "AB" "C_D" (snd (_get_sheet_id "AB_C" "D" two_spreadsheets)) =
  (inr (Some 7), snd (_get_sheet_id "AB_C" "D" two_spreadsheets)).
Proof.
  apply (get_sheet_id_key_shared "AB_C" "D" "AB" "C_D" 7 two_spreadsheets).
  - reflexivity.
  - reflexivity.
  - reflexivity.
  - vm_compute. reflexivity.
Defined.

Lemma get_sheet_id_cached_witness :
  exists r s',
    _get_sheet_id "AB_C" "D" two_spreadsheets = (inr r, s') /\
    (forall id, r = Some id ->
       forall s2, _sheet_id_cache s2 = _sheet_id_cache s' ->
                  _get_sheet_id "AB_C" "D" s2 = (inr (Some id), s2) /\
                  log (snd (_get_sheet_id "AB_C" "D" s2)) = log s2) /\
    (r = None -> _sheet_id_cache s' = _sheet_id_cache two_spreadsheets).
Proof. apply (get_sheet_id_cached "AB_C" "D" two_spreadsheets). reflexivity. Defined.

(** *** The ranges of a delete *)

(** The one-based row numbers a [deleteDimension] request names. *)
Definition rows_of_request (u : update_request) : list Z :=
  match u with
  | deleteDimension _ startIndex endIndex =>
      List.map (fun k => startIndex + 1 + Z.of_nat k) (seq 0 (Z.to_nat (endIndex - startIndex)))
  | insertDimension _ _ _ => []
  end.

Definition row_range (start_row end_row : Z) : list Z :=
  List.map (fun k => start_row + Z.of_nat k) (seq 0 (Z.to_nat (end_row - start_row + 1))).

Lemma rows_of_delete id start_row end_row :
  rows_of_request (deleteDimension id (start_row - 1) end_row) = row_range start_row end_row.
Proof.
  unfold rows_of_request, row_range.
  replace (end_row - (start_row - 1)) with (end_row - start_row + 1) by lia.
  apply map_ext. intros k. lia.
Qed.

Lemma row_range_snoc start_row end_row :
  start_row <= end_row ->
  row_range start_row (end_row + 1) = (row_range start_row end_row ++ [end_row + 1])%list.
Proof.
  intros H. unfold row_range.
  replace (Z.to_nat (end_row + 1 - start_row + 1))
    with (S (Z.to_nat (end_row - start_row + 1))) by lia.
  rewrite seq_S, map_app. simpl. f_equal. f_equal. lia.
Qed.

Lemma row_range_one r : row_range r r = [r].
Proof.
  unfold row_range. replace (r - r + 1) with 1 by lia. simpl. f_equal. lia.
Qed.

Lemma group_rows_cover sid name id s :
  _sheet_id_cache s !! (sid ++ "_" ++ name)%string = Some id ->
  forall rows start_row end_row reqs,
    start_row <= end_row ->
    exists start_row' end_row' reqs',
      group_rows sid name rows start_row end_row reqs s =
        (inr (start_row', end_row', reqs'), s) /\
      start_row' <= end_row' /\
      flat_map rows_of_request (reqs' ++ [deleteDimension (Some id) (start_row' - 1) end_row']) =
      (flat_map rows_of_request reqs ++ row_range start_row end_row ++ rows)%list.
Proof.
  intros Hc. induction rows as [|r rows IH]; intros start_row end_row reqs Hle.
  - exists start_row, end_row, reqs. split; [reflexivity|]. split; [exact Hle|].
    rewrite flat_map_app. cbn [flat_map]. rewrite rows_of_delete, !app_nil_r. reflexivity.
  - rewrite group_rows_cons. destruct (r =? end_row + 1) eqn:E.
    + apply Z.eqb_eq in E. subst r.
      destruct (IH start_row (end_row + 1) reqs ltac:(lia)) as (a & b & reqs' & Hrun & Hab & Hflat).
      exists a, b, reqs'. split; [exact Hrun|]. split; [exact Hab|].
      rewrite Hflat, row_range_snoc by exact Hle. rewrite <- !app_assoc. reflexivity.
    + unfold bind at 1. rewrite (get_sheet_id_hit sid name id s Hc).
      destruct (IH r r (reqs ++ [deleteDimension (Some id) (start_row - 1) end_row])%list
                   ltac:(lia)) as (a & b & reqs' & Hrun & Hab & Hflat).
      exists a, b, reqs'. split; [exact Hrun|]. split; [exact Hab|].
      rewrite Hflat, flat_map_app. cbn [flat_map].
      rewrite rows_of_delete, row_range_one, app_nil_r.
      rewrite <- !app_assoc. reflexivity.
Qed.

(** With the sheet id in the cache, the loop that groups the row numbers
    makes no remote call, and the ranges it builds, the last one included,
    name the given rows and no other, each once and in the given order. *)
Theorem delete_requests_cover_rows
        (sid name : string) (id : Z) (s : state) (first : Z) (rest : list Z) :
  _sheet_id_cache s !! (sid ++ "_" ++ name)%string = Some id ->
  exists start_row end_row delete_requests,
    group_rows sid name rest first first [] s =
      (inr (start_row, end_row, delete_requests), s) /\
    flat_map rows_of_request
             (delete_requests ++ [deleteDimension (Some id) (start_row - 1) end_row]) =
    first :: rest.
Proof.
  intros Hc.
  destruct (group_rows_cover sid name id s Hc rest first first [] ltac:(lia))
    as (a & b & reqs & Hrun & _ & Hflat).
  exists a, b, reqs. split; [exact Hrun|].
  rewrite Hflat, row_range_one. reflexivity.
Qed.

Definition cached_writer : state :=
  MkState true 0 {[ "SHEET1_Daily-Report" := 7 ]}
          {[ "SHEET1" := [MkTab "Daily-Report" 7 scattered_grid] ]} start_clock [] [] [].

Lemma delete_requests_cover_rows_witness :
  exists start_row end_row delete_requests,
    group_rows "SHEET1" "Daily-Report" [3; 5; 6] 2 2 [] cached_writer =
      (inr (start_row, end_row, delete_requests), cached_writer) /\
    flat_map rows_of_request
             (delete_requests ++ [deleteDimension (Some 7) (start_row - 1) end_row]) =
    [2; 3; 5; 6].
Proof.
  apply (delete_requests_cover_rows "SHEET1" "Daily-Report" 7 cached_writer 2 [3; 5; 6]).
  reflexivity.
Defined.

Example delete_requests_example :
  fst (group_rows "SHEET1" "Daily-Report" [3; 5; 6] 2 2 [] cached_writer) =
  inr (5, 6, [deleteDimension (Some 7) 1 3]).
Proof. vm_compute. reflexivity. Qed.

(** *** Writing the same batch twice, on a block *)

(** Two rows of 2025-01-10 of the group G1 next to each other. *)
Definition block_grid : list row :=
  [ header;
    old_row "G1" "2025-01-10" "a";
    old_row "G1" "2025-01-10" "b";
    old_row "G1" "2025-01-09" "c";
    [] ].

Lemma write_daily_data_twice_block_witness :
  exists s1 s2 rows,
    write_daily_data "SHEET1" "Daily-Report" [one_report] "G1" (writer_on block_grid []) =
      (inr true, s1) /\
    write_daily_data "SHEET1" "Daily-Report" [one_report] "G1" s1 = (inr true, s2) /\
    rows = List.map (build_row (format_datetime_for_sheet (get_india_datetime (clock s1))) "G1")
                    [one_report] /\
    healthy "SHEET1" "Daily-Report" 7 (grid_after block_grid 1 2 rows) s2 /\
    List.filter (matches "2025-01-10" "G1") (grid_after block_grid 1 2 rows) = rows /\
    List.length rows = List.length [one_report].
Proof.
  apply (write_daily_data_twice_block "SHEET1" "Daily-Report" 7 block_grid
           (writer_on block_grid []) one_report [] "2025-01-10" "G1" 1 2).
  - reflexivity.
  - apply writer_on_healthy.
  - repeat constructor.
  - discriminate.
  - vm_compute. reflexivity.
  - lia.
  - simpl. lia.
Defined.

End SheetsFacts.

(** ** The operation queue (src/google_sheets_writer.py) *)

Module QueueFacts.
Import Sheets Queue.

(** A task that got past the guard of [_start_queue_worker]. *)
Definition active (t : task_state) : bool :=
  match t with
  | Waiting | Executing _ => true
  | Created | Returned => false
  end.

(** The operations taken from the queue whose future is not yet resolved. *)
Definition in_flight (ts : list task_state) : list operation_data :=
  flat_map (fun t => match t with Executing op => [op] | _ => [] end) ts.






Lemma in_flight_app l1 l2 : in_flight (l1 ++ l2) = in_flight l1 ++ in_flight l2.
Proof. apply flat_map_app. Qed.


(** Replacing the task at position [i]. *)
Lemma task_split (ts : list task_state) i t t' :
  ts !! i = Some t ->
  ts = take i ts ++ t :: drop (S i) ts /\
  <[i := t']> ts = take i ts ++ t' :: drop (S i) ts.
Proof.
  intros H. split.
  - symmetry. apply take_drop_middle, H.
  - apply insert_take_drop. eapply lookup_lt_Some, H.
Qed.



Lemma in_flight_insert_inactive (ts : list task_state) i t t' :
  ts !! i = Some t -> active t = false -> active t' = false ->
  in_flight (<[i := t']> ts) = in_flight ts.
Proof.
  intros H Ht Ht'. destruct (task_split ts i t t' H) as [E1 E2].
  rewrite E2. rewrite E1 at 3. rewrite !in_flight_app.
  destruct t, t'; simpl in *; try discriminate; reflexivity.
Qed.








(** *** A schedule that resolves every future *)







(** Three submissions interleaved with the worker: the second and third
    arrive while the first is in execution; the third is malformed. *)
Example operation_queue_interleaved :
  let s0 := SheetsFacts.writer_on [SheetsFacts.header; []] [] in
  let schedule :=
    [ Submit (spreadsheets_get "SHEET1"); Start 0; Take 0;
      Submit (values_get "SHEET1" (ColumnsAJ "Daily-Report"));
      Submit (batchUpdate "SHEET1" [deleteDimension None 0 1]);
      Finish 0; Take 0; Finish 0; Take 0; Finish 0; Timeout 0 ] in
  option_map (fun w => (futures w, completed w, tasks w)) (run schedule (new_writer s0)) =
  Some ([ Some (inr (Some (sheets_response [("Daily-Report", 7)])));
          Some (inr (Some (values_response (Some [firstn 10 SheetsFacts.header]))));
          Some (inl (HttpError 400)) ],
        [0; 1; 2]%nat,
        [Waiting]).
Proof. vm_compute. reflexivity. Qed.

(** Two submissions before any task has run create two tasks; the second
    one returns at the guard. *)
Example operation_queue_second_task_returns :
  let s0 := SheetsFacts.writer_on [SheetsFacts.header; []] [] in
  let schedule :=
    [ Submit (spreadsheets_get "SHEET1"); Submit (spreadsheets_get "SHEET1");
      Start 1; Start 0; Take 1; Finish 1; Take 1; Finish 1 ] in
  option_map (fun w => (completed w, tasks w, _queue_worker_running w))
             (run schedule (new_writer s0)) =
  Some ([0; 1]%nat, [Returned; Waiting], true).
Proof. vm_compute. reflexivity. Qed.

End QueueFacts.

(** ** The report manager (src/api_data_sender_manager.py) *)

Module ManagerFacts.
Import Sched Manager SchedFacts.

(** *** The send time of the daily report *)

Lemma daily_report_utc_time_valid local_now hour minute :
  valid_hm hour minute ->
  exists utc_hour utc_minute,
    daily_report_utc_time local_now hour minute = Some (utc_hour, utc_minute) /\
    valid_hm utc_hour utc_minute /\
    (offset_in_day utc_hour utc_minute + IST_OFFSET) mod DAY = offset_in_day hour minute.
Proof.
  intros Hv. unfold daily_report_utc_time. rewrite (replace_hm_valid _ _ _ Hv).
  eexists _, _. split; [reflexivity|].
  destruct Hv as [Hh Hm].
  unfold valid_hm, hour_of, minute_of, offset_in_day, IST_OFFSET, DAY, SECOND in *.
  Z.div_mod_to_equations. lia.
Qed.

(** A daily report configured for [hour:minute] India time: the task that
    [_setup_tasks] sets fires once per turn, each time at an instant that
    reads [hour:minute:00] on an India clock, and never ends by itself. *)
Theorem daily_report_fires_at_india_time (local_now hour minute : Z) :
  valid_hm hour minute ->
  exists utc_hour utc_minute,
    daily_report_utc_time local_now hour minute = Some (utc_hour, utc_minute) /\
    forall (now : Z) (world : list turn),
    exists fs,
      run_daily_task utc_hour utc_minute now world = (fs, false) /\
      List.length fs = List.length world /\
      Forall (fun f => (target_time f + IST_OFFSET) mod DAY = offset_in_day hour minute) fs.
Proof.
  intros Hv.
  destruct (daily_report_utc_time_valid local_now hour minute Hv)
    as (uh & um & Hconv & Hvu & Hoff).
  exists uh, um. split; [exact Hconv|].
  intros now world. revert now. induction world as [|w world IH]; intros now.
  - exists []. repeat split. constructor.
  - destruct (daily_turn_spec uh um now w Hvu) as (f & Hf & _ & Hal & _).
    destruct (IH (finished_at f)) as (fs & Hrun & Hlen & Hall).
    exists (f :: fs). split; [simpl; rewrite Hf, Hrun; reflexivity|].
    split; [simpl; congruence|]. constructor; [|exact Hall].
    rewrite <- Hoff, <- Hal. rewrite Zplus_mod_idemp_l. reflexivity.
Qed.

Lemma daily_report_fires_at_india_time_witness :
  exists utc_hour utc_minute,
    daily_report_utc_time start_2359 5 45 = Some (utc_hour, utc_minute) /\
    forall (now : Z) (world : list turn),
    exists fs,
      run_daily_task utc_hour utc_minute now world = (fs, false) /\
      List.length fs = List.length world /\
      Forall (fun f => (target_time f + IST_OFFSET) mod DAY = offset_in_day 5 45) fs.
Proof.
  apply (daily_report_fires_at_india_time start_2359 5 45).
  unfold valid_hm. lia.
Defined.

(** 05:45 in India is 00:15 UTC; 02:00 in India is 20:30 UTC of the day
    before. *)
Example daily_report_utc_time_examples :
  daily_report_utc_time start_2359 5 45 = Some (0, 15) /\
  daily_report_utc_time start_2359 2 0 = Some (20, 30) /\
  daily_report_utc_time start_2359 24 0 = None.
Proof. vm_compute. repeat split; reflexivity. Qed.

(** *** The reports of each group *)

Definition has_channel (g : group_config) (channel_source : string) : bool :=
  existsb (fun c => String.eqb (default "" c) channel_source) (channel_ids g).

Definition has_spreadsheet (group_spreadsheets : gmap string string) (group_name : string)
  : bool :=
  match group_spreadsheets !! group_name with
  | Some sid => negb (String.eqb sid "")
  | None => false
  end.

(** A report belongs to a group when it has a channel and the channel is one
    of the channel ids of the group. *)
Definition belongs (g : group_config) (data : Sheets.report) : bool :=
  let channel_source := default "" (Sheets.channel data) in
  negb (String.eqb channel_source "") && has_channel g channel_source.

Definition extend (fresh : group_config) (old : option group_info) (data : list Sheets.report)
  : option group_info :=
  match old with
  | Some info => Some (MkGroupInfo (config info) (data_list info ++ data))
  | None => match data with [] => None | _ => Some (MkGroupInfo fresh data) end
  end.

Lemma scan_channels_spec ids src name cfg sid data m :
  scan_channels ids src name cfg sid data m =
  if existsb (fun c => String.eqb (default "" c) src) ids &&
     match sid with Some sid => negb (String.eqb sid "") | None => false end
  then Param.dict_set name
         (MkGroupInfo (config (default (MkGroupInfo cfg []) (Param.dict_get name m)))
                      (data_list (default (MkGroupInfo cfg []) (Param.dict_get name m))
                         ++ [data])) m
  else m.
Proof.
  induction ids as [|c ids IH]; simpl; [reflexivity|].
  destruct (String.eqb (default "" c) src); simpl; [|exact IH].
  destruct sid as [sid|]; [|reflexivity].
  destruct (String.eqb sid ""); simpl; [reflexivity|].
  destruct (Param.dict_get name m); reflexivity.
Qed.

Lemma scan_groups_lookup groups sheets src data name :
  NoDup (List.map fst groups) ->
  forall m,
    Param.dict_get name (scan_groups groups sheets src data m) =
    match Param.dict_get name groups with
    | Some cfg =>
        if has_channel cfg src && has_spreadsheet sheets name
        then extend cfg (Param.dict_get name m) [data]
        else Param.dict_get name m
    | None => Param.dict_get name m
    end.
Proof.
  induction groups as [|[g cfg] groups IH]; intros Hnd m; [reflexivity|].
  simpl in Hnd. apply NoDup_cons in Hnd. destruct Hnd as [Hin Hnd].
  cbn [scan_groups Param.dict_get fst snd]. rewrite (IH Hnd). clear IH.
  rewrite scan_channels_spec.
  destruct (String.eqb_spec g name) as [->|Hne].
  - assert (Hnone : Param.dict_get name groups = None).
    { clear -Hin. induction groups as [|[g' c'] groups IH]; [reflexivity|].
      simpl in *. destruct (String.eqb_spec g' name) as [->|Hne].
      - exfalso. apply Hin. left.
      - apply IH. intros H. apply Hin. right. exact H. }
    rewrite Hnone. unfold has_channel, has_spreadsheet.
    destruct (existsb _ (channel_ids cfg) && _); [|reflexivity].
    rewrite ParamFacts.dict_get_set_same. unfold extend.
    destruct (Param.dict_get name m); reflexivity.
  - assert (Hsame : Param.dict_get name
                      (if existsb (fun c => String.eqb (default "" c) src) (channel_ids cfg) &&
                          match sheets !! g with
                          | Some sid => negb (String.eqb sid "")
                          | None => false
                          end
                       then Param.dict_set g
                              (MkGroupInfo
                                 (config (default (MkGroupInfo cfg []) (Param.dict_get g m)))
                                 (data_list (default (MkGroupInfo cfg []) (Param.dict_get g m))
                                    ++ [data])) m
                       else m) = Param.dict_get name m).
    { destruct (existsb _ (channel_ids cfg) && _); [|reflexivity].
      apply ParamFacts.dict_get_set_other. exact Hne. }
    rewrite Hsame. reflexivity.
Qed.

Lemma extend_extend fresh old l1 l2 :
  extend fresh (extend fresh old l1) l2 = extend fresh old (l1 ++ l2).
Proof.
  unfold extend. destruct old as [info|]; simpl.
  - rewrite app_assoc. reflexivity.
  - destruct l1; simpl; [reflexivity|]. reflexivity.
Qed.

Lemma group_reports_lookup groups sheets name :
  NoDup (List.map fst groups) ->
  forall reports m,
    Param.dict_get name (group_reports groups sheets reports m) =
    match Param.dict_get name groups with
    | Some cfg =>
        if has_spreadsheet sheets name
        then extend cfg (Param.dict_get name m) (List.filter (belongs cfg) reports)
        else Param.dict_get name m
    | None => Param.dict_get name m
    end.
Proof.
  intros Hnd. induction reports as [|data reports IH]; intros m.
  - simpl. destruct (Param.dict_get name groups) as [cfg|]; [|reflexivity].
    destruct (has_spreadsheet sheets name); [|reflexivity].
    unfold extend. destruct (Param.dict_get name m) as [info|]; [|reflexivity].
    rewrite app_nil_r. destruct info; reflexivity.
  - cbn [group_reports]. destruct (String.eqb (default "" (Sheets.channel data)) "") eqn:E.
    + rewrite IH. destruct (Param.dict_get name groups) as [cfg|]; [|reflexivity].
      cbn [List.filter]. unfold belongs at 2. rewrite E. reflexivity.
    + rewrite IH. rewrite (scan_groups_lookup _ _ _ _ _ Hnd).
      destruct (Param.dict_get name groups) as [cfg|]; [|reflexivity].
      cbn [List.filter]. unfold belongs at 2. rewrite E. cbn [negb andb].
      destruct (has_spreadsheet sheets name); [|rewrite andb_false_r; reflexivity].
      rewrite andb_true_r.
      destruct (has_channel cfg (default "" (Sheets.channel data))); [|reflexivity].
      rewrite extend_extend. reflexivity.
Qed.

(** The grouping hands each group of the configuration that has a
    spreadsheet exactly the reports whose channel is among its channel ids,
    in the order of the reports; a report whose channel is listed by several
    groups goes to each of them; a group without a spreadsheet, or without
    any such report, gets no entry (and so no write). *)
Theorem group_reports_by_channel
        (groups : list (string * group_config)) (sheets : gmap string string)
        (reports : list Sheets.report) (name : string) :
  NoDup (List.map fst groups) ->
  Param.dict_get name (group_reports groups sheets reports []) =
  match Param.dict_get name groups with
  | Some cfg =>
      match List.filter (belongs cfg) reports with
      | [] => None
      | l => if has_spreadsheet sheets name then Some (MkGroupInfo cfg l) else None
      end
  | None => None
  end.
Proof.
  intros Hnd. rewrite (group_reports_lookup _ _ _ Hnd). simpl.
  destruct (Param.dict_get name groups) as [cfg|]; [|reflexivity].
  destruct (has_spreadsheet sheets name); destruct (List.filter (belongs cfg) reports);
    reflexivity.
Qed.

Definition report_of (channel : string) : Sheets.report :=
  Sheets.MkReport (Some "2025-01-10") (Some channel) None None None None None None.

Definition two_groups : list (string * group_config) :=
  [ ("G1", MkGroup (Some "Group one") [Some "FBA8-18"; Some "FBA8-19"]);
    ("G2", MkGroup None [Some "FBA8-19"; None]) ].

Lemma group_reports_by_channel_witness :
  Param.dict_get "G2"
    (group_reports two_groups {[ "G1" := "SHEET1"; "G2" := "SHEET2" ]}
                   [report_of "FBA8-18"; report_of "FBA8-19"; report_of ""] []) =
  match Param.dict_get "G2" two_groups with
  | Some cfg =>
      match List.filter (belongs cfg)
                        [report_of "FBA8-18"; report_of "FBA8-19"; report_of ""] with
      | [] => None
      | l => if has_spreadsheet {[ "G1" := "SHEET1"; "G2" := "SHEET2" ]} "G2"
             then Some (MkGroupInfo cfg l) else None
      end
  | None => None
  end.
Proof.
  apply group_reports_by_channel.
  repeat constructor; simpl; intros H; apply list_elem_of_In in H; simpl in H;
    intuition discriminate.
Defined.

(** A report of a channel that two groups list goes to both; one without a
    channel goes to none. *)
Example group_reports_shared_channel :
  List.map (fun kv => (fst kv, List.map Sheets.channel (data_list (snd kv))))
           (group_reports two_groups {[ "G1" := "SHEET1"; "G2" := "SHEET2" ]}
                          [report_of "FBA8-18"; report_of "FBA8-19"; report_of ""] []) =
  [ ("G1", [Some "FBA8-18"; Some "FBA8-19"]); ("G2", [Some "FBA8-19"]) ].
Proof. vm_compute. reflexivity. Qed.

End ManagerFacts.

(** ** The sheet and its header (src/google_sheets_writer.py) *)

Module SetupFacts.
Import Sheets SheetsFacts Setup.

Lemma lift_run {A : Type} (m : Sheets.M A) (s : state) :
  lift m s = (fst (m (writer s)), MkState (snd (m (writer s))) (_header_cache s) (calls s)).
Proof. unfold lift. destruct (m (writer s)). reflexivity. Qed.

(** What a remote call cannot change. *)
Definition kept (s s' : state) : Prop :=
  service (writer s') = service (writer s) /\
  _sheet_id_cache (writer s') = _sheet_id_cache (writer s) /\
  _header_cache s' = _header_cache s.

Lemma setup_queue_operation_ok req s resp rem :
  service (writer s) = true ->
  faults (writer s) = [] ->
  serve req (remote (writer s)) = inr (resp, rem) ->
  exists s',
    _queue_operation req s = (inr (Some resp), s') /\
    remote (writer s') = rem /\ faults (writer s') = [] /\ kept s s' /\
    calls s' = calls s ++ [(req, None)] /\
    clock (writer s) <= clock (writer s').
Proof.
  intros Hsv Hf Hserve.
  destruct (rate_limit_delay_run (writer s))
    as (w1 & pre & H1 & _ & _ & _ & _ & _ & Hc1 & _ & Hsv1 & Hca1 & Hrem1 & Hf1).
  unfold _queue_operation. change (max_retries + 1)%nat with 6%nat. cbn [retry_loop].
  unfold try_except, bind. rewrite lift_run, H1. cbn [fst snd].
  unfold invoke. cbn [writer _header_cache calls]. rewrite Hsv1, Hsv. cbn [negb].
  destruct req as [r|sid title|sid name values].
  - simpl in Hserve. unfold Sheets.invoke. rewrite Hf1, Hf, Hrem1, Hserve.
    unfold ret. eexists. split; [reflexivity|]. cbn. unfold kept, next_lag. cbn.
    repeat split; try congruence. lia.
  - rewrite Hf1, Hf, Hrem1, Hserve.
    unfold ret. eexists. split; [reflexivity|]. cbn. unfold kept, next_lag. cbn.
    repeat split; try congruence. lia.
  - rewrite Hf1, Hf, Hrem1, Hserve.
    unfold ret. eexists. split; [reflexivity|]. cbn. unfold kept, next_lag. cbn.
    repeat split; try congruence. lia.
Qed.

Lemma setup_queue_operation_refused req s status :
  service (writer s) = true ->
  faults (writer s) = [] ->
  serve req (remote (writer s)) = inl (HttpError status) ->
  status <> 429 ->
  exists s',
    _queue_operation req s = (inl (HttpError status), s') /\
    remote (writer s') = remote (writer s) /\ faults (writer s') = [] /\ kept s s'.
Proof.
  intros Hsv Hf Hserve Hst.
  destruct (rate_limit_delay_run (writer s))
    as (w1 & pre & H1 & _ & _ & _ & _ & _ & Hc1 & _ & Hsv1 & Hca1 & Hrem1 & Hf1).
  unfold _queue_operation. change (max_retries + 1)%nat with 6%nat. cbn [retry_loop].
  unfold try_except, bind. rewrite lift_run, H1. cbn [fst snd].
  unfold invoke. cbn [writer _header_cache calls]. rewrite Hsv1, Hsv. cbn [negb].
  assert (Hno : (status =? 429) = false) by (apply Z.eqb_neq; exact Hst).
  destruct req as [r|sid title|sid name values].
  - simpl in Hserve. unfold Sheets.invoke. rewrite Hf1, Hf, Hrem1, Hserve. cbn iota beta.
    rewrite Hno. unfold raise. eexists. split; [reflexivity|]. cbn. unfold kept. cbn.
    repeat split; congruence.
  - rewrite Hf1, Hf, Hrem1, Hserve. cbn iota beta.
    rewrite Hno. unfold raise. eexists. split; [reflexivity|]. cbn. unfold kept. cbn.
    repeat split; congruence.
  - rewrite Hf1, Hf, Hrem1, Hserve. cbn iota beta.
    rewrite Hno. unfold raise. eexists. split; [reflexivity|]. cbn. unfold kept. cbn.
    repeat split; congruence.
Qed.

(** *** Without the service *)

(** The backoff sleeps still to come from the turn [attempt] on. *)
Definition backoff_left (attempt : nat) : Z := base_delay * (2 ^ 5 - 2 ^ Z.of_nat attempt).

Lemma retry_loop_no_service req :
  forall turns attempt s,
    service (writer s) = false ->
    (attempt + turns = 6)%nat -> (1 <= turns)%nat ->
    exists s',
      retry_loop req max_retries attempt turns s = (inl (Exception "AttributeError"), s') /\
      service (writer s') = false /\
      remote (writer s') = remote (writer s) /\
      _sheet_id_cache (writer s') = _sheet_id_cache (writer s) /\
      _header_cache s' = _header_cache s /\
      calls s' = calls s ++ repeat (req, Some (Exception "AttributeError")) turns /\
      clock (writer s) + backoff_left attempt <= clock (writer s').
Proof.
  induction turns as [|turns IH]; intros attempt s Hsv Hsum Hpos; [lia|].
  destruct (rate_limit_delay_run (writer s))
    as (w1 & pre & H1 & _ & _ & _ & _ & _ & Hc1 & _ & Hsv1 & Hca1 & Hrem1 & Hf1).
  cbn [retry_loop]. unfold try_except, bind. rewrite lift_run, H1. cbn [fst snd].
  unfold invoke. cbn [writer _header_cache calls]. rewrite Hsv1, Hsv. cbn [negb raised_by].
  destruct turns as [|turns].
  - assert (attempt = 5%nat) by lia. subst attempt.
    change (Nat.ltb 5 max_retries) with false. unfold raise. cbn iota.
    eexists. split; [reflexivity|]. cbn.
    repeat split; try congruence. unfold backoff_left. simpl. lia.
  - replace (Nat.ltb attempt max_retries) with true
      by (symmetry; apply Nat.ltb_lt; unfold max_retries; lia).
    cbn iota. rewrite lift_run. cbn [fst snd sleep writer _header_cache calls].
    match goal with
    | |- context [retry_loop req max_retries (S attempt) (S turns) ?s1] =>
        destruct (IH (S attempt) s1) as (s' & Hrun & Hsv' & Hrem' & Hca' & Hhc' & Hcalls' & Hclk');
          [cbn; congruence | lia | lia |]
    end.
    rewrite Hrun. exists s'. split; [reflexivity|].
    cbn in Hrem', Hca', Hhc', Hcalls', Hclk'.
    split; [exact Hsv'|]. split; [congruence|]. split; [congruence|]. split; [exact Hhc'|].
    split.
    + rewrite Hcalls', <- app_assoc. reflexivity.
    + unfold backoff_left, next_lag in *.
      rewrite Nat2Z.inj_succ, Z.pow_succ_r in Hclk' by lia.
      assert (0 < 2 ^ Z.of_nat attempt) by (apply Z.pow_pos_nonneg; lia).
      unfold base_delay in *. lia.
Qed.

Lemma kept_trans s1 s2 s3 : kept s1 s2 -> kept s2 s3 -> kept s1 s3.
Proof. unfold kept. intros (A & B & C) (D & E & F). repeat split; congruence. Qed.

(** *** The sheet *)

Lemma existsb_titles name tabs :
  existsb (fun sh => String.eqb (fst sh) name) (List.map (fun t => (title t, sheetId t)) tabs) =
  match find_tab name tabs with Some _ => true | None => false end.
Proof.
  unfold find_tab. induction tabs as [|t tabs IH]; simpl; [reflexivity|].
  destruct (String.eqb (title t) name); simpl; [reflexivity | exact IH].
Qed.

Lemma find_tab_app_new name tabs t :
  find_tab name tabs = None -> title t = name -> find_tab name (tabs ++ [t]) = Some t.
Proof.
  unfold find_tab. intros Hnone Ht. induction tabs as [|t0 tabs IH]; simpl in *.
  - rewrite Ht, String.eqb_refl. reflexivity.
  - destruct (String.eqb (title t0) name); [discriminate|]. apply IH, Hnone.
Qed.

Lemma new_sheet_id_fresh tabs : Forall (fun t => sheetId t < new_sheet_id tabs) tabs.
Proof.
  unfold new_sheet_id. induction tabs as [|t tabs IH]; simpl; [constructor|].
  constructor; [lia|]. eapply List.Forall_impl; [|exact IH]. cbv beta. intros x Hx. lia.
Qed.

Lemma find_id_app_new tabs t :
  Forall (fun t0 => sheetId t0 < sheetId t) tabs ->
  List.find (fun t0 => sheetId t0 =? sheetId t) (tabs ++ [t]) = Some t.
Proof.
  induction 1 as [|t0 tabs H0 Hall IH]; simpl.
  - rewrite Z.eqb_refl. reflexivity.
  - replace (sheetId t0 =? sheetId t) with false by (symmetry; apply Z.eqb_neq; lia).
    exact IH.
Qed.

(** The run of [create_sheet_if_not_exists] on a spreadsheet that can be
    reached. *)
Lemma create_sheet_outcome (sid name : string) (s : state) (tabs : list sheet_tab) :
  service (writer s) = true ->
  faults (writer s) = [] ->
  remote (writer s) !! sid = Some tabs ->
  exists s',
    create_sheet_if_not_exists sid name s = (inr true, s') /\
    faults (writer s') = [] /\ kept s s' /\
    match find_tab name tabs with
    | Some _ =>
        remote (writer s') = remote (writer s) /\
        calls s' = calls s ++ [(writer_request (spreadsheets_get sid), None)]
    | None =>
        remote (writer s') =
          <[sid := tabs ++ [MkTab name (new_sheet_id tabs) (repeat [] new_sheet_rows)]]>
            (remote (writer s)) /\
        calls s' = calls s ++ [(writer_request (spreadsheets_get sid), None);
                               (add_sheet sid name, None)]
    end.
Proof.
  intros Hsv Hf Hr.
  assert (Hget : serve (writer_request (spreadsheets_get sid)) (remote (writer s)) =
                 inr (sheets_response (List.map (fun t => (title t, sheetId t)) tabs),
                      remote (writer s))).
  { simpl. rewrite Hr. reflexivity. }
  destruct (setup_queue_operation_ok _ s _ _ Hsv Hf Hget)
    as (s1 & Hq1 & Hrem1 & Hf1 & Hk1 & Hcalls1 & _).
  unfold create_sheet_if_not_exists, try_except, bind. rewrite Hq1. cbn [get_sheets ret].
  rewrite existsb_titles.
  destruct (find_tab name tabs) as [t|] eqn:Hfind.
  - exists s1. split; [reflexivity|]. split; [exact Hf1|]. split; [exact Hk1|].
    split; [exact Hrem1 | exact Hcalls1].
  - assert (Hsv1 : service (writer s1) = true) by (destruct Hk1 as (E & _); congruence).
    assert (Hadd : serve (add_sheet sid name) (remote (writer s1)) =
                   inr (done_response,
                        <[sid := tabs ++ [MkTab name (new_sheet_id tabs)
                                                (repeat [] new_sheet_rows)]]>
                          (remote (writer s1)))).
    { simpl. rewrite Hrem1, Hr, Hfind. reflexivity. }
    destruct (setup_queue_operation_ok _ s1 _ _ Hsv1 Hf1 Hadd)
      as (s2 & Hq2 & Hrem2 & Hf2 & Hk2 & Hcalls2 & _).
    rewrite Hq2. exists s2. split; [reflexivity|]. split; [exact Hf2|].
    split; [eapply kept_trans; eassumption|].
    split; [rewrite Hrem2, Hrem1; reflexivity|].
    rewrite Hcalls2, Hcalls1, <- app_assoc. reflexivity.
Qed.

(** On a spreadsheet that can be reached, [create_sheet_if_not_exists]
    returns True and the sheet is there afterwards: it was there before, and
    then one read was made and nothing written; or a sheet of that title and
    of 1000 empty rows has been added behind the sheets there were. *)
Theorem create_sheet_if_not_exists_ok (sid name : string) (s : state) (tabs : list sheet_tab) :
  service (writer s) = true ->
  faults (writer s) = [] ->
  remote (writer s) !! sid = Some tabs ->
  exists s',
    create_sheet_if_not_exists sid name s = (inr true, s') /\
    faults (writer s') = [] /\ kept s s' /\
    match find_tab name tabs with
    | Some _ =>
        remote (writer s') = remote (writer s) /\
        calls s' = calls s ++ [(writer_request (spreadsheets_get sid), None)]
    | None =>
        remote (writer s') =
          <[sid := tabs ++ [MkTab name (new_sheet_id tabs) (repeat [] new_sheet_rows)]]>
            (remote (writer s)) /\
        calls s' = calls s ++ [(writer_request (spreadsheets_get sid), None);
                               (add_sheet sid name, None)]
    end.
Proof. exact (create_sheet_outcome sid name s tabs). Qed.

(** *** The header *)

Definition header_key (sid name : string) : string := (sid ++ "_" ++ name ++ "_headers")%string.

(** Whether the read of A1:J1 shows ten cells: the row as read ends at its
    last cell that is not empty, so this is to say that J1 is not empty. *)
Definition has_header (first_row : row) : bool :=
  Nat.leb 10 (List.length (trim_row first_row)).

Lemma serve_first_row sid name id first_row g rem :
  sheet_at sid name id (first_row :: g) rem ->
  serve (writer_request (values_get sid (RowsAJ name 1 1))) rem =
  inr (values_response (match trim_row first_row with
                        | [] => None
                        | r => Some [r]
                        end), rem).
Proof.
  intros (tabs & Hr & Ht & _). simpl. rewrite Hr. unfold sheet_name_of. rewrite Ht.
  cbn [grid]. change (Z.to_nat (1 - 1 + 1)) with 1%nat. change (Z.to_nat (1 - 1)) with 0%nat.
  cbn [skipn firstn]. unfold read_rows. cbn [List.map strip_end fold_right].
  destruct (trim_row first_row); reflexivity.
Qed.

Lemma serve_headers sid name id first_row g rem tabs :
  rem !! sid = Some tabs ->
  find_tab name tabs = Some (MkTab name id (first_row :: g)) ->
  serve (update_from_A1 sid name [headers]) rem =
  inr (done_response,
       <[sid := set_grid id (overwrite_cells headers first_row :: g) tabs]> rem).
Proof.
  intros Hr Ht. simpl. rewrite Hr, Ht. cbn [grid sheetId List.length]. cbn [Nat.leb].
  destruct g; reflexivity.
Qed.

(** The run of [ensure_sheet_headers] on a sheet that can be reached. *)
Lemma ensure_headers_outcome
        (sid name : string) (id : Z) (first_row : row) (g : list row) (s : state) :
  service (writer s) = true ->
  faults (writer s) = [] ->
  sheet_at sid name id (first_row :: g) (remote (writer s)) ->
  _header_cache s !! header_key sid name = None ->
  exists s',
    ensure_sheet_headers sid name s = (inr true, s') /\
    sheet_at sid name id
             ((if has_header first_row then first_row
               else (headers ++ skipn 10 first_row)%list) :: g)
             (remote (writer s')) /\
    faults (writer s') = [] /\
    service (writer s') = true /\
    _sheet_id_cache (writer s') = _sheet_id_cache (writer s) /\
    ensure_sheet_headers sid name s' = (inr true, s').
Proof.
  intros Hsv Hf Hat Hmiss.
  assert (Hhit : forall s' : state,
             _header_cache s' !! header_key sid name = Some true ->
             ensure_sheet_headers sid name s' = (inr true, s')).
  { intros s' H. unfold ensure_sheet_headers, try_except, bind, get_state.
    fold (header_key sid name). rewrite H. reflexivity. }
  pose proof (serve_first_row sid name id first_row g _ Hat) as Hget.
  destruct (setup_queue_operation_ok _ s _ _ Hsv Hf Hget)
    as (s1 & Hq1 & Hrem1 & Hf1 & (Hsv1 & Hca1 & Hhc1) & _ & _).
  unfold ensure_sheet_headers at 1, try_except, bind, get_state.
  fold (header_key sid name). rewrite Hmiss, Hq1.
  unfold has_header.
  destruct (trim_row first_row) as [|c cells] eqn:Htrim.
  - (* nothing in A1:J1 *)
    cbn [get_values ret List.length Nat.leb].
    destruct Hat as (tabs & Hr & Ht & Hi).
    assert (Hupd := serve_headers sid name id first_row g _ tabs Hr Ht).
    rewrite <- Hrem1 in Hupd.
    assert (Hsv1' : service (writer s1) = true) by congruence.
    destruct (setup_queue_operation_ok _ s1 _ _ Hsv1' Hf1 Hupd)
      as (s2 & Hq2 & Hrem2 & Hf2 & (Hsv2 & Hca2 & Hhc2) & _ & _).
    rewrite Hq2. unfold cache_header. cbn [ret].
    eexists. split; [reflexivity|]. cbn [writer _header_cache].
    split; [|split; [exact Hf2|split; [congruence|split; [congruence|]]]].
    + rewrite Hrem2, Hrem1. unfold overwrite_cells.
      change (List.length headers) with 10%nat.
      eapply sheet_at_set_grid; eassumption.
    + apply Hhit. cbn [_header_cache]. apply lookup_insert_eq.
  - cbn [get_values ret].
    destruct (Nat.leb 10 (List.length (c :: cells))) eqn:Hten.
    + unfold cache_header. cbn [ret].
      eexists. split; [reflexivity|]. cbn [writer _header_cache].
      split; [|split; [exact Hf1|split; [congruence|split; [congruence|]]]].
      * rewrite Hrem1. exact Hat.
      * apply Hhit. cbn [_header_cache]. apply lookup_insert_eq.
    + destruct Hat as (tabs & Hr & Ht & Hi).
      assert (Hupd := serve_headers sid name id first_row g _ tabs Hr Ht).
      rewrite <- Hrem1 in Hupd.
      assert (Hsv1' : service (writer s1) = true) by congruence.
      destruct (setup_queue_operation_ok _ s1 _ _ Hsv1' Hf1 Hupd)
        as (s2 & Hq2 & Hrem2 & Hf2 & (Hsv2 & Hca2 & Hhc2) & _ & _).
      rewrite Hq2. unfold cache_header. cbn [ret].
      eexists. split; [reflexivity|]. cbn [writer _header_cache].
      split; [|split; [exact Hf2|split; [congruence|split; [congruence|]]]].
      * rewrite Hrem2, Hrem1. unfold overwrite_cells.
        change (List.length headers) with 10%nat.
        eapply sheet_at_set_grid; eassumption.
      * apply Hhit. cbn [_header_cache]. apply lookup_insert_eq.
Qed.

(** On a sheet that can be reached and has at least one row,
    [ensure_sheet_headers] returns True. It writes the header over the cells
    A1 to J1 if and only if J1 was empty, and touches no other cell; from
    then on it answers True from its cache, with no remote call. *)
Theorem ensure_sheet_headers_ok
        (sid name : string) (id : Z) (first_row : row) (g : list row) (s : state) :
  service (writer s) = true ->
  faults (writer s) = [] ->
  sheet_at sid name id (first_row :: g) (remote (writer s)) ->
  _header_cache s !! header_key sid name = None ->
  exists s',
    ensure_sheet_headers sid name s = (inr true, s') /\
    sheet_at sid name id
             ((if has_header first_row then first_row
               else (headers ++ skipn 10 first_row)%list) :: g)
             (remote (writer s')) /\
    faults (writer s') = [] /\
    service (writer s') = true /\
    _sheet_id_cache (writer s') = _sheet_id_cache (writer s) /\
    ensure_sheet_headers sid name s' = (inr true, s').
Proof. exact (ensure_headers_outcome sid name id first_row g s). Qed.

(** *** The writes of one group *)

Lemma create_sheet_no_service sid name s :
  service (writer s) = false ->
  exists s',
    create_sheet_if_not_exists sid name s = (inr false, s') /\
    service (writer s') = false /\
    remote (writer s') = remote (writer s) /\
    _header_cache s' = _header_cache s /\
    calls s' = calls s ++ repeat (writer_request (spreadsheets_get sid),
                                  Some (Exception "AttributeError")) 6 /\
    clock (writer s) + 93000 <= clock (writer s').
Proof.
  intros Hsv.
  destruct (retry_loop_no_service (writer_request (spreadsheets_get sid)) 6 0 s Hsv
              eq_refl ltac:(lia))
    as (s' & Hrun & Hsv' & Hrem & _ & Hhc & Hcalls & Hclk).
  unfold create_sheet_if_not_exists, try_except, bind, _queue_operation.
  change (max_retries + 1)%nat with 6%nat. rewrite Hrun.
  exists s'. split; [reflexivity|]. repeat split; assumption.
Qed.

Lemma ensure_headers_no_service sid name s :
  service (writer s) = false ->
  _header_cache s !! header_key sid name = None ->
  exists s',
    ensure_sheet_headers sid name s = (inr false, s') /\
    service (writer s') = false /\
    remote (writer s') = remote (writer s) /\
    calls s' = calls s ++ repeat (writer_request (values_get sid (RowsAJ name 1 1)),
                                  Some (Exception "AttributeError")) 6 /\
    clock (writer s) + 93000 <= clock (writer s').
Proof.
  intros Hsv Hmiss.
  destruct (retry_loop_no_service (writer_request (values_get sid (RowsAJ name 1 1))) 6 0 s Hsv
              eq_refl ltac:(lia))
    as (s' & Hrun & Hsv' & Hrem & _ & Hhc & Hcalls & Hclk).
  unfold ensure_sheet_headers, try_except, bind, get_state, _queue_operation.
  fold (header_key sid name). rewrite Hmiss.
  change (max_retries + 1)%nat with 6%nat. rewrite Hrun.
  exists s'. split; [reflexivity|]. repeat split; assumption.
Qed.

(** A writer whose service was not initialised (no credentials file, say):
    for each group the manager still goes through the sheet and the header,
    each of which tries six times and sleeps through the five backoff
    delays, 93 seconds, before it gives up; then [write_daily_data] returns
    False at once. No request reaches the service. *)
Theorem write_group_daily_no_service
        (sid name group_name : string) (info : Manager.group_info) (s : state) :
  service (writer s) = false ->
  _header_cache s !! header_key sid name = None ->
  exists s',
    Manager.write_group_daily sid name group_name info s = (inr false, s') /\
    remote (writer s') = remote (writer s) /\
    calls s' = calls s ++
               repeat (writer_request (spreadsheets_get sid),
                       Some (Exception "AttributeError")) 6 ++
               repeat (writer_request (values_get sid (RowsAJ name 1 1)),
                       Some (Exception "AttributeError")) 6 /\
    clock (writer s) + 2 * 93000 <= clock (writer s').
Proof.
  intros Hsv Hmiss.
  destruct (create_sheet_no_service sid name s Hsv)
    as (s1 & Hrun1 & Hsv1 & Hrem1 & Hhc1 & Hcalls1 & Hclk1).
  assert (Hmiss1 : _header_cache s1 !! header_key sid name = None) by congruence.
  destruct (ensure_headers_no_service sid name s1 Hsv1 Hmiss1)
    as (s2 & Hrun2 & Hsv2 & Hrem2 & Hcalls2 & Hclk2).
  unfold Manager.write_group_daily, bind. rewrite Hrun1, Hrun2.
  rewrite lift_run.
  assert (Hw : forall l g, write_daily_data sid name l g (writer s2) = (inr false, writer s2)).
  { intros l g. unfold write_daily_data, Sheets.try_except, Sheets.bind, Sheets.get_state.
    rewrite Hsv2. reflexivity. }
  rewrite Hw. cbn [fst snd].
  eexists. split; [reflexivity|]. cbn [writer calls].
  split; [congruence|]. split; [|lia].
  rewrite Hcalls2, Hcalls1, <- app_assoc. reflexivity.
Qed.

Lemma strip_end_blank_rows n :
  strip_end is_nil (List.map trim_row (repeat [] n)) = [].
Proof.
  induction n as [|n IH]; [reflexivity|].
  cbn [repeat List.map]. rewrite strip_end_cons, IH. reflexivity.
Qed.

Lemma values_of_header_only n : values_of (headers :: repeat [] n) = [headers].
Proof.
  unfold values_of, read_rows. cbn [List.map]. rewrite strip_end_cons, strip_end_blank_rows.
  reflexivity.
Qed.

(** The first report of a group to a spreadsheet that has no sheet of the
    name yet, on a network without faults: the sheet is made, gets the
    header row, and the rows of the report are written below it, in the
    order of the report; after them come the 999 empty rows that are left of
    the new sheet. *)
Theorem write_group_daily_new_sheet
        (sid name group_name : string) (info : Manager.group_info) (s : state)
        (tabs : list sheet_tab) (first : report) (rest : list report) :
  service (writer s) = true ->
  faults (writer s) = [] ->
  remote (writer s) !! sid = Some tabs ->
  find_tab name tabs = None ->
  _sheet_id_cache (writer s) !! (sid ++ "_" ++ name)%string = None ->
  _header_cache s !! header_key sid name = None ->
  Manager.data_list info = first :: rest ->
  default group_name (Manager.group_label (Manager.config info)) <> "群组" ->
  exists s' timestamp,
    Manager.write_group_daily sid name group_name info s = (inr true, s') /\
    sheet_at sid name (new_sheet_id tabs)
             (headers ::
              List.map (build_row timestamp
                          (default group_name (Manager.group_label (Manager.config info))))
                       (first :: rest)
                ++ repeat [] 999)
             (remote (writer s')).
Proof.
  set (label := default group_name (Manager.group_label (Manager.config info))).
  intros Hsv Hf Hr Hnone Hidc Hhc Hdata Hlabel.
  destruct (create_sheet_outcome sid name s tabs Hsv Hf Hr)
    as (s1 & Hrun1 & Hf1 & (Hsv1 & Hca1 & Hhc1) & Hres).
  rewrite Hnone in Hres. destruct Hres as [Hrem1 _].
  set (id := new_sheet_id tabs) in *.
  assert (Hat1 : sheet_at sid name id ([] :: repeat [] 999) (remote (writer s1))).
  { exists (tabs ++ [MkTab name id (repeat [] new_sheet_rows)]).
    rewrite Hrem1. split; [apply lookup_insert_eq|]. split.
    - apply find_tab_app_new; [exact Hnone | reflexivity].
    - apply (find_id_app_new tabs (MkTab name id (repeat [] new_sheet_rows))).
      apply new_sheet_id_fresh. }
  assert (Hsv1' : service (writer s1) = true) by congruence.
  assert (Hhc1' : _header_cache s1 !! header_key sid name = None) by congruence.
  destruct (ensure_headers_outcome sid name id [] (repeat [] 999) s1 Hsv1' Hf1 Hat1 Hhc1')
    as (s2 & Hrun2 & Hat2 & Hf2 & Hsv2 & Hca2 & _).
  change (if has_header [] then [] else (headers ++ skipn 10 [])%list) with headers in Hat2.
  unfold Manager.write_group_daily, bind. rewrite Hrun1, Hrun2, lift_run, Hdata.
  fold label.
  assert (Hh : healthy sid name id (headers :: repeat [] 999) (writer s2)).
  { split; [exact Hf2|]. split; [exact Hat2|]. left. congruence. }
  assert (Hrows : rows_matching_date (default "" (create_time first)) label 0
                                     (values_of (headers :: repeat [] 999)) = block 1 0).
  { rewrite values_of_header_only. unfold block. cbn [seq List.map].
    rewrite rows_matching_date_cons. cbv zeta.
    change (Nat.leb 3 (List.length headers)) with true. cbv iota.
    change (nth 1 headers "") with "群组".
    replace (String.eqb "群组" label) with false
      by (symmetry; apply String.eqb_neq; congruence).
    rewrite andb_false_r. reflexivity. }
  destruct (write_daily_data_block sid name id (headers :: repeat [] 999) (writer s2)
              first rest label 1 0 Hsv2 Hh Hrows (le_n 1) ltac:(simpl; lia))
    as (w3 & Hrun3 & (_ & Hat3 & _) & _).
  rewrite Hrun3. cbn [fst snd].
  eexists _, _. split; [reflexivity|]. cbn [writer]. exact Hat3.
Qed.

(** *** Scenarios *)

(** A writer on the spreadsheet SHEET1, which has the sheet Daily-Report
    with a row of nine cells and two empty rows. *)
Definition short_header : row :=
  [ "written"; "group"; "date"; "channel"; "registrations"; "payers"; "amount";
    "deposit"; "withdraw" ].

Definition setup_on (service : bool) : state :=
  MkState (Sheets.MkState service 0 ∅
             {[ "SHEET1" := [MkTab "Daily-Report" 7 [short_header; []; []]] ]}
             start_clock [] [] [])
          ∅ [].

Lemma create_sheet_if_not_exists_ok_witness :
  exists s',
    create_sheet_if_not_exists "SHEET1" "Hourly-Report" (setup_on true) = (inr true, s') /\
    faults (writer s') = [] /\ kept (setup_on true) s' /\
    match find_tab "Hourly-Report" [MkTab "Daily-Report" 7 [short_header; []; []]] with
    | Some _ =>
        remote (writer s') = remote (writer (setup_on true)) /\
        calls s' = calls (setup_on true) ++
                   [(writer_request (spreadsheets_get "SHEET1"), None)]
    | None =>
        remote (writer s') =
          <[ "SHEET1" := [MkTab "Daily-Report" 7 [short_header; []; []]] ++
                         [MkTab "Hourly-Report"
                                (new_sheet_id [MkTab "Daily-Report" 7 [short_header; []; []]])
                                (repeat [] new_sheet_rows)] ]>
            (remote (writer (setup_on true))) /\
        calls s' = calls (setup_on true) ++
                   [(writer_request (spreadsheets_get "SHEET1"), None);
                    (add_sheet "SHEET1" "Hourly-Report", None)]
    end.
Proof.
  apply (create_sheet_if_not_exists_ok "SHEET1" "Hourly-Report" (setup_on true)
           [MkTab "Daily-Report" 7 [short_header; []; []]]); reflexivity.
Defined.

Lemma setup_on_sheet_at :
  sheet_at "SHEET1" "Daily-Report" 7 [short_header; []; []] (remote (writer (setup_on true))).
Proof. exists [MkTab "Daily-Report" 7 [short_header; []; []]]. repeat split. Qed.

Lemma ensure_sheet_headers_ok_witness :
  exists s',
    ensure_sheet_headers "SHEET1" "Daily-Report" (setup_on true) = (inr true, s') /\
    sheet_at "SHEET1" "Daily-Report" 7
             ((if has_header short_header then short_header
               else (headers ++ skipn 10 short_header)%list) :: [[]; []])
             (remote (writer s')) /\
    faults (writer s') = [] /\
    service (writer s') = true /\
    _sheet_id_cache (writer s') = _sheet_id_cache (writer (setup_on true)) /\
    ensure_sheet_headers "SHEET1" "Daily-Report" s' = (inr true, s').
Proof.
  apply (ensure_sheet_headers_ok "SHEET1" "Daily-Report" 7 short_header [[]; []]
           (setup_on true)).
  - reflexivity.
  - reflexivity.
  - apply setup_on_sheet_at.
  - reflexivity.
Defined.

(** A row of nine cells in row 1 does not count as a header and is
    written over. *)
Example ensure_sheet_headers_short_row :
  has_header short_header = false /\
  fst (ensure_sheet_headers "SHEET1" "Daily-Report" (setup_on true)) = inr true /\
  List.map snd (calls (snd (ensure_sheet_headers "SHEET1" "Daily-Report" (setup_on true)))) =
    [None; None] /\
  (remote (writer (snd (ensure_sheet_headers "SHEET1" "Daily-Report" (setup_on true)))))
    !! "SHEET1" = Some [MkTab "Daily-Report" 7 [headers; []; []]].
Proof. vm_compute. repeat split; reflexivity. Qed.

Definition one_group : Manager.group_info :=
  Manager.MkGroupInfo (Manager.MkGroup (Some "G1") [Some "FBA8-18"]) [one_report].

Lemma write_group_daily_no_service_witness :
  exists s',
    Manager.write_group_daily "SHEET1" "Daily-Report" "group1" one_group (setup_on false) =
      (inr false, s') /\
    remote (writer s') = remote (writer (setup_on false)) /\
    calls s' = calls (setup_on false) ++
               repeat (writer_request (spreadsheets_get "SHEET1"),
                       Some (Exception "AttributeError")) 6 ++
               repeat (writer_request (values_get "SHEET1" (RowsAJ "Daily-Report" 1 1)),
                       Some (Exception "AttributeError")) 6 /\
    clock (writer (setup_on false)) + 2 * 93000 <= clock (writer s').
Proof.
  apply (write_group_daily_no_service "SHEET1" "Daily-Report" "group1" one_group
           (setup_on false)); reflexivity.
Defined.

Lemma write_group_daily_new_sheet_witness :
  exists s' timestamp,
    Manager.write_group_daily "SHEET1" "Hourly-Report" "group1" one_group (setup_on true) =
      (inr true, s') /\
    sheet_at "SHEET1" "Hourly-Report"
             (new_sheet_id [MkTab "Daily-Report" 7 [short_header; []; []]])
             (headers :: List.map (build_row timestamp "G1") [one_report] ++ repeat [] 999)
             (remote (writer s')).
Proof.
  apply (write_group_daily_new_sheet "SHEET1" "Hourly-Report" "group1" one_group
           (setup_on true) [MkTab "Daily-Report" 7 [short_header; []; []]] one_report []);
    try reflexivity.
  discriminate.
Defined.

End SetupFacts.
